(** * romea_controllers: the ackermann and four-wheel-steering controllers

    A shallow embedding of [ackermann_controller.cpp] and
    [four_wheel_steering_controller.cpp].

    - A C++ [double] is a primitive binary64 float, so NaN, signed zeros and
      rounding are those of the program; [dt > timeout] is [timeout <? dt].
    - [ros::Time] and [ros::Duration] (seconds and nanoseconds, normalised) are
      counted in nanoseconds in [Z]; [toSec] is roscpp's
      [(double)sec + 1e-9*(double)nsec].
    - A joint handle is the name of the hardware resource it points to and the
      interface it was taken from.  What a handle reads comes from the
      [Sensors] of the cycle; each [setCommand] is recorded, in program order,
      as an effect of the call, next to the messages handed to the publishers.
    - A realtime publisher is the node handle and the topic it is built on,
      with its message [msg_].
    - The odometry estimator, the speed limiter and the libm, tf, urdf and
      roscpp functions are not part of the two translation units: they are the
      operations of the classes [OdometryOps] and [Env].
    - Log statements are left out. *)

From Stdlib Require Import ZArith List String Ascii Bool Lia.
From Stdlib Require Import Floats.
From coqutil Require Import Datatypes.RecordSetters.
Import ListNotations.
Import TriangleBracketNotations.

Set Warnings "-inexact-float,-register-all".
Local Open Scope float_scope.

(** ** roscpp time *)

Module ros.

Definition Time := Z.
Definition Duration := Z.

(** [(double)n] for an integer [n]; exact below [2^53], which covers the
    32-bit fields of a time and the size of a joint vector. *)
Fixpoint pos_to_double (p : positive) : float :=
  match p with
  | xH => 1
  | xO q => 2 * pos_to_double q
  | xI q => 2 * pos_to_double q + 1
  end.

Definition to_double (z : Z) : float :=
  match z with
  | Z0 => 0
  | Zpos p => pos_to_double p
  | Zneg p => - pos_to_double p
  end.

Definition nsec_per_sec : Z := 1000000000.

(** [DurationBase::toSec]: [sec] is the floor of the duration in seconds and
    [nsec] lies in [0, 10^9). *)
Definition toSec (d : Duration) : float :=
  to_double (d / nsec_per_sec) + 1e-9 * to_double (d mod nsec_per_sec).

End ros.

Import ros.

(** ** hardware_interface *)

Inductive Interface := PositionJointInterface | VelocityJointInterface.

Record JointHandle := {
  iface : Interface;
  joint_name : string
}.

(** A default-constructed handle, what [resize] fills a vector with. *)
Definition null_handle : JointHandle :=
  {| iface := VelocityJointInterface; joint_name := EmptyString |}.

(** The joint states the handles read during one cycle. *)
Record Sensors := {
  position : string -> float;
  velocity : string -> float
}.

Definition getPosition (s : Sensors) (h : JointHandle) : float :=
  position s (joint_name h).

Definition getVelocity (s : Sensors) (h : JointHandle) : float :=
  velocity s (joint_name h).

(** Outcome of the two [trylock] calls of a cycle (the publishers' locks are
    shared with their publishing threads). *)
Record Locks := {
  odom_trylock : bool;
  tf_trylock : bool
}.

(** ** Messages *)

Record Quaternion := { qx : float; qy : float; qz : float; qw : float }.

Record OdometryMsg := {
  header_stamp : Time;
  header_frame_id : string;
  child_frame_id : string;
  position_x : float;
  position_y : float;
  position_z : float;
  orientation : Quaternion;
  pose_covariance : list float;
  linear_x : float;
  linear_y : float;
  linear_z : float;
  angular_x : float;
  angular_y : float;
  angular_z : float;
  twist_covariance : list float
}.

Record TransformStamped := {
  tf_stamp : Time;
  tf_frame_id : string;
  tf_child_frame_id : string;
  translation_x : float;
  translation_y : float;
  translation_z : float;
  rotation : Quaternion
}.

Record tfMessage := { transforms : list TransformStamped }.

(** What a call does to the world outside the controller object. *)
Inductive Effect :=
| SetCommand (h : JointHandle) (v : float)
| PublishOdom (m : OdometryMsg)
| PublishTf (m : tfMessage).

Definition is_SetCommand (e : Effect) : bool :=
  match e with SetCommand _ _ => true | _ => false end.

Definition is_PublishOdom (e : Effect) : bool :=
  match e with PublishOdom _ => true | _ => false end.

Definition is_PublishTf (e : Effect) : bool :=
  match e with PublishTf _ => true | _ => false end.

Definition writes_to (h : JointHandle) (e : Effect) : bool :=
  match e with
  | SetCommand h' _ =>
      String.eqb (joint_name h) (joint_name h') &&
      match iface h, iface h' with
      | PositionJointInterface, PositionJointInterface => true
      | VelocityJointInterface, VelocityJointInterface => true
      | _, _ => false
      end
  | _ => false
  end.

(** The command register of every joint after a list of effects: the last
    [setCommand] on a name wins, whichever handle made it. *)
Fixpoint run_commands (es : list Effect) (cmd : string -> float) : string -> float :=
  match es with
  | [] => cmd
  | SetCommand h v :: rest =>
      run_commands rest (fun n => if String.eqb n (joint_name h) then v else cmd n)
  | _ :: rest => run_commands rest cmd
  end.

(** The odometry messages among the effects of a call. *)
Definition published_odom (es : list Effect) : nat :=
  List.length (filter is_PublishOdom es).

Definition published_tf (es : list Effect) : nat :=
  List.length (filter is_PublishTf es).

(** What the control loop hands to one call of [update], with the state of
    the world during it. *)
Record Cycle := {
  cycle_sensors : Sensors;
  cycle_locks : Locks;
  cycle_time : Time;
  cycle_period : Duration
}.

(** ** controller_interface::ControllerBase *)

Inductive ControllerState := CONSTRUCTED | INITIALIZED | RUNNING.

(** ** The speed limiter's configuration *)

Record SpeedLimiter := {
  has_velocity_limits : bool;
  has_acceleration_limits : bool;
  has_jerk_limits : bool;
  min_velocity : float;
  max_velocity : float;
  min_acceleration : float;
  max_acceleration : float;
  min_jerk : float;
  max_jerk : float
}.

(** ** The odometry estimator, as the controllers use it *)

Class OdometryOps (O : Type) := {
  odometry_init : O -> Time -> O;
  odometry_update : O -> float -> float -> float -> Time -> O;
  odometry_updateOpenLoop : O -> float -> float -> Time -> O;
  getHeading : O -> float;
  getX : O -> float;
  getY : O -> float;
  getLinear : O -> float;
  getAngular : O -> float;
  setVelocityRollingWindowSize : O -> Z -> O
}.

(** ** A call that may not return: exception, failed assertion, null pointer,
       undefined conversion *)

Inductive Result (A : Type) :=
| Ok (a : A)
| Abort.

Arguments Ok {A} a.
Arguments Abort {A}.

Definition bind {A B : Type} (r : Result A) (k : A -> Result B) : Result B :=
  match r with
  | Ok a => k a
  | Abort => Abort
  end.

Notation "'do' x <- r ; k" := (bind r (fun x => k))
  (at level 10, x pattern, r at level 100, k at level 200).

(** ** Parameter server (XmlRpc values behind a node handle) *)

Inductive XmlRpcValue :=
| TypeInvalid
| TypeBoolean (b : bool)
| TypeInt (i : Z)
| TypeDouble (d : float)
| TypeString (s : string)
| TypeArray (l : list XmlRpcValue)
| TypeOther.

Record NodeHandle := {
  getNamespace : string;
  param_value : string -> option XmlRpcValue
}.

(** [NodeHandle::getParam] at the types the controllers read.  A double
    parameter may be stored as an integer. *)
Definition getParam_double (nh : NodeHandle) (key : string) : option float :=
  match param_value nh key with
  | Some (TypeDouble d) => Some d
  | Some (TypeInt i) => Some (to_double i)
  | _ => None
  end.

Definition getParam_bool (nh : NodeHandle) (key : string) : option bool :=
  match param_value nh key with
  | Some (TypeBoolean b) => Some b
  | _ => None
  end.

(** The conversion roscpp applies to a double parameter read as an [int]:
    [floor(d)] when [fmod(d, 1.0) < 0.5], [ceil(d)] otherwise, and then
    [i = d].  [fmod] has the sign of [d], so every negative [d] is rounded
    down.  [None] where the conversion to [int] is undefined: NaN, an
    infinity, a value outside the range of [int]. *)
Definition double_to_int (d : float) : option Z :=
  match Prim2SF d with
  | S754_zero _ => Some 0%Z
  | S754_finite s m e =>
      let numerator := if s then Zneg m else Zpos m in
      let rounded :=
        match e with
        | Zneg k =>
            let denominator := (2 ^ Zpos k)%Z in
            let floor := (numerator / denominator)%Z in
            let rest := (numerator mod denominator)%Z in
            if (negb s && (denominator <=? 2 * rest)%Z)%bool then (floor + 1)%Z else floor
        | _ => (numerator * 2 ^ e)%Z
        end in
      if ((-2147483648 <=? rounded)%Z && (rounded <=? 2147483647)%Z)%bool
      then Some rounded
      else None
  | _ => None
  end.

(** An [int] parameter may be stored as a double, which is then rounded. *)
Definition getParam_int (nh : NodeHandle) (key : string) : Result (option Z) :=
  match param_value nh key with
  | Some (TypeInt i) => Ok (Some i)
  | Some (TypeDouble d) =>
      match double_to_int d with
      | Some i => Ok (Some i)
      | None => Abort
      end
  | _ => Ok None
  end.

Definition getParam_string (nh : NodeHandle) (key : string) : option string :=
  match param_value nh key with
  | Some (TypeString s) => Some s
  | _ => None
  end.

(** [nh.param(key, var, default)]. *)
Definition param {A : Type} (get : NodeHandle -> string -> option A)
  (nh : NodeHandle) (key : string) (default : A) : A :=
  match get nh key with
  | Some v => v
  | None => default
  end.

(** [nh.param(key, var, default)] on an [int]. *)
Definition param_int (nh : NodeHandle) (key : string) (default : Z) : Result Z :=
  do v <- getParam_int nh key;
  Ok match v with
     | Some i => i
     | None => default
     end.

(** ** realtime_tools *)

(** What [realtime_tools::RealtimePublisher<M>(node, topic, 100)] is built
    with, and its message [msg_]. *)
Record RealtimePublisher (M : Type) := {
  node_ : NodeHandle;
  topic_ : string;
  msg_ : M
}.

Arguments node_ {M} r.
Arguments topic_ {M} r.
Arguments msg_ {M} r.

(** ** urdf *)

Record Vector3 := { vx : float; vy : float; vz : float }.

Inductive Geometry :=
| SPHERE
| BOX
| CYLINDER (radius : float) (length : float)
| MESH.

Record Collision := { geometry : option Geometry }.

Record Link := {
  link_name : string;
  collision : option Collision
}.

Record Joint := {
  parent_to_joint_origin_position : Vector3;
  child_link_name : string
}.

Record ModelInterface := {
  getJoint : string -> option Joint;
  getLink : string -> option Link
}.

(** ** Library functions the controllers call *)

Class Env := {
  limit : SpeedLimiter -> float -> float -> float -> float -> float;
  createQuaternionMsgFromYaw : float -> Quaternion;
  atan : float -> float;
  pow : float -> float -> float;
  copysign : float -> float -> float;
  parseURDF : string -> option ModelInterface;
  Duration_fromSec : float -> Duration
}.

(** ** Helpers shared, word for word, by the two translation units *)

Section Helpers.

Context {env : Env}.

Definition euclideanOfVectors (vec1 vec2 : Vector3) : float :=
  sqrt (pow (vx vec1 - vx vec2) 2 +
        pow (vy vec1 - vy vec2) 2 +
        pow (vz vec1 - vz vec2) 2).

Definition isCylinder (link : option Link) : bool :=
  match link with
  | None => false
  | Some l =>
      match collision l with
      | None => false
      | Some c =>
          match geometry c with
          | Some (CYLINDER _ _) => true
          | _ => false
          end
      end
  end.

(** [Ok None] is [return false]; the error message of that branch reads
    [wheel_link->name], so a null link does not return. *)
Definition getWheelRadius (wheel_link : option Link) : Result (option float) :=
  if negb (isCylinder wheel_link) then
    match wheel_link with
    | None => Abort
    | Some _ => Ok None
    end
  else
    match wheel_link with
    | Some {| collision := Some {| geometry := Some (CYLINDER r _) |} |} => Ok (Some r)
    | _ => Abort
    end.

(** The names read from one wheel parameter, [None] for [return false]. *)
Definition getWheelNames (controller_nh : NodeHandle) (wheel_param : string)
  : option (list string) :=
  match param_value controller_nh wheel_param with
  | None => None
  | Some (TypeArray wheel_list) =>
      match wheel_list with
      | [] => None
      | _ =>
          if forallb (fun v => match v with TypeString _ => true | _ => false end)
                     wheel_list
          then Some (map (fun v => match v with TypeString s => s | _ => EmptyString end)
                         wheel_list)
          else None
      end
  | Some (TypeString s) => Some [s]
  | Some _ => None
  end.

(** [setOdomParamsFromUrdf]: the boolean returned, with [wheel_separation_]
    and [wheel_radius_] as the call leaves them. *)
Definition setOdomParamsFromUrdf (root_nh : NodeHandle)
  (left_wheel_name right_wheel_name : string)
  (lookup_wheel_separation lookup_wheel_radius : bool)
  (wheel_separation_ wheel_radius_ : float) : Result (bool * float * float) :=
  if negb (lookup_wheel_separation || lookup_wheel_radius)
  then Ok (true, wheel_separation_, wheel_radius_)
  else
    match getParam_string root_nh "robot_description" with
    | None => Ok (false, wheel_separation_, wheel_radius_)
    | Some robot_model_str =>
        match parseURDF robot_model_str with
        | None => Abort
        | Some model =>
            let left_wheel_joint := getJoint model left_wheel_name in
            let right_wheel_joint := getJoint model right_wheel_name in
            let separation :=
              if lookup_wheel_separation then
                match left_wheel_joint, right_wheel_joint with
                | Some l, Some r =>
                    Some (euclideanOfVectors (parent_to_joint_origin_position l)
                                             (parent_to_joint_origin_position r))
                | _, _ => None
                end
              else Some wheel_separation_ in
            match separation with
            | None => Ok (false, wheel_separation_, wheel_radius_)
            | Some ws =>
                if lookup_wheel_radius then
                  match left_wheel_joint with
                  | None => Abort
                  | Some l =>
                      do r <- getWheelRadius (getLink model (child_link_name l));
                      match r with
                      | None => Ok (false, ws, wheel_radius_)
                      | Some wr => Ok (true, ws, wr)
                      end
                  end
                else Ok (true, ws, wheel_radius_)
            end
        end
    end.

(** The six diagonal entries of a covariance parameter; the assertions on its
    type and size do not return when they fail. *)
Definition covariance_diagonal (controller_nh : NodeHandle) (key : string)
  : Result (list float) :=
  match param_value controller_nh key with
  | Some (TypeArray l) =>
      if (Nat.eqb (List.length l) 6 &&
          forallb (fun v => match v with TypeDouble _ => true | _ => false end) l)%bool
      then Ok (map (fun v => match v with TypeDouble d => d | _ => 0 end) l)
      else Abort
  | _ => Abort
  end.

(** The 6x6 matrix, row by row, that [boost::assign::list_of] builds. *)
Definition diagonal_matrix (d : list float) : list float :=
  flat_map (fun i => map (fun j => if Nat.eqb i j then nth i d 0 else 0) (seq 0 6))
           (seq 0 6).

Definition default_quaternion : Quaternion :=
  {| qx := 0; qy := 0; qz := 0; qw := 0 |}.

(** [setOdomPubFields]: the two fresh publishers, the odometry one built on
    [controller_nh] and the tf one on [root_nh]. *)
Definition setOdomPubFields (root_nh controller_nh : NodeHandle) (base_frame_id_ : string)
  : Result (RealtimePublisher OdometryMsg * RealtimePublisher tfMessage) :=
  do pose_cov <- covariance_diagonal controller_nh "pose_covariance_diagonal";
  do twist_cov <- covariance_diagonal controller_nh "twist_covariance_diagonal";
  Ok ({| node_ := controller_nh;
         topic_ := "odom";
         msg_ :=
           {| header_stamp := 0%Z;
              header_frame_id := "odom";
              child_frame_id := base_frame_id_;
              position_x := 0; position_y := 0; position_z := 0;
              orientation := default_quaternion;
              pose_covariance := diagonal_matrix pose_cov;
              linear_x := 0; linear_y := 0; linear_z := 0;
              angular_x := 0; angular_y := 0; angular_z := 0;
              twist_covariance := diagonal_matrix twist_cov |} |},
      {| node_ := root_nh;
         topic_ := "/tf";
         msg_ :=
           {| transforms :=
                [ {| tf_stamp := 0%Z;
                     tf_frame_id := "odom";
                     tf_child_frame_id := base_frame_id_;
                     translation_x := 0; translation_y := 0; translation_z := 0;
                     rotation := default_quaternion |} ] |} |}).

(** [complete_ns.substr(complete_ns.find_last_of("/") + 1)]. *)
Fixpoint after_last_slash (s : string) : string :=
  match s with
  | EmptyString => EmptyString
  | String c rest =>
      if existsb (Ascii.eqb "/"%char) (list_ascii_of_string rest)
      then after_last_slash rest
      else if Ascii.eqb c "/"%char then rest else s
  end.

(** A hardware interface: the joints registered on it and the resources
    claimed through it so far. *)
Record HardwareInterface := {
  registered : list string;
  claims : list string
}.

Definition clearClaims (hw : HardwareInterface) : HardwareInterface :=
  {| registered := registered hw; claims := [] |}.

(** [robot_hw->get<T>()] for the two interfaces, null when not registered. *)
Record RobotHW := {
  pos_joint_hw : option HardwareInterface;
  vel_joint_hw : option HardwareInterface
}.

(** [hw->getHandle(name)]: claims the resource; throws when the name is not
    registered. *)
Definition getHandle (i : Interface) (hw : HardwareInterface) (name : string)
  : Result (JointHandle * HardwareInterface) :=
  if existsb (String.eqb name) (registered hw)
  then Ok ({| iface := i; joint_name := name |},
           {| registered := registered hw; claims := claims hw ++ [name] |})
  else Abort.

(** [v[i] = x] on a vector. *)
Fixpoint assign (i : nat) (x : JointHandle) (v : list JointHandle) : list JointHandle :=
  match v, i with
  | [], _ => []
  | _ :: rest, 0%nat => x :: rest
  | y :: rest, S j => y :: assign j x rest
  end.

(** The loop that takes the left and the right handle of every pair, in turn,
    and stores them in the two joint vectors. *)
Fixpoint getHandles (i : Interface) (hw : HardwareInterface)
  (left_names right_names : list string) (idx : list nat)
  (left_joints right_joints : list JointHandle)
  : Result (list JointHandle * list JointHandle * HardwareInterface) :=
  match idx with
  | [] => Ok (left_joints, right_joints, hw)
  | k :: rest =>
      do l <- getHandle i hw (nth k left_names EmptyString);
      do r <- getHandle i (snd l) (nth k right_names EmptyString);
      getHandles i (snd r) left_names right_names rest
                 (assign k (fst l) left_joints) (assign k (fst r) right_joints)
  end.

(** [left_wheel_joints_.resize(n)]. *)
Definition resize (n : nat) (v : list JointHandle) : list JointHandle :=
  firstn n v ++ repeat null_handle (n - List.length v).

(** The nine [param] calls that configure one limiter, in program order: the
    default of each minimum is the negated maximum just read. *)
Definition load_limits (controller_nh : NodeHandle) (axis : string)
  (l : SpeedLimiter) : SpeedLimiter :=
  let hv := param getParam_bool controller_nh (axis ++ "has_velocity_limits")
                  (has_velocity_limits l) in
  let ha := param getParam_bool controller_nh (axis ++ "has_acceleration_limits")
                  (has_acceleration_limits l) in
  let hj := param getParam_bool controller_nh (axis ++ "has_jerk_limits")
                  (has_jerk_limits l) in
  let maxv := param getParam_double controller_nh (axis ++ "max_velocity")
                    (max_velocity l) in
  let minv := param getParam_double controller_nh (axis ++ "min_velocity") (- maxv) in
  let maxa := param getParam_double controller_nh (axis ++ "max_acceleration")
                    (max_acceleration l) in
  let mina := param getParam_double controller_nh (axis ++ "min_acceleration") (- maxa) in
  let maxj := param getParam_double controller_nh (axis ++ "max_jerk") (max_jerk l) in
  let minj := param getParam_double controller_nh (axis ++ "min_jerk") (- maxj) in
  {| has_velocity_limits := hv;
     has_acceleration_limits := ha;
     has_jerk_limits := hj;
     min_velocity := minv;
     max_velocity := maxv;
     min_acceleration := mina;
     max_acceleration := maxa;
     min_jerk := minj;
     max_jerk := maxj |}.

(** The sums of the wheel readings, as the sensor loop accumulates them. *)
Record WheelSums := {
  left_pos : float;
  right_pos : float;
  left_vel : float;
  right_vel : float
}.

(** The sensor loop of [update]; [None] is the [return] taken on a NaN
    reading.  The velocities of a pair are read only after its positions
    passed the test. *)
Fixpoint read_wheels (s : Sensors) (left_wheel_joints_ right_wheel_joints_ : list JointHandle)
  (idx : list nat) (acc : WheelSums) : option WheelSums :=
  match idx with
  | [] => Some acc
  | i :: rest =>
      let lp := getPosition s (nth i left_wheel_joints_ null_handle) in
      let rp := getPosition s (nth i right_wheel_joints_ null_handle) in
      if (is_nan lp || is_nan rp)%bool then None
      else
        let ls := getVelocity s (nth i left_wheel_joints_ null_handle) in
        let rs := getVelocity s (nth i right_wheel_joints_ null_handle) in
        if (is_nan ls || is_nan rs)%bool then None
        else
          read_wheels s left_wheel_joints_ right_wheel_joints_ rest
            {| left_pos := left_pos acc + lp;
               right_pos := right_pos acc + rp;
               left_vel := left_vel acc + ls;
               right_vel := right_vel acc + rs |}
  end.

Definition zero_sums : WheelSums :=
  {| left_pos := 0; right_pos := 0; left_vel := 0; right_vel := 0 |}.

(** The fields [update] writes into the odometry message before publishing. *)
Definition fill_odom (m : OdometryMsg) (time : Time) (x y : float) (q : Quaternion)
  (v w : float) : OdometryMsg :=
  m <| header_stamp := time |>
    <| position_x := x |>
    <| position_y := y |>
    <| orientation := q |>
    <| linear_x := v |>
    <| angular_z := w |>.

(** The fields [update] writes into [transforms[0]] before publishing. *)
Definition fill_tf (m : tfMessage) (time : Time) (x y : float) (q : Quaternion)
  : tfMessage :=
  match transforms m with
  | [] => m
  | odom_frame :: rest =>
      {| transforms :=
           odom_frame <| tf_stamp := time |>
                      <| translation_x := x |>
                      <| translation_y := y |>
                      <| rotation := q |> :: rest |}
  end.

(** [brake]: zero on every wheel pair, then zero on every steering pair. *)
Definition brake_effects (wheel_joints_size_ steering_joints_size_ : nat)
  (left_wheel_joints_ right_wheel_joints_ left_steering_joints_ right_steering_joints_
     : list JointHandle) : list Effect :=
  flat_map (fun i => [ SetCommand (nth i left_wheel_joints_ null_handle) 0;
                       SetCommand (nth i right_wheel_joints_ null_handle) 0 ])
           (seq 0 wheel_joints_size_) ++
  flat_map (fun i => [ SetCommand (nth i left_steering_joints_ null_handle) 0;
                       SetCommand (nth i right_steering_joints_ null_handle) 0 ])
           (seq 0 steering_joints_size_).

End Helpers.

(** * ackermann_controller.cpp *)

Module Ackermann.

Record Commands := {
  lin : float;
  ang : float;
  stamp : Time
}.

(** [geometry_msgs::Twist]. *)
Record Twist := {
  linear : Vector3;
  angular : Vector3
}.

(** What a command callback does outside the controller object. *)
Inductive CallbackEffect :=
| WriteFromNonRT (cmd : Commands).

Section Controller.

Context {O : Type} {odometry : OdometryOps O} {env : Env}.

(** [Odometry::setWheelParams(wheel_separation, wheel_radius)]. *)
Variable setWheelParams : O -> float -> float -> O.

Record AckermannController := {
  state_ : ControllerState;
  name_ : string;
  open_loop_ : bool;
  left_wheel_joints_ : list JointHandle;
  right_wheel_joints_ : list JointHandle;
  left_steering_joints_ : list JointHandle;
  right_steering_joints_ : list JointHandle;
  (* the value held by the realtime buffer [command_] *)
  command_ : Commands;
  command_struct_ : Commands;
  (* the topic [sub_command_] is subscribed to *)
  sub_command_ : option string;
  (* [odom_pub_->msg_] and [tf_odom_pub_->msg_] *)
  odom_pub_ : OdometryMsg;
  tf_odom_pub_ : tfMessage;
  (* the node handle and the topic each of the two publishers is built on *)
  odom_pub_topic_ : option (NodeHandle * string);
  tf_odom_pub_topic_ : option (NodeHandle * string);
  odometry_ : O;
  wheel_separation_ : float;
  wheel_radius_ : float;
  wheel_separation_multiplier_ : float;
  wheel_radius_multiplier_ : float;
  cmd_vel_timeout_ : float;
  base_frame_id_ : string;
  enable_odom_tf_ : bool;
  wheel_joints_size_ : nat;
  steering_joints_size_ : nat;
  last1_cmd_ : Commands;
  last0_cmd_ : Commands;
  limiter_lin_ : SpeedLimiter;
  limiter_ang_ : SpeedLimiter;
  publish_period_ : Duration;
  last_state_publish_time_ : Time
}.

(** The constructor.  The members whose classes live outside this file (the
    estimator, the limiters, a default [Commands]) are handed in as built by
    their own default constructors. *)
Definition new (odometry0 : O) (limiter0 : SpeedLimiter) (commands0 : Commands)
  : AckermannController :=
  {| state_ := CONSTRUCTED;
     name_ := EmptyString;
     open_loop_ := false;
     left_wheel_joints_ := [];
     right_wheel_joints_ := [];
     left_steering_joints_ := [];
     right_steering_joints_ := [];
     command_ := commands0;
     command_struct_ := commands0;
     sub_command_ := None;
     odom_pub_ :=
       {| header_stamp := 0%Z; header_frame_id := EmptyString;
          child_frame_id := EmptyString;
          position_x := 0; position_y := 0; position_z := 0;
          orientation := default_quaternion; pose_covariance := [];
          linear_x := 0; linear_y := 0; linear_z := 0;
          angular_x := 0; angular_y := 0; angular_z := 0;
          twist_covariance := [] |};
     tf_odom_pub_ := {| transforms := [] |};
     odom_pub_topic_ := None;
     tf_odom_pub_topic_ := None;
     odometry_ := odometry0;
     wheel_separation_ := 0.0;
     wheel_radius_ := 0.0;
     wheel_separation_multiplier_ := 1.0;
     wheel_radius_multiplier_ := 1.0;
     cmd_vel_timeout_ := 0.5;
     base_frame_id_ := "base_link";
     enable_odom_tf_ := true;
     wheel_joints_size_ := 0;
     steering_joints_size_ := 0;
     last1_cmd_ := commands0;
     last0_cmd_ := commands0;
     limiter_lin_ := limiter0;
     limiter_ang_ := limiter0;
     publish_period_ := 0%Z;
     last_state_publish_time_ := 0%Z |}.

Definition isRunning (c : AckermannController) : bool :=
  match state_ c with
  | RUNNING => true
  | _ => false
  end.

(** ** [init] *)

(** The value returned, with the controller and the velocity interface as the
    call leaves them ([hw_pos] is not used). *)
Definition InitResult : Type := bool * AckermannController * HardwareInterface.

(** [init], first block: get joint names from the parameter server.  [None]
    is one of its three [return false]; the controller is not touched before
    any of them. *)
Definition init_wheel_names (controller_nh : NodeHandle) (c : AckermannController)
  : option (AckermannController * list string * list string) :=
  match getWheelNames controller_nh "left_wheel" with
  | None => None
  | Some left_wheel_names =>
  match getWheelNames controller_nh "right_wheel" with
  | None => None
  | Some right_wheel_names =>
  if negb (Nat.eqb (List.length left_wheel_names) (List.length right_wheel_names))
  then None
  else
  let c := c <| wheel_joints_size_ := List.length left_wheel_names |> in
  let c := c <| left_wheel_joints_ := resize (wheel_joints_size_ c) (left_wheel_joints_ c) |> in
  let c := c <| right_wheel_joints_ := resize (wheel_joints_size_ c) (right_wheel_joints_ c) |> in
  Some (c, left_wheel_names, right_wheel_names)
  end end.

(** [init], second block: get steering joint names from the parameter
    server, in the same way. *)
Definition init_steering_names (controller_nh : NodeHandle) (c : AckermannController)
  : option (AckermannController * list string * list string) :=
  match getWheelNames controller_nh "left_steering" with
  | None => None
  | Some left_steering_names =>
  match getWheelNames controller_nh "right_steering" with
  | None => None
  | Some right_steering_names =>
  if negb (Nat.eqb (List.length left_steering_names) (List.length right_steering_names))
  then None
  else
  let c := c <| steering_joints_size_ := List.length left_steering_names |> in
  let c := c <| left_steering_joints_ :=
                  resize (steering_joints_size_ c) (left_steering_joints_ c) |> in
  let c := c <| right_steering_joints_ :=
                  resize (steering_joints_size_ c) (right_steering_joints_ c) |> in
  Some (c, left_steering_names, right_steering_names)
  end end.

(** [init], the rest: parameters, geometry, publishers, joint handles,
    subscription. *)
Definition init_configure (hw_vel : HardwareInterface) (root_nh controller_nh : NodeHandle)
  (left_wheel_names right_wheel_names left_steering_names right_steering_names : list string)
  (c : AckermannController) : Result InitResult :=
  (* Odometry related *)
  let publish_rate := param getParam_double controller_nh "publish_rate" 50.0 in
  let c := c <| publish_period_ := Duration_fromSec (1.0 / publish_rate) |> in
  let c := c <| open_loop_ := param getParam_bool controller_nh "open_loop" (open_loop_ c) |> in
  let c := c <| wheel_separation_multiplier_ :=
                  param getParam_double controller_nh "wheel_separation_multiplier"
                        (wheel_separation_multiplier_ c) |> in
  let c := c <| wheel_radius_multiplier_ :=
                  param getParam_double controller_nh "wheel_radius_multiplier"
                        (wheel_radius_multiplier_ c) |> in
  do velocity_rolling_window_size <-
    param_int controller_nh "velocity_rolling_window_size" 10%Z;
  let c := c <| odometry_ :=
                  setVelocityRollingWindowSize (odometry_ c) velocity_rolling_window_size |> in
  (* Twist command related *)
  let c := c <| cmd_vel_timeout_ :=
                  param getParam_double controller_nh "cmd_vel_timeout" (cmd_vel_timeout_ c) |> in
  let c := c <| base_frame_id_ :=
                  param getParam_string controller_nh "base_frame_id" (base_frame_id_ c) |> in
  let c := c <| enable_odom_tf_ :=
                  param getParam_bool controller_nh "enable_odom_tf" (enable_odom_tf_ c) |> in
  (* Velocity and acceleration limits *)
  let c := c <| limiter_lin_ := load_limits controller_nh "linear/x/" (limiter_lin_ c) |> in
  let c := c <| limiter_ang_ := load_limits controller_nh "angular/z/" (limiter_ang_ c) |> in
  (* If either parameter is not available, look up the value in the URDF *)
  let wheel_separation := getParam_double controller_nh "wheel_separation" in
  let wheel_radius := getParam_double controller_nh "wheel_radius" in
  let c := c <| wheel_separation_ := param getParam_double controller_nh "wheel_separation"
                                           (wheel_separation_ c) |> in
  let c := c <| wheel_radius_ := param getParam_double controller_nh "wheel_radius"
                                       (wheel_radius_ c) |> in
  let lookup_wheel_separation := match wheel_separation with Some _ => false | None => true end in
  let lookup_wheel_radius := match wheel_radius with Some _ => false | None => true end in
  do r <- setOdomParamsFromUrdf root_nh
            (nth 0 left_wheel_names EmptyString) (nth 0 right_wheel_names EmptyString)
            lookup_wheel_separation lookup_wheel_radius
            (wheel_separation_ c) (wheel_radius_ c);
  let '(found, separation, radius) := r in
  let c := c <| wheel_separation_ := separation |> <| wheel_radius_ := radius |> in
  if negb found then Ok (false, c, hw_vel)
  else
  (* Regardless of how we got the separation and radius, use them *)
  let ws := wheel_separation_multiplier_ c * wheel_separation_ c in
  let wr := wheel_radius_multiplier_ c * wheel_radius_ c in
  let c := c <| odometry_ := setWheelParams (odometry_ c) ws wr |> in
  do pubs <- setOdomPubFields root_nh controller_nh (base_frame_id_ c);
  let c := c <| odom_pub_ := msg_ (fst pubs) |>
             <| odom_pub_topic_ := Some (node_ (fst pubs), topic_ (fst pubs)) |> in
  let c := c <| tf_odom_pub_ := msg_ (snd pubs) |>
             <| tf_odom_pub_topic_ := Some (node_ (snd pubs), topic_ (snd pubs)) |> in
  (* Get the joint objects to use in the realtime loop *)
  do wheels <- getHandles VelocityJointInterface hw_vel
                 left_wheel_names right_wheel_names (seq 0 (wheel_joints_size_ c))
                 (left_wheel_joints_ c) (right_wheel_joints_ c);
  let '(left_wheels, right_wheels, hw_vel) := wheels in
  let c := c <| left_wheel_joints_ := left_wheels |> <| right_wheel_joints_ := right_wheels |> in
  do steerings <- getHandles VelocityJointInterface hw_vel
                    left_steering_names right_steering_names (seq 0 (steering_joints_size_ c))
                    (left_steering_joints_ c) (right_steering_joints_ c);
  let '(left_steerings, right_steerings, hw_vel) := steerings in
  let c := c <| left_steering_joints_ := left_steerings |>
             <| right_steering_joints_ := right_steerings |> in
  let c := c <| sub_command_ := Some "cmd_vel"%string |> in
  Ok (true, c, hw_vel).

Definition init (hw_vel : HardwareInterface) (root_nh controller_nh : NodeHandle)
  (c : AckermannController) : Result InitResult :=
  let complete_ns := getNamespace controller_nh in
  let c := c <| name_ := after_last_slash complete_ns |> in
  match init_wheel_names controller_nh c with
  | None => Ok (false, c, hw_vel)
  | Some (c, left_wheel_names, right_wheel_names) =>
  match init_steering_names controller_nh c with
  | None => Ok (false, c, hw_vel)
  | Some (c, left_steering_names, right_steering_names) =>
      init_configure hw_vel root_nh controller_nh
        left_wheel_names right_wheel_names left_steering_names right_steering_names c
  end end.

(** ** [initRequest] *)

Definition ClaimedResources : Type := list (Interface * list string).

Definition initRequest (robot_hw : RobotHW) (root_nh ctrlr_nh : NodeHandle)
  (claimed_resources : ClaimedResources) (c : AckermannController)
  : Result (bool * AckermannController * RobotHW * ClaimedResources) :=
  match state_ c with
  | CONSTRUCTED =>
      match pos_joint_hw robot_hw, vel_joint_hw robot_hw with
      | None, _ => Ok (false, c, robot_hw, claimed_resources)
      | Some _, None => Ok (false, c, robot_hw, claimed_resources)
      | Some pos, Some vel =>
          let pos := clearClaims pos in
          let vel := clearClaims vel in
          do r <- init vel root_nh ctrlr_nh c;
          let '(initialized, c, vel) := r in
          if negb initialized
          then Ok (false, c, {| pos_joint_hw := Some pos; vel_joint_hw := Some vel |},
                   claimed_resources)
          else
            Ok (true, c <| state_ := INITIALIZED |>,
                {| pos_joint_hw := Some (clearClaims pos);
                   vel_joint_hw := Some (clearClaims vel) |},
                [ (PositionJointInterface, claims pos);
                  (VelocityJointInterface, claims vel) ])
      end
  | _ => Ok (false, c, robot_hw, claimed_resources)
  end.

(** ** [update] *)

(** COMPUTE ODOMETRY: the estimator after the first block of [update], [None]
    when a NaN wheel reading makes [update] return. *)
Definition compute_odometry (s : Sensors) (time : Time) (c : AckermannController)
  : option O :=
  if open_loop_ c then
    Some (odometry_updateOpenLoop (odometry_ c)
            (lin (last0_cmd_ c)) (ang (last0_cmd_ c)) time)
  else
    match read_wheels s (left_wheel_joints_ c) (right_wheel_joints_ c)
                      (seq 0 (wheel_joints_size_ c)) zero_sums with
    | None => None
    | Some sums =>
        let n := to_double (Z.of_nat (wheel_joints_size_ c)) in
        let left_pos := left_pos sums / n in
        let right_pos := right_pos sums / n in
        let left_vel := left_vel sums / n in
        let right_vel := right_vel sums / n in
        let linear_pos := (left_pos + right_pos) / 2.0 in
        let linear_vel := (left_vel + right_vel) / 2.0 in
        let left_steering_pos :=
          match left_steering_joints_ c with
          | [] => 0.0
          | h :: _ => getPosition s h
          end in
        let right_steering_pos :=
          match left_steering_joints_ c with
          | [] => 0.0
          | _ :: _ => getPosition s (nth 0 (right_steering_joints_ c) null_handle)
          end in
        let steering_pos := (left_steering_pos + right_steering_pos) / 2.0 in
        (* Estimate linear and angular velocity using joint information *)
        Some (odometry_update (odometry_ c) linear_pos linear_vel steering_pos time)
    end.

(** Publish odometry message. *)
Definition publish_odometry (lk : Locks) (time : Time) (c : AckermannController)
  : AckermannController * list Effect :=
  if (last_state_publish_time_ c + publish_period_ c <? time)%Z then
    let c := c <| last_state_publish_time_ :=
                    (last_state_publish_time_ c + publish_period_ c)%Z |> in
    (* Compute and store orientation info *)
    let q := createQuaternionMsgFromYaw (getHeading (odometry_ c)) in
    (* Populate odom message and publish *)
    let '(c, odom_effects) :=
      if odom_trylock lk then
        let m := fill_odom (odom_pub_ c) time (getX (odometry_ c)) (getY (odometry_ c)) q
                           (getLinear (odometry_ c)) (getAngular (odometry_ c)) in
        (c <| odom_pub_ := m |>, [PublishOdom m])
      else (c, []) in
    (* Publish tf /odom frame *)
    let '(c, tf_effects) :=
      if (enable_odom_tf_ c && tf_trylock lk)%bool then
        let m := fill_tf (tf_odom_pub_ c) time (getX (odometry_ c)) (getY (odometry_ c)) q in
        (c <| tf_odom_pub_ := m |>, [PublishTf m])
      else (c, []) in
    (c, odom_effects ++ tf_effects)
  else (c, []).

(** Brake if cmd_vel has timeout. *)
Definition brake_if_timeout (time : Time) (cmd_vel_timeout : float) (curr_cmd : Commands)
  : Commands :=
  let dt := toSec (time - stamp curr_cmd)%Z in
  if cmd_vel_timeout <? dt
  then curr_cmd <| lin := 0.0 |> <| ang := 0.0 |>
  else curr_cmd.

(** Limit velocities and accelerations: each limiter rewrites its field of
    the command in place. *)
Definition limit_command (c : AckermannController) (period : Duration)
  (curr_cmd : Commands) : Commands :=
  let cmd_dt := toSec period in
  let curr_cmd :=
    curr_cmd <| lin := limit (limiter_lin_ c) (lin curr_cmd)
                             (lin (last0_cmd_ c)) (lin (last1_cmd_ c)) cmd_dt |> in
  curr_cmd <| ang := limit (limiter_ang_ c) (ang curr_cmd)
                           (ang (last0_cmd_ c)) (ang (last1_cmd_ c)) cmd_dt |>.

(** Compute wheels velocities. *)
Definition vel_left (ws wr : float) (curr_cmd : Commands) : float :=
  (lin curr_cmd - ang curr_cmd * ws / 2.0) / wr.

Definition vel_right (ws wr : float) (curr_cmd : Commands) : float :=
  (lin curr_cmd + ang curr_cmd * ws / 2.0) / wr.

(** Set wheels velocities. *)
Definition set_wheels_velocities (c : AckermannController) (vl vr : float) : list Effect :=
  flat_map (fun i => [ SetCommand (nth i (left_wheel_joints_ c) null_handle) vl;
                       SetCommand (nth i (right_wheel_joints_ c) null_handle) vr ])
           (seq 0 (wheel_joints_size_ c)).

(** The command of the cycle as the limiters leave it. *)
Definition limited_command (time : Time) (period : Duration) (c : AckermannController)
  : Commands :=
  limit_command c period (brake_if_timeout time (cmd_vel_timeout_ c) (command_ c)).

(** MOVE ROBOT. *)
Definition move_robot (time : Time) (period : Duration) (c : AckermannController)
  : AckermannController * list Effect :=
  (* Retreive current velocity command and time step *)
  let curr_cmd := limited_command time period c in
  let c := c <| last1_cmd_ := last0_cmd_ c |> in
  let c := c <| last0_cmd_ := curr_cmd |> in
  (* Apply multipliers *)
  let ws := wheel_separation_multiplier_ c * wheel_separation_ c in
  let wr := wheel_radius_multiplier_ c * wheel_radius_ c in
  (c, set_wheels_velocities c (vel_left ws wr curr_cmd) (vel_right ws wr curr_cmd)).

Definition update (s : Sensors) (lk : Locks) (time : Time) (period : Duration)
  (c : AckermannController) : AckermannController * list Effect :=
  match compute_odometry s time c with
  | None => (c, [])
  | Some o =>
      let c := c <| odometry_ := o |> in
      let '(c, published) := publish_odometry lk time c in
      let '(c, commanded) := move_robot time period c in
      (c, published ++ commanded)
  end.

(** Consecutive calls of [update] by the control loop: the controller after
    the last one and the effects of each. *)
Fixpoint run (cycles : list Cycle) (c : AckermannController)
  : AckermannController * list (list Effect) :=
  match cycles with
  | [] => (c, [])
  | k :: rest =>
      let u := update (cycle_sensors k) (cycle_locks k) (cycle_time k) (cycle_period k) c in
      let r := run rest (fst u) in
      (fst r, snd u :: snd r)
  end.

(** No cycle of the run is aborted by a NaN wheel reading. *)
Fixpoint completes (cycles : list Cycle) (c : AckermannController) : Prop :=
  match cycles with
  | [] => True
  | k :: rest =>
      compute_odometry (cycle_sensors k) (cycle_time k) c <> None /\
      completes rest
        (fst (update (cycle_sensors k) (cycle_locks k) (cycle_time k) (cycle_period k) c))
  end.

(** ** [brake], [starting], [stopping] *)

Definition brake (c : AckermannController) : list Effect :=
  brake_effects (wheel_joints_size_ c) (steering_joints_size_ c)
                (left_wheel_joints_ c) (right_wheel_joints_ c)
                (left_steering_joints_ c) (right_steering_joints_ c).

Definition starting (time : Time) (c : AckermannController)
  : AckermannController * list Effect :=
  (c <| last_state_publish_time_ := time |>
     <| odometry_ := odometry_init (odometry_ c) time |>,
   brake c).

Definition stopping (time : Time) (c : AckermannController)
  : AckermannController * list Effect :=
  (c, brake c).

(** ** [cmdVelCallback] *)

(** [now] is what [ros::Time::now()] returns during the call. *)
Definition cmdVelCallback (now : Time) (command : Twist) (c : AckermannController)
  : AckermannController * list CallbackEffect :=
  if isRunning c then
    let c := c <| command_struct_ := (command_struct_ c) <| ang := vz (angular command) |> |> in
    let c := c <| command_struct_ := (command_struct_ c) <| lin := vx (linear command) |> |> in
    let c := c <| command_struct_ := (command_struct_ c) <| stamp := now |> |> in
    (c <| command_ := command_struct_ c |>, [WriteFromNonRT (command_struct_ c)])
  else (c, []).

End Controller.

Arguments AckermannController O : clear implicits.

End Ackermann.

(** * four_wheel_steering_controller.cpp *)

Module FourWheelSteering.

Record Commands := {
  lin : float;
  ang : float;
  front_steering : float;
  rear_steering : float;
  stamp : Time
}.

(** [geometry_msgs::Twist]. *)
Record Twist := {
  linear : Vector3;
  angular : Vector3
}.

(** [four_wheel_steering_msgs::FourWheelSteeringDrive], the fields read. *)
Record FourWheelSteeringDrive := {
  front_steering_angle : float;
  rear_steering_angle : float;
  speed : float
}.

(** What a command callback does outside the controller object: a write to
    the twist buffer or to the four-wheel-steering buffer. *)
Inductive CallbackEffect :=
| WriteFromNonRT (cmd : Commands)
| WriteFromNonRT_four_wheel_steering (cmd : Commands).

Section Controller.

Context {O : Type} {odometry : OdometryOps O} {env : Env}.

(** [Odometry::setWheelParams(wheel_separation, wheel_radius, wheel_base)]. *)
Variable setWheelParams : O -> float -> float -> float -> O.

Record FourWheelSteeringController := {
  state_ : ControllerState;
  name_ : string;
  open_loop_ : bool;
  left_wheel_joints_ : list JointHandle;
  right_wheel_joints_ : list JointHandle;
  left_steering_joints_ : list JointHandle;
  right_steering_joints_ : list JointHandle;
  (* the values held by the two realtime buffers *)
  command_ : Commands;
  command_struct_ : Commands;
  command_four_wheel_steering_ : Commands;
  command_struct_four_wheel_steering_ : Commands;
  (* the topics the two subscribers are subscribed to *)
  sub_command_ : option string;
  sub_command_four_wheel_steering_ : option string;
  (* [odom_pub_->msg_] and [tf_odom_pub_->msg_] *)
  odom_pub_ : OdometryMsg;
  tf_odom_pub_ : tfMessage;
  (* the node handle and the topic each of the two publishers is built on *)
  odom_pub_topic_ : option (NodeHandle * string);
  tf_odom_pub_topic_ : option (NodeHandle * string);
  odometry_ : O;
  wheel_separation_ : float;
  wheel_radius_ : float;
  wheel_base_ : float;
  cmd_vel_timeout_ : float;
  base_frame_id_ : string;
  enable_odom_tf_ : bool;
  enable_twist_cmd_ : bool;
  wheel_joints_size_ : nat;
  steering_joints_size_ : nat;
  last1_cmd_ : Commands;
  last0_cmd_ : Commands;
  limiter_lin_ : SpeedLimiter;
  limiter_ang_ : SpeedLimiter;
  publish_period_ : Duration;
  last_state_publish_time_ : Time
}.

(** The constructor.  The members whose classes live outside this file (the
    estimator, the limiters, a default [Commands]) are handed in as built by
    their own default constructors. *)
Definition new (odometry0 : O) (limiter0 : SpeedLimiter) (commands0 : Commands)
  : FourWheelSteeringController :=
  {| state_ := CONSTRUCTED;
     name_ := EmptyString;
     open_loop_ := false;
     left_wheel_joints_ := [];
     right_wheel_joints_ := [];
     left_steering_joints_ := [];
     right_steering_joints_ := [];
     command_ := commands0;
     command_struct_ := commands0;
     command_four_wheel_steering_ := commands0;
     command_struct_four_wheel_steering_ := commands0;
     sub_command_ := None;
     sub_command_four_wheel_steering_ := None;
     odom_pub_ :=
       {| header_stamp := 0%Z; header_frame_id := EmptyString;
          child_frame_id := EmptyString;
          position_x := 0; position_y := 0; position_z := 0;
          orientation := default_quaternion; pose_covariance := [];
          linear_x := 0; linear_y := 0; linear_z := 0;
          angular_x := 0; angular_y := 0; angular_z := 0;
          twist_covariance := [] |};
     tf_odom_pub_ := {| transforms := [] |};
     odom_pub_topic_ := None;
     tf_odom_pub_topic_ := None;
     odometry_ := odometry0;
     wheel_separation_ := 0.0;
     wheel_radius_ := 0.0;
     wheel_base_ := 0.0;
     cmd_vel_timeout_ := 0.5;
     base_frame_id_ := "base_link";
     enable_odom_tf_ := true;
     enable_twist_cmd_ := false;
     wheel_joints_size_ := 0;
     steering_joints_size_ := 0;
     last1_cmd_ := commands0;
     last0_cmd_ := commands0;
     limiter_lin_ := limiter0;
     limiter_ang_ := limiter0;
     publish_period_ := 0%Z;
     last_state_publish_time_ := 0%Z |}.

Definition isRunning (c : FourWheelSteeringController) : bool :=
  match state_ c with
  | RUNNING => true
  | _ => false
  end.

(** ** [init] *)

(** The value returned, with the controller, the position interface and the
    velocity interface as the call leaves them. *)
Definition InitResult : Type :=
  bool * FourWheelSteeringController * HardwareInterface * HardwareInterface.

(** [init], first block: get joint names from the parameter server.  [None]
    is one of its four [return false]; the controller is not touched before
    any of them. *)
Definition init_wheel_names (controller_nh : NodeHandle) (c : FourWheelSteeringController)
  : option (FourWheelSteeringController * list string * list string) :=
  match getWheelNames controller_nh "left_wheel" with
  | None => None
  | Some left_wheel_names =>
  match getWheelNames controller_nh "right_wheel" with
  | None => None
  | Some right_wheel_names =>
  if negb (Nat.eqb (List.length left_wheel_names) (List.length right_wheel_names))
  then None
  else if negb (Nat.eqb (List.length left_wheel_names) 2)
  then None
  else
  let c := c <| wheel_joints_size_ := List.length left_wheel_names |> in
  let c := c <| left_wheel_joints_ := resize (wheel_joints_size_ c) (left_wheel_joints_ c) |> in
  let c := c <| right_wheel_joints_ := resize (wheel_joints_size_ c) (right_wheel_joints_ c) |> in
  Some (c, left_wheel_names, right_wheel_names)
  end end.

(** [init], second block: get steering joint names from the parameter
    server, in the same way. *)
Definition init_steering_names (controller_nh : NodeHandle) (c : FourWheelSteeringController)
  : option (FourWheelSteeringController * list string * list string) :=
  match getWheelNames controller_nh "left_steering" with
  | None => None
  | Some left_steering_names =>
  match getWheelNames controller_nh "right_steering" with
  | None => None
  | Some right_steering_names =>
  if negb (Nat.eqb (List.length left_steering_names) (List.length right_steering_names))
  then None
  else if negb (Nat.eqb (List.length left_steering_names) 2)
  then None
  else
  let c := c <| steering_joints_size_ := List.length left_steering_names |> in
  let c := c <| left_steering_joints_ :=
                  resize (steering_joints_size_ c) (left_steering_joints_ c) |> in
  let c := c <| right_steering_joints_ :=
                  resize (steering_joints_size_ c) (right_steering_joints_ c) |> in
  Some (c, left_steering_names, right_steering_names)
  end end.

(** [init], the rest: parameters, geometry, publishers, joint handles,
    subscription. *)
Definition init_configure (hw_pos hw_vel : HardwareInterface)
  (root_nh controller_nh : NodeHandle)
  (left_wheel_names right_wheel_names left_steering_names right_steering_names : list string)
  (c : FourWheelSteeringController) : Result InitResult :=
  (* Odometry related *)
  let publish_rate := param getParam_double controller_nh "publish_rate" 50.0 in
  let c := c <| publish_period_ := Duration_fromSec (1.0 / publish_rate) |> in
  let c := c <| open_loop_ := param getParam_bool controller_nh "open_loop" (open_loop_ c) |> in
  do velocity_rolling_window_size <-
    param_int controller_nh "velocity_rolling_window_size" 10%Z;
  let c := c <| odometry_ :=
                  setVelocityRollingWindowSize (odometry_ c) velocity_rolling_window_size |> in
  (* Twist command related *)
  let c := c <| cmd_vel_timeout_ :=
                  param getParam_double controller_nh "cmd_vel_timeout" (cmd_vel_timeout_ c) |> in
  let c := c <| base_frame_id_ :=
                  param getParam_string controller_nh "base_frame_id" (base_frame_id_ c) |> in
  let c := c <| enable_odom_tf_ :=
                  param getParam_bool controller_nh "enable_odom_tf" (enable_odom_tf_ c) |> in
  let c := c <| enable_twist_cmd_ :=
                  param getParam_bool controller_nh "enable_twist_cmd" (enable_twist_cmd_ c) |> in
  (* Velocity and acceleration limits *)
  let c := c <| limiter_lin_ := load_limits controller_nh "linear/x/" (limiter_lin_ c) |> in
  let c := c <| limiter_ang_ := load_limits controller_nh "angular/z/" (limiter_ang_ c) |> in
  (* If either parameter is not available, look up the value in the URDF *)
  let wheel_separation := getParam_double controller_nh "wheel_separation" in
  let wheel_radius := getParam_double controller_nh "wheel_radius" in
  let c := c <| wheel_separation_ := param getParam_double controller_nh "wheel_separation"
                                           (wheel_separation_ c) |> in
  let c := c <| wheel_radius_ := param getParam_double controller_nh "wheel_radius"
                                       (wheel_radius_ c) |> in
  let c := c <| wheel_base_ := param getParam_double controller_nh "wheel_base"
                                     (wheel_base_ c) |> in
  let lookup_wheel_separation := match wheel_separation with Some _ => false | None => true end in
  let lookup_wheel_radius := match wheel_radius with Some _ => false | None => true end in
  do r <- setOdomParamsFromUrdf root_nh
            (nth 0 left_wheel_names EmptyString) (nth 0 right_wheel_names EmptyString)
            lookup_wheel_separation lookup_wheel_radius
            (wheel_separation_ c) (wheel_radius_ c);
  let '(found, separation, radius) := r in
  let c := c <| wheel_separation_ := separation |> <| wheel_radius_ := radius |> in
  if negb found then Ok (false, c, hw_pos, hw_vel)
  else
  (* Regardless of how we got the separation and radius, use them *)
  let ws := wheel_separation_ c in
  let wr := wheel_radius_ c in
  let wb := wheel_base_ c in
  let c := c <| odometry_ := setWheelParams (odometry_ c) ws wr wb |> in
  do pubs <- setOdomPubFields root_nh controller_nh (base_frame_id_ c);
  let c := c <| odom_pub_ := msg_ (fst pubs) |>
             <| odom_pub_topic_ := Some (node_ (fst pubs), topic_ (fst pubs)) |> in
  let c := c <| tf_odom_pub_ := msg_ (snd pubs) |>
             <| tf_odom_pub_topic_ := Some (node_ (snd pubs), topic_ (snd pubs)) |> in
  (* Get the joint objects to use in the realtime loop *)
  do wheels <- getHandles VelocityJointInterface hw_vel
                 left_wheel_names right_wheel_names (seq 0 (wheel_joints_size_ c))
                 (left_wheel_joints_ c) (right_wheel_joints_ c);
  let '(left_wheels, right_wheels, hw_vel) := wheels in
  let c := c <| left_wheel_joints_ := left_wheels |> <| right_wheel_joints_ := right_wheels |> in
  (* Get the steering joint objects to use in the realtime loop *)
  do steerings <- getHandles PositionJointInterface hw_pos
                    left_steering_names right_steering_names (seq 0 (steering_joints_size_ c))
                    (left_steering_joints_ c) (right_steering_joints_ c);
  let '(left_steerings, right_steerings, hw_pos) := steerings in
  let c := c <| left_steering_joints_ := left_steerings |>
             <| right_steering_joints_ := right_steerings |> in
  let c :=
    if enable_twist_cmd_ c
    then c <| sub_command_ := Some "cmd_vel"%string |>
    else c <| sub_command_four_wheel_steering_ := Some "cmd_four_wheel_steering"%string |> in
  Ok (true, c, hw_pos, hw_vel).

Definition init (hw_pos hw_vel : HardwareInterface) (root_nh controller_nh : NodeHandle)
  (c : FourWheelSteeringController) : Result InitResult :=
  let complete_ns := getNamespace controller_nh in
  let c := c <| name_ := after_last_slash complete_ns |> in
  match init_wheel_names controller_nh c with
  | None => Ok (false, c, hw_pos, hw_vel)
  | Some (c, left_wheel_names, right_wheel_names) =>
  match init_steering_names controller_nh c with
  | None => Ok (false, c, hw_pos, hw_vel)
  | Some (c, left_steering_names, right_steering_names) =>
      init_configure hw_pos hw_vel root_nh controller_nh
        left_wheel_names right_wheel_names left_steering_names right_steering_names c
  end end.

(** ** [initRequest] *)

Definition initRequest (robot_hw : RobotHW) (root_nh ctrlr_nh : NodeHandle)
  (claimed_resources : list string) (c : FourWheelSteeringController)
  : Result (bool * FourWheelSteeringController * RobotHW * list string) :=
  match state_ c with
  | CONSTRUCTED =>
      match pos_joint_hw robot_hw, vel_joint_hw robot_hw with
      | None, _ => Ok (false, c, robot_hw, claimed_resources)
      | Some _, None => Ok (false, c, robot_hw, claimed_resources)
      | Some pos, Some vel =>
          let pos := clearClaims pos in
          let vel := clearClaims vel in
          do r <- init pos vel root_nh ctrlr_nh c;
          let '(initialized, c, pos, vel) := r in
          if negb initialized
          then Ok (false, c, {| pos_joint_hw := Some pos; vel_joint_hw := Some vel |},
                   claimed_resources)
          else
            Ok (true, c <| state_ := INITIALIZED |>,
                {| pos_joint_hw := Some (clearClaims pos);
                   vel_joint_hw := Some (clearClaims vel) |},
                claims pos ++ claims vel)
      end
  | _ => Ok (false, c, robot_hw, claimed_resources)
  end.

(** ** [update] *)

(** COMPUTE ODOMETRY: the estimator after the first block of [update], [None]
    when a NaN wheel reading makes [update] return. *)
Definition compute_odometry (s : Sensors) (time : Time) (c : FourWheelSteeringController)
  : option O :=
  if open_loop_ c then
    Some (odometry_updateOpenLoop (odometry_ c)
            (lin (last0_cmd_ c)) (ang (last0_cmd_ c)) time)
  else
    match read_wheels s (left_wheel_joints_ c) (right_wheel_joints_ c)
                      (seq 0 (wheel_joints_size_ c)) zero_sums with
    | None => None
    | Some sums =>
        let n := to_double (Z.of_nat (wheel_joints_size_ c)) in
        let left_pos := left_pos sums / n in
        let right_pos := right_pos sums / n in
        let left_vel := left_vel sums / n in
        let right_vel := right_vel sums / n in
        let wheel_angular_pos := (left_pos + right_pos) / 2.0 in
        let wheel_angular_vel := (left_vel + right_vel) / 2.0 in
        let '(left_steering_pos, right_steering_pos) :=
          match left_steering_joints_ c, right_steering_joints_ c with
          | l :: _, r :: _ => (getPosition s l, getPosition s r)
          | _, _ => (0.0, 0.0)
          end in
        let steering_pos := (left_steering_pos + right_steering_pos) / 2.0 in
        (* Estimate linear and angular velocity using joint information *)
        Some (odometry_update (odometry_ c) wheel_angular_pos wheel_angular_vel
                              steering_pos time)
    end.

(** Publish odometry message. *)
Definition publish_odometry (lk : Locks) (time : Time) (c : FourWheelSteeringController)
  : FourWheelSteeringController * list Effect :=
  if (last_state_publish_time_ c + publish_period_ c <? time)%Z then
    let c := c <| last_state_publish_time_ :=
                    (last_state_publish_time_ c + publish_period_ c)%Z |> in
    (* Compute and store orientation info *)
    let q := createQuaternionMsgFromYaw (getHeading (odometry_ c)) in
    (* Populate odom message and publish *)
    let '(c, odom_effects) :=
      if odom_trylock lk then
        let m := fill_odom (odom_pub_ c) time (getX (odometry_ c)) (getY (odometry_ c)) q
                           (getLinear (odometry_ c)) (getAngular (odometry_ c)) in
        (c <| odom_pub_ := m |>, [PublishOdom m])
      else (c, []) in
    (* Publish tf /odom frame *)
    let '(c, tf_effects) :=
      if (enable_odom_tf_ c && tf_trylock lk)%bool then
        let m := fill_tf (tf_odom_pub_ c) time (getX (odometry_ c)) (getY (odometry_ c)) q in
        (c <| tf_odom_pub_ := m |>, [PublishTf m])
      else (c, []) in
    (c, odom_effects ++ tf_effects)
  else (c, []).

(** Retreive current velocity command: the buffer read depends on the mode. *)
Definition read_command (c : FourWheelSteeringController) : Commands :=
  if negb (enable_twist_cmd_ c)
  then command_four_wheel_steering_ c
  else command_ c.

(** Brake if cmd_vel has timeout. *)
Definition brake_if_timeout (time : Time) (cmd_vel_timeout : float) (curr_cmd : Commands)
  : Commands :=
  let dt := toSec (time - stamp curr_cmd)%Z in
  if cmd_vel_timeout <? dt
  then curr_cmd <| lin := 0.0 |> <| ang := 0.0 |>
                <| front_steering := 0.0 |> <| rear_steering := 0.0 |>
  else curr_cmd.

(** Limit velocities and accelerations: each limiter rewrites its field of
    the command in place. *)
Definition limit_command (c : FourWheelSteeringController) (period : Duration)
  (curr_cmd : Commands) : Commands :=
  let cmd_dt := toSec period in
  let curr_cmd :=
    curr_cmd <| lin := limit (limiter_lin_ c) (lin curr_cmd)
                             (lin (last0_cmd_ c)) (lin (last1_cmd_ c)) cmd_dt |> in
  curr_cmd <| ang := limit (limiter_ang_ c) (ang curr_cmd)
                           (ang (last0_cmd_ c)) (ang (last1_cmd_ c)) cmd_dt |>.

(** The command of the cycle as the limiters leave it. *)
Definition limited_command (time : Time) (period : Duration)
  (c : FourWheelSteeringController) : Commands :=
  limit_command c period (brake_if_timeout time (cmd_vel_timeout_ c) (read_command c)).

(** Compute wheels velocities. *)
Definition vel_left_front (ws wr wheel_base angular_speed : float) (curr_cmd : Commands)
  : float :=
  copysign 1.0 (lin curr_cmd) *
  sqrt (pow (lin curr_cmd - angular_speed * ws / 2) 2 + pow (wheel_base * angular_speed) 2)
  / wr.

Definition vel_right_front (ws wr wheel_base angular_speed : float) (curr_cmd : Commands)
  : float :=
  copysign 1.0 (lin curr_cmd) *
  sqrt (pow (lin curr_cmd + angular_speed * ws / 2) 2 + pow (wheel_base * angular_speed) 2)
  / wr.

Definition vel_left_rear (ws wr angular_speed : float) (curr_cmd : Commands) : float :=
  (lin curr_cmd - angular_speed * ws / 2) / wr.

Definition vel_right_rear (ws wr angular_speed : float) (curr_cmd : Commands) : float :=
  (lin curr_cmd + angular_speed * ws / 2) / wr.

(** Set wheels velocities. *)
Definition set_wheels_velocities (c : FourWheelSteeringController)
  (left_front right_front left_rear right_rear : float) : list Effect :=
  if (Nat.eqb (List.length (left_wheel_joints_ c)) 2 &&
      Nat.eqb (List.length (right_wheel_joints_ c)) 2)%bool
  then [ SetCommand (nth 0 (left_wheel_joints_ c) null_handle) left_front;
         SetCommand (nth 0 (right_wheel_joints_ c) null_handle) right_front;
         SetCommand (nth 1 (left_wheel_joints_ c) null_handle) left_rear;
         SetCommand (nth 1 (right_wheel_joints_ c) null_handle) right_rear ]
  else [].

(** The front and the rear steering angle of the cycle. *)
Definition steering_angles (enable_twist_cmd : bool) (linear_estimate wheel_base : float)
  (curr_cmd : Commands) : float * float :=
  if enable_twist_cmd then
    if 0.01 <? abs linear_estimate then
      let steering := atan (ang curr_cmd * wheel_base / linear_estimate) in
      (steering / 2.0, (- steering) / 2.0)
    else (0, 0)
  else (front_steering curr_cmd, rear_steering curr_cmd).

Definition set_steering_angles (c : FourWheelSteeringController)
  (front rear : float) : list Effect :=
  if (Nat.eqb (List.length (left_steering_joints_ c)) 2 &&
      Nat.eqb (List.length (right_steering_joints_ c)) 2)%bool
  then [ SetCommand (nth 0 (left_steering_joints_ c) null_handle) front;
         SetCommand (nth 0 (right_steering_joints_ c) null_handle) front;
         SetCommand (nth 1 (left_steering_joints_ c) null_handle) rear;
         SetCommand (nth 1 (right_steering_joints_ c) null_handle) rear ]
  else [].

(** MOVE ROBOT. *)
Definition move_robot (time : Time) (period : Duration) (c : FourWheelSteeringController)
  : FourWheelSteeringController * list Effect :=
  let curr_cmd := limited_command time period c in
  let c := c <| last1_cmd_ := last0_cmd_ c |> in
  let c := c <| last0_cmd_ := curr_cmd |> in
  let angular_speed := getAngular (odometry_ c) in
  let ws := wheel_separation_ c in
  let wr := wheel_radius_ c in
  let steering :=
    steering_angles (enable_twist_cmd_ c) (getLinear (odometry_ c)) (wheel_base_ c) curr_cmd in
  (c,
   set_wheels_velocities c
     (vel_left_front ws wr (wheel_base_ c) angular_speed curr_cmd)
     (vel_right_front ws wr (wheel_base_ c) angular_speed curr_cmd)
     (vel_left_rear ws wr angular_speed curr_cmd)
     (vel_right_rear ws wr angular_speed curr_cmd) ++
   set_steering_angles c (fst steering) (snd steering)).

Definition update (s : Sensors) (lk : Locks) (time : Time) (period : Duration)
  (c : FourWheelSteeringController) : FourWheelSteeringController * list Effect :=
  match compute_odometry s time c with
  | None => (c, [])
  | Some o =>
      let c := c <| odometry_ := o |> in
      let '(c, published) := publish_odometry lk time c in
      let '(c, commanded) := move_robot time period c in
      (c, published ++ commanded)
  end.

(** Consecutive calls of [update] by the control loop: the controller after
    the last one and the effects of each. *)
Fixpoint run (cycles : list Cycle) (c : FourWheelSteeringController)
  : FourWheelSteeringController * list (list Effect) :=
  match cycles with
  | [] => (c, [])
  | k :: rest =>
      let u := update (cycle_sensors k) (cycle_locks k) (cycle_time k) (cycle_period k) c in
      let r := run rest (fst u) in
      (fst r, snd u :: snd r)
  end.

(** No cycle of the run is aborted by a NaN wheel reading. *)
Fixpoint completes (cycles : list Cycle) (c : FourWheelSteeringController) : Prop :=
  match cycles with
  | [] => True
  | k :: rest =>
      compute_odometry (cycle_sensors k) (cycle_time k) c <> None /\
      completes rest
        (fst (update (cycle_sensors k) (cycle_locks k) (cycle_time k) (cycle_period k) c))
  end.

(** ** [brake], [starting], [stopping] *)

Definition brake (c : FourWheelSteeringController) : list Effect :=
  brake_effects (wheel_joints_size_ c) (steering_joints_size_ c)
                (left_wheel_joints_ c) (right_wheel_joints_ c)
                (left_steering_joints_ c) (right_steering_joints_ c).

Definition starting (time : Time) (c : FourWheelSteeringController)
  : FourWheelSteeringController * list Effect :=
  (c <| last_state_publish_time_ := time |>
     <| odometry_ := odometry_init (odometry_ c) time |>,
   brake c).

Definition stopping (time : Time) (c : FourWheelSteeringController)
  : FourWheelSteeringController * list Effect :=
  (c, brake c).

(** ** The command callbacks *)

(** [now] is what [ros::Time::now()] returns during the call. *)
Definition cmdVelCallback (now : Time) (command : Twist) (c : FourWheelSteeringController)
  : FourWheelSteeringController * list CallbackEffect :=
  if isRunning c then
    let c := c <| command_struct_ := (command_struct_ c) <| ang := vz (angular command) |> |> in
    let c := c <| command_struct_ := (command_struct_ c) <| lin := vx (linear command) |> |> in
    let c := c <| command_struct_ := (command_struct_ c) <| stamp := now |> |> in
    (c <| command_ := command_struct_ c |>, [WriteFromNonRT (command_struct_ c)])
  else (c, []).

Definition cmdFourWheelSteeringCallback (now : Time) (command : FourWheelSteeringDrive)
  (c : FourWheelSteeringController) : FourWheelSteeringController * list CallbackEffect :=
  if isRunning c then
    let c := c <| command_struct_four_wheel_steering_ :=
                    (command_struct_four_wheel_steering_ c)
                      <| front_steering := front_steering_angle command |> |> in
    let c := c <| command_struct_four_wheel_steering_ :=
                    (command_struct_four_wheel_steering_ c)
                      <| rear_steering := rear_steering_angle command |> |> in
    let c := c <| command_struct_four_wheel_steering_ :=
                    (command_struct_four_wheel_steering_ c) <| lin := speed command |> |> in
    let c := c <| command_struct_four_wheel_steering_ :=
                    (command_struct_four_wheel_steering_ c) <| stamp := now |> |> in
    (c <| command_four_wheel_steering_ := command_struct_four_wheel_steering_ c |>,
     [WriteFromNonRT_four_wheel_steering (command_struct_four_wheel_steering_ c)])
  else (c, []).

End Controller.

Arguments FourWheelSteeringController O : clear implicits.

End FourWheelSteering.

(** * Stand-ins for the collaborators, used by the examples

    The statements below hold for every estimator, limiter and library
    function.  The examples need some to run, so here is one of each. *)

Module Examples.

(** An estimator that keeps velocities and the time of its last update, and
    does not integrate a pose.  Closed loop the linear estimate is the mean
    wheel velocity and the angular one that velocity times the steering
    angle; open loop they are the commanded velocities. *)
Record VelocityEstimator := {
  x : float;
  y : float;
  heading : float;
  linear_estimate : float;
  angular_estimate : float;
  timestamp : Time;
  rolling_window_size : Z;
  wheel_params : list float
}.

#[export] Instance estimator : OdometryOps VelocityEstimator := {|
  odometry_init o time :=
    o <| x := 0 |> <| y := 0 |> <| heading := 0 |> <| timestamp := time |>;
  odometry_update o wheel_pos wheel_vel steering_pos time :=
    o <| linear_estimate := wheel_vel |>
      <| angular_estimate := wheel_vel * steering_pos |>
      <| timestamp := time |>;
  odometry_updateOpenLoop o linear angular time :=
    o <| linear_estimate := linear |>
      <| angular_estimate := angular |>
      <| timestamp := time |>;
  getHeading := heading;
  getX := x;
  getY := y;
  getLinear := linear_estimate;
  getAngular := angular_estimate;
  setVelocityRollingWindowSize o n := o <| rolling_window_size := n |>
|}.

Definition estimator0 : VelocityEstimator :=
  {| x := 0; y := 0; heading := 0; linear_estimate := 0; angular_estimate := 0;
     timestamp := 0%Z; rolling_window_size := 10%Z; wheel_params := [] |}.

Definition clamp (v lo hi : float) : float :=
  if v <? lo then lo else if hi <? v then hi else v.

(** A limiter with the acceleration and the velocity stage (the jerk stage is
    not run): the step from the previous value is held within
    [min_acceleration * dt, max_acceleration * dt], then the value within
    [min_velocity, max_velocity]. *)
Definition limit_example (l : SpeedLimiter) (v v0 v1 dt : float) : float :=
  let v :=
    if has_acceleration_limits l
    then v0 + clamp (v - v0) (min_acceleration l * dt) (max_acceleration l * dt)
    else v in
  if has_velocity_limits l then clamp v (min_velocity l) (max_velocity l) else v.

(** A rational approximation of the arc tangent; NaN goes to NaN. *)
Definition atan_example (v : float) : float :=
  if abs v <=? 1 then v / (1 + 0.28 * v * v)
  else if v <? 0 then - 1.5707963267948966 - v / (v * v + 0.28)
  else 1.5707963267948966 - v / (v * v + 0.28).

(** Squares only, the one exponent the controllers ask for. *)
Definition pow_example (v e : float) : float :=
  if e =? 2 then v * v else nan.

Definition copysign_example (magnitude sign : float) : float :=
  if ((sign <? 0) || (1 / sign <? 0))%bool then - abs magnitude else abs magnitude.

(** [floor] of a finite double as an integer (0 for infinities and NaN). *)
Definition floor_double (f : float) : Z :=
  match Prim2SF f with
  | S754_finite s m e =>
      let q := match e with
               | Z0 => (Zpos m, 0%Z)
               | Zpos k => ((Zpos m * 2 ^ Zpos k)%Z, 0%Z)
               | Zneg k => ((Zpos m / 2 ^ Zpos k)%Z, (Zpos m mod 2 ^ Zpos k)%Z)
               end in
      if s then (if (snd q =? 0)%Z then - fst q else - fst q - 1)%Z else fst q
  | _ => 0%Z
  end.

(** [ros::Duration(double)]: whole seconds, the rest rounded to a nanosecond. *)
Definition Duration_fromSec_example (d : float) : Duration :=
  let sec := floor_double d in
  let nsec := floor_double ((d - to_double sec) * 1e9 + 0.5) in
  (sec * nsec_per_sec + nsec)%Z.

#[export] Instance env : Env := {|
  limit := limit_example;
  createQuaternionMsgFromYaw yaw := {| qx := 0; qy := 0; qz := yaw / 2; qw := 1 |};
  atan := atan_example;
  pow := pow_example;
  copysign := copysign_example;
  parseURDF _ := None;
  Duration_fromSec := Duration_fromSec_example
|}.

Definition no_limits : SpeedLimiter :=
  {| has_velocity_limits := false;
     has_acceleration_limits := false;
     has_jerk_limits := false;
     min_velocity := 0; max_velocity := 0;
     min_acceleration := 0; max_acceleration := 0;
     min_jerk := 0; max_jerk := 0 |}.

(** At most 1 unit per second of change, up or down; no other limit. *)
Definition ramp_limits : SpeedLimiter :=
  {| has_velocity_limits := false;
     has_acceleration_limits := true;
     has_jerk_limits := false;
     min_velocity := 0; max_velocity := 0;
     min_acceleration := -1; max_acceleration := 1;
     min_jerk := 0; max_jerk := 0 |}.

(** A parameter server from a list of keys and values. *)
Fixpoint lookup (ps : list (string * XmlRpcValue)) (key : string) : option XmlRpcValue :=
  match ps with
  | [] => None
  | (k, v) :: rest => if String.eqb k key then Some v else lookup rest key
  end.

Definition covariance : XmlRpcValue :=
  TypeArray [TypeDouble 0.001; TypeDouble 0.001; TypeDouble 1000000.0;
             TypeDouble 1000000.0; TypeDouble 1000000.0; TypeDouble 1000.0].

Definition root_nh : NodeHandle :=
  {| getNamespace := "/"; param_value := fun _ => None |}.

Definition all_joints : list string :=
  ["fl_wheel"; "fr_wheel"; "rl_wheel"; "rr_wheel";
   "fl_steer"; "fr_steer"; "rl_steer"; "rr_steer"]%string.

Definition robot_hw : RobotHW :=
  {| pos_joint_hw := Some {| registered := all_joints; claims := [] |};
     vel_joint_hw := Some {| registered := all_joints; claims := [] |} |}.

Definition steady (value : float) : Sensors :=
  {| position := fun _ => value; velocity := fun _ => value |}.

(** Every joint reads [value], but for the position of joint [name], which
    reads NaN. *)
Definition nan_position_at (name : string) (value : float) : Sensors :=
  {| position := fun n => if String.eqb n name then nan else value;
     velocity := fun _ => value |}.

Definition locks_free : Locks := {| odom_trylock := true; tf_trylock := true |}.
Definition locks_busy : Locks := {| odom_trylock := false; tf_trylock := false |}.

(** A cycle of 10 ms at [time] in which every joint reads 0.2. *)
Definition cycle_at (time : Time) (lk : Locks) : Cycle :=
  {| cycle_sensors := steady 0.2;
     cycle_locks := lk;
     cycle_time := time;
     cycle_period := 10000000%Z |}.

(** ** An ackermann controller: one wheel pair, one steering pair *)

Definition setWheelParams2 (o : VelocityEstimator) (ws wr : float) : VelocityEstimator :=
  o <| wheel_params := [ws; wr] |>.

Definition ackermann_params : list (string * XmlRpcValue) :=
  [ ("left_wheel", TypeArray [TypeString "rl_wheel"]);
    ("right_wheel", TypeString "rr_wheel");
    ("left_steering", TypeString "fl_steer");
    ("right_steering", TypeString "fr_steer");
    ("wheel_separation", TypeDouble 0.5);
    ("wheel_radius", TypeDouble 0.1);
    ("pose_covariance_diagonal", covariance);
    ("twist_covariance_diagonal", covariance) ]%string.

Definition ackermann_nh : NodeHandle :=
  {| getNamespace := "/robot/ackermann_controller";
     param_value := lookup ackermann_params |}.

Definition ackermann_constructed : Ackermann.AckermannController VelocityEstimator :=
  Ackermann.new estimator0 no_limits
    {| Ackermann.lin := 0; Ackermann.ang := 0; Ackermann.stamp := 0%Z |}.

(** Initialised from the parameters above and started at 1 s. *)
Definition ackermann : Ackermann.AckermannController VelocityEstimator :=
  Eval vm_compute in
  match Ackermann.initRequest setWheelParams2 robot_hw root_nh ackermann_nh []
                              ackermann_constructed with
  | Ok (true, c, _, _) =>
      (fst (Ackermann.starting 1000000000%Z c)) <| Ackermann.state_ := RUNNING |>
  | _ => ackermann_constructed
  end.

Definition twist (v w : float) : Ackermann.Twist :=
  {| Ackermann.linear := {| vx := v; vy := 0; vz := 0 |};
     Ackermann.angular := {| vx := 0; vy := 0; vz := w |} |}.

(** The same controller after a twist received at 1.2 s. *)
Definition ackermann_commanded (v w : float) : Ackermann.AckermannController VelocityEstimator :=
  fst (Ackermann.cmdVelCallback 1200000000%Z (twist v w) ackermann).

(** Two left wheels for one right wheel. *)
Definition mismatched_nh : NodeHandle :=
  {| getNamespace := "/robot/ackermann_controller";
     param_value :=
       lookup [ ("left_wheel", TypeArray [TypeString "fl_wheel"; TypeString "rl_wheel"]);
                ("right_wheel", TypeString "rr_wheel");
                ("left_steering", TypeString "fl_steer");
                ("right_steering", TypeString "fr_steer") ]%string |}.

Definition hardware : HardwareInterface :=
  {| registered := all_joints; claims := [] |}.

(** ** A four-wheel-steering controller: two wheel pairs, two steering pairs *)

Definition setWheelParams3 (o : VelocityEstimator) (ws wr wb : float) : VelocityEstimator :=
  o <| wheel_params := [ws; wr; wb] |>.

Definition four_wheel_steering_params (twist_cmd open_loop : bool)
  : list (string * XmlRpcValue) :=
  [ ("left_wheel", TypeArray [TypeString "fl_wheel"; TypeString "rl_wheel"]);
    ("right_wheel", TypeArray [TypeString "fr_wheel"; TypeString "rr_wheel"]);
    ("left_steering", TypeArray [TypeString "fl_steer"; TypeString "rl_steer"]);
    ("right_steering", TypeArray [TypeString "fr_steer"; TypeString "rr_steer"]);
    ("enable_twist_cmd", TypeBoolean twist_cmd);
    ("open_loop", TypeBoolean open_loop);
    ("wheel_separation", TypeDouble 0.5);
    ("wheel_radius", TypeDouble 0.1);
    ("wheel_base", TypeDouble 1.0);
    ("pose_covariance_diagonal", covariance);
    ("twist_covariance_diagonal", covariance) ]%string.

Definition four_wheel_steering_nh (twist_cmd open_loop : bool) : NodeHandle :=
  {| getNamespace := "/robot/four_wheel_steering_controller";
     param_value := lookup (four_wheel_steering_params twist_cmd open_loop) |}.

Definition four_wheel_steering_constructed
  : FourWheelSteering.FourWheelSteeringController VelocityEstimator :=
  FourWheelSteering.new estimator0 no_limits
    {| FourWheelSteering.lin := 0; FourWheelSteering.ang := 0;
       FourWheelSteering.front_steering := 0; FourWheelSteering.rear_steering := 0;
       FourWheelSteering.stamp := 0%Z |}.

Definition four_wheel_steering_started (twist_cmd open_loop : bool)
  : FourWheelSteering.FourWheelSteeringController VelocityEstimator :=
  match FourWheelSteering.initRequest setWheelParams3 robot_hw root_nh
          (four_wheel_steering_nh twist_cmd open_loop) []
          four_wheel_steering_constructed with
  | Ok (true, c, _, _) =>
      (fst (FourWheelSteering.starting 1000000000%Z c))
        <| FourWheelSteering.state_ := RUNNING |>
  | _ => four_wheel_steering_constructed
  end.

(** Direct-axle mode, closed loop, started at 1 s. *)
Definition direct_axle : FourWheelSteering.FourWheelSteeringController VelocityEstimator :=
  Eval vm_compute in four_wheel_steering_started false false.

(** Twist mode, closed loop, started at 1 s. *)
Definition twist_mode : FourWheelSteering.FourWheelSteeringController VelocityEstimator :=
  Eval vm_compute in four_wheel_steering_started true false.

(** Twist mode, open loop, started at 1 s. *)
Definition twist_mode_open_loop : FourWheelSteering.FourWheelSteeringController VelocityEstimator :=
  Eval vm_compute in four_wheel_steering_started true true.

Definition drive (v front rear : float) : FourWheelSteering.FourWheelSteeringDrive :=
  {| FourWheelSteering.front_steering_angle := front;
     FourWheelSteering.rear_steering_angle := rear;
     FourWheelSteering.speed := v |}.

(** The direct-axle controller after a drive message received at 1.2 s. *)
Definition direct_axle_commanded (v front rear : float)
  : FourWheelSteering.FourWheelSteeringController VelocityEstimator :=
  fst (FourWheelSteering.cmdFourWheelSteeringCallback 1200000000%Z (drive v front rear)
         direct_axle).

Definition twist4 (v w : float) : FourWheelSteering.Twist :=
  {| FourWheelSteering.linear := {| vx := v; vy := 0; vz := 0 |};
     FourWheelSteering.angular := {| vx := 0; vy := 0; vz := w |} |}.

(** A twist-mode controller after a twist received at 1.2 s. *)
Definition twist_commanded (c : FourWheelSteering.FourWheelSteeringController VelocityEstimator)
  (v w : float) : FourWheelSteering.FourWheelSteeringController VelocityEstimator :=
  fst (FourWheelSteering.cmdVelCallback 1200000000%Z (twist4 v w) c).

(** ** A robot description *)

(** The model a parser builds from the description of a robot whose rear
    wheel joints are 0.5 apart and carry cylinders of radius 0.1, and whose
    front wheel joints, 0.5 apart as well, carry boxes. *)
Definition wheel_joint (px py : float) (link : string) : Joint :=
  {| parent_to_joint_origin_position := {| vx := px; vy := py; vz := 0 |};
     child_link_name := link |}.

Definition robot_model : ModelInterface :=
  {| getJoint := fun name =>
       if String.eqb name "rl_wheel" then Some (wheel_joint (-0.5) 0.25 "rl_wheel_link")
       else if String.eqb name "rr_wheel" then Some (wheel_joint (-0.5) (-0.25) "rr_wheel_link")
       else if String.eqb name "fl_wheel" then Some (wheel_joint 0.5 0.25 "fl_wheel_link")
       else if String.eqb name "fr_wheel" then Some (wheel_joint 0.5 (-0.25) "fr_wheel_link")
       else None;
     getLink := fun name =>
       if (String.eqb name "rl_wheel_link" || String.eqb name "rr_wheel_link")%bool
       then Some {| link_name := name;
                    collision := Some {| geometry := Some (CYLINDER 0.1 0.05) |} |}
       else if (String.eqb name "fl_wheel_link" || String.eqb name "fr_wheel_link")%bool
       then Some {| link_name := name; collision := Some {| geometry := Some BOX |} |}
       else None |}.

(** The stand-ins above with a parser that knows this one description. *)
Definition env_with_model : Env :=
  {| limit := limit_example;
     createQuaternionMsgFromYaw yaw := {| qx := 0; qy := 0; qz := yaw / 2; qw := 1 |};
     atan := atan_example;
     pow := pow_example;
     copysign := copysign_example;
     parseURDF description :=
       if String.eqb description "<robot/>" then Some robot_model else None;
     Duration_fromSec := Duration_fromSec_example |}.

Definition described_nh : NodeHandle :=
  {| getNamespace := "/";
     param_value := lookup [ ("robot_description", TypeString "<robot/>") ]%string |}.

(** The parameters of the ackermann example without separation and radius,
    which are then looked up in the robot description. *)
Definition undimensioned_nh : NodeHandle :=
  {| getNamespace := "/robot/ackermann_controller";
     param_value :=
       lookup [ ("left_wheel", TypeArray [TypeString "rl_wheel"]);
                ("right_wheel", TypeString "rr_wheel");
                ("left_steering", TypeString "fl_steer");
                ("right_steering", TypeString "fr_steer");
                ("pose_covariance_diagonal", covariance);
                ("twist_covariance_diagonal", covariance) ]%string |}.

(** A cycle of 10 ms at [time] in which the position of joint [name] reads
    NaN and everything else 0.2. *)
Definition nan_cycle_at (name : string) (time : Time) (lk : Locks) : Cycle :=
  {| cycle_sensors := nan_position_at name 0.2;
     cycle_locks := lk;
     cycle_time := time;
     cycle_period := 10000000%Z |}.

End Examples.

(** * Properties *)

Ltac split_ifs :=
  repeat (match goal with
          | |- context [if ?b then _ else _] => destruct b eqn:?
          end; cbn).

(** The same without unfolding anything: only the tests in sight are split. *)
Ltac split_tests :=
  cbv beta iota zeta;
  repeat (match goal with
          | |- context [if ?b then _ else _] => destruct b eqn:?
          end; cbv beta iota zeta).

(** ** Doubles: NaN and the order tests *)

Lemma SFeqb_refl_false (f : spec_float) : SFeqb f f = false -> f = S754_nan.
Proof.
  destruct f as [s|s| |s m e]; cbn; try discriminate; try reflexivity.
  - destruct s; discriminate.
  - unfold SFeqb, SFcompare.
    rewrite Z.compare_refl.
    change (Pos.compare_cont Eq m m) with (Pos.compare m m).
    rewrite Pos.compare_refl.
    destruct s; discriminate.
Qed.

Lemma is_nan_inv (v : float) : is_nan v = true -> v = nan.
Proof.
  unfold is_nan. intros H. apply negb_true_iff in H.
  rewrite eqb_spec in H. apply SFeqb_refl_false in H.
  apply Prim2SF_inj. rewrite H. reflexivity.
Qed.

Lemma nan_add_l (v : float) : nan + v = nan.
Proof. apply Prim2SF_inj. rewrite add_spec. reflexivity. Qed.

Lemma nan_div_l (v : float) : nan / v = nan.
Proof. apply Prim2SF_inj. rewrite div_spec. reflexivity. Qed.

Lemma abs_nan_inv (v : float) : is_nan (abs v) = true -> is_nan v = true.
Proof.
  intros H. apply is_nan_inv in H.
  assert (E : Prim2SF v = S754_nan).
  { apply (f_equal Prim2SF) in H. rewrite abs_spec in H.
    destruct (Prim2SF v); cbn in H; try discriminate. reflexivity. }
  replace v with nan; [reflexivity | ].
  apply Prim2SF_inj. rewrite E. reflexivity.
Qed.

Lemma SFcompare_antisym (a b : spec_float) :
  SFcompare b a =
  match SFcompare a b with
  | Some c => Some (CompOpp c)
  | None => None
  end.
Proof.
  destruct a as [sa|sa| |sa ma ea], b as [sb|sb| |sb mb eb]; cbn; try reflexivity;
    try (destruct sa; reflexivity); try (destruct sb; reflexivity);
    try (destruct sa, sb; reflexivity).
  change (Pos.compare_cont Eq mb ma) with (Pos.compare mb ma).
  change (Pos.compare_cont Eq ma mb) with (Pos.compare ma mb).
  rewrite (Z.compare_antisym ea eb), (Pos.compare_antisym ma mb).
  destruct sa, sb; try reflexivity;
    destruct (ea ?= eb)%Z; cbn; try reflexivity;
    destruct (ma ?= mb)%positive; reflexivity.
Qed.

(** [a <= b] excludes [b < a]. *)
Lemma leb_not_ltb (a b : float) : (a <=? b) = true -> (b <? a) = false.
Proof.
  rewrite leb_spec, ltb_spec. unfold SFleb, SFltb.
  rewrite (SFcompare_antisym (Prim2SF a) (Prim2SF b)).
  destruct (SFcompare (Prim2SF a) (Prim2SF b)) as [[]|]; cbn; congruence.
Qed.

(** When [b < a] fails, either [a <= b] or one of the two is NaN. *)
Lemma not_ltb_cases (a b : float) :
  (b <? a) = false -> (a <=? b) = true \/ is_nan a = true \/ is_nan b = true.
Proof.
  rewrite leb_spec, ltb_spec. unfold SFleb, SFltb.
  rewrite (SFcompare_antisym (Prim2SF a) (Prim2SF b)).
  destruct (SFcompare (Prim2SF a) (Prim2SF b)) as [[]|] eqn:E; cbn; try congruence; auto.
  intros _. right.
  unfold is_nan. rewrite !eqb_spec.
  destruct (Prim2SF a) as [sa|sa| |sa ma ea], (Prim2SF b) as [sb|sb| |sb mb eb];
    cbn in *; try discriminate; auto;
    try (destruct sa; discriminate); try (destruct sb; discriminate);
    try (destruct sa, sb; discriminate).
Qed.

(** What the tests on a double say of its value. *)
Lemma is_zero_inv (v : float) : is_zero v = true -> exists s, Prim2SF v = S754_zero s.
Proof.
  unfold is_zero. rewrite eqb_spec.
  change (Prim2SF zero) with (S754_zero false).
  destruct (Prim2SF v) as [s|s| |s m e]; cbn; try discriminate.
  - eauto.
  - destruct s; discriminate.
  - destruct s; discriminate.
Qed.

Lemma is_finite_inv (v : float) :
  is_finite v = true ->
  (exists s, Prim2SF v = S754_zero s) \/ exists s m e, Prim2SF v = S754_finite s m e.
Proof.
  unfold is_finite, is_nan, is_infinity. rewrite !eqb_spec, abs_spec.
  change (Prim2SF infinity) with (S754_infinity false).
  destruct (Prim2SF v) as [s|s| |s m e]; cbn; try discriminate; eauto.
  destruct s; discriminate.
Qed.

Lemma divisor_inv (v : float) :
  is_nan v = false -> is_zero v = false ->
  (exists s, Prim2SF v = S754_infinity s) \/ exists s m e, Prim2SF v = S754_finite s m e.
Proof.
  unfold is_nan, is_zero. rewrite !eqb_spec.
  change (Prim2SF zero) with (S754_zero false).
  destruct (Prim2SF v) as [s|s| |s m e]; cbn; try discriminate; eauto.
Qed.

(** The ackermann wheel velocities of a zero command. *)
Lemma zero_wheel_velocity (l a ws wr : float) :
  is_zero l = true -> is_zero a = true -> is_finite ws = true ->
  is_nan wr = false -> is_zero wr = false ->
  is_zero ((l - a * ws / 2) / wr) = true /\ is_zero ((l + a * ws / 2) / wr) = true.
Proof.
  intros Hl Ha Hws Hn Hz.
  apply is_zero_inv in Hl, Ha. destruct Hl as [sl Hl], Ha as [sa Ha].
  apply is_finite_inv in Hws. pose proof (divisor_inv wr Hn Hz) as Hwr.
  unfold is_zero. rewrite !eqb_spec, !div_spec, sub_spec, add_spec, div_spec, mul_spec.
  rewrite Hl, Ha.
  change (Prim2SF zero) with (S754_zero false).
  change (Prim2SF 2) with (S754_finite false 4503599627370496 (-51)).
  destruct Hws as [[s ->] | (s & m & e & ->)];
    destruct Hwr as [[s' ->] | (s' & m' & e' & ->)];
    destruct sl, sa, s, s'; split; reflexivity.
Qed.

(** ** Lists of effects *)

Lemma filter_app_nil {A : Type} (f : A -> bool) (l1 l2 : list A) :
  filter f l1 = [] -> filter f (l1 ++ l2) = filter f l2.
Proof. intros H. rewrite filter_app, H. reflexivity. Qed.

Lemma filter_all {A : Type} (f : A -> bool) (l : list A) :
  forallb f l = true -> filter f l = l.
Proof.
  induction l as [|a l IH]; cbn; [reflexivity | ].
  intros H. apply andb_true_iff in H. destruct H as [Ha Hl].
  rewrite Ha, IH; auto.
Qed.

(** ** The sensor loop *)

(** A NaN position or velocity on a wheel joint the loop reaches makes it
    return. *)
Lemma read_wheels_nan (s : Sensors) (L R : list JointHandle) (idx : list nat)
  (acc : WheelSums) (i : nat) :
  In i idx ->
  (is_nan (getPosition s (nth i L null_handle)) ||
   is_nan (getPosition s (nth i R null_handle)) ||
   is_nan (getVelocity s (nth i L null_handle)) ||
   is_nan (getVelocity s (nth i R null_handle)))%bool = true ->
  read_wheels s L R idx acc = None.
Proof.
  revert acc. induction idx as [|j idx IH]; intros acc Hin Hnan; [contradiction | ].
  cbn [read_wheels].
  destruct (is_nan (getPosition s (nth j L null_handle)) ||
            is_nan (getPosition s (nth j R null_handle)))%bool eqn:Ep; [reflexivity | ].
  destruct (is_nan (getVelocity s (nth j L null_handle)) ||
            is_nan (getVelocity s (nth j R null_handle)))%bool eqn:Ev; [reflexivity | ].
  destruct Hin as [-> | Hin].
  - rewrite <- orb_assoc in Hnan. rewrite Ep in Hnan. cbn in Hnan. congruence.
  - apply IH; assumption.
Qed.

(** ** The ackermann cycle *)

Section AckermannFacts.

Import Ackermann.

Context {O : Type} {odometry : OdometryOps O} {env : Env}.

Implicit Types (c : AckermannController O) (s : Sensors) (lk : Locks)
  (time : Time) (period : Duration).

Lemma ackermann_update_aborted s lk time period c :
  compute_odometry s time c = None ->
  update s lk time period c = (c, []).
Proof. intros H. unfold update. rewrite H. reflexivity. Qed.

(** A cycle that gets past the sensors, in terms of the controller it
    started from. *)
Lemma ackermann_update_completed s lk time period c o :
  compute_odometry s time c = Some o ->
  update s lk time period c =
  (let p := publish_odometry lk time (c <| odometry_ := o |>) in
   let curr_cmd := limited_command time period c in
   let ws := wheel_separation_multiplier_ c * wheel_separation_ c in
   let wr := wheel_radius_multiplier_ c * wheel_radius_ c in
   ((fst p) <| last1_cmd_ := last0_cmd_ c |> <| last0_cmd_ := curr_cmd |>,
    snd p ++ set_wheels_velocities c (vel_left ws wr curr_cmd) (vel_right ws wr curr_cmd))).
Proof.
  intros H. unfold update. rewrite H.
  unfold publish_odometry. split_tests; reflexivity.
Qed.

(** Publishing leaves alone what the motion part reads and writes. *)
Lemma ackermann_publish_frame lk time c :
  let c' := fst (publish_odometry lk time c) in
  odometry_ c' = odometry_ c /\
  command_ c' = command_ c /\
  last0_cmd_ c' = last0_cmd_ c /\
  last1_cmd_ c' = last1_cmd_ c /\
  publish_period_ c' = publish_period_ c /\
  open_loop_ c' = open_loop_ c /\
  limiter_lin_ c' = limiter_lin_ c /\
  limiter_ang_ c' = limiter_ang_ c /\
  cmd_vel_timeout_ c' = cmd_vel_timeout_ c.
Proof.
  unfold publish_odometry. cbn.
  split_ifs; repeat split.
Qed.

Lemma ackermann_publish_no_command lk time c :
  filter is_SetCommand (snd (publish_odometry lk time c)) = [].
Proof.
  unfold publish_odometry. cbn.
  split_ifs; reflexivity.
Qed.

Lemma ackermann_wheels_all_commands c (vl vr : float) :
  filter is_SetCommand (set_wheels_velocities c vl vr) = set_wheels_velocities c vl vr.
Proof.
  apply filter_all. unfold set_wheels_velocities.
  induction (seq 0 (wheel_joints_size_ c)) as [|i l IH]; [reflexivity | exact IH].
Qed.

Lemma ackermann_wheels_no_publication c (vl vr : float) :
  filter is_PublishOdom (set_wheels_velocities c vl vr) = [].
Proof.
  unfold set_wheels_velocities.
  induction (seq 0 (wheel_joints_size_ c)) as [|i l IH]; [reflexivity | exact IH].
Qed.

(** What one pass through the publishing block emits and does to
    [last_state_publish_time_]. *)
Lemma ackermann_publish_cases lk time c :
  let p := publish_odometry lk time c in
  let due := (last_state_publish_time_ c + publish_period_ c <? time)%Z in
  last_state_publish_time_ (fst p) =
    (if due then last_state_publish_time_ c + publish_period_ c
     else last_state_publish_time_ c)%Z /\
  List.length (filter is_PublishOdom (snd p)) =
    (if (due && odom_trylock lk)%bool then 1 else 0)%nat.
Proof.
  unfold publish_odometry. cbn.
  split_ifs; split; reflexivity.
Qed.

(** The controller and the effects of a cycle that gets past the sensors. *)
Lemma ackermann_update_fields s lk time period c o :
  compute_odometry s time c = Some o ->
  let u := update s lk time period c in
  let p := publish_odometry lk time (c <| odometry_ := o |>) in
  let curr_cmd := limited_command time period c in
  let ws := wheel_separation_multiplier_ c * wheel_separation_ c in
  let wr := wheel_radius_multiplier_ c * wheel_radius_ c in
  odometry_ (fst u) = o /\
  last0_cmd_ (fst u) = curr_cmd /\
  last1_cmd_ (fst u) = last0_cmd_ c /\
  last_state_publish_time_ (fst u) = last_state_publish_time_ (fst p) /\
  snd u = snd p ++ set_wheels_velocities c (vel_left ws wr curr_cmd) (vel_right ws wr curr_cmd).
Proof.
  intros H. cbv zeta.
  rewrite (ackermann_update_completed s lk time period c o H). cbv zeta.
  destruct (ackermann_publish_frame lk time (c <| odometry_ := o |>)) as (Hodo & _).
  repeat split. exact Hodo.
Qed.

End AckermannFacts.

(** ** The four-wheel-steering cycle *)

Section FourWheelSteeringFacts.

Import FourWheelSteering.

Context {O : Type} {odometry : OdometryOps O} {env : Env}.

Implicit Types (c : FourWheelSteeringController O) (s : Sensors) (lk : Locks)
  (time : Time) (period : Duration).

Lemma four_wheel_steering_update_aborted s lk time period c :
  compute_odometry s time c = None ->
  update s lk time period c = (c, []).
Proof. intros H. unfold update. rewrite H. reflexivity. Qed.

(** A cycle that gets past the sensors, in terms of the controller it
    started from. *)
Lemma four_wheel_steering_update_completed s lk time period c o :
  compute_odometry s time c = Some o ->
  update s lk time period c =
  (let p := publish_odometry lk time (c <| odometry_ := o |>) in
   let curr_cmd := limited_command time period c in
   let ws := wheel_separation_ c in
   let wr := wheel_radius_ c in
   let steering :=
     steering_angles (enable_twist_cmd_ c) (getLinear o) (wheel_base_ c) curr_cmd in
   ((fst p) <| last1_cmd_ := last0_cmd_ c |> <| last0_cmd_ := curr_cmd |>,
    snd p ++
    (set_wheels_velocities c
       (vel_left_front ws wr (wheel_base_ c) (getAngular o) curr_cmd)
       (vel_right_front ws wr (wheel_base_ c) (getAngular o) curr_cmd)
       (vel_left_rear ws wr (getAngular o) curr_cmd)
       (vel_right_rear ws wr (getAngular o) curr_cmd) ++
     set_steering_angles c (fst steering) (snd steering)))).
Proof.
  intros H. unfold update. rewrite H.
  unfold publish_odometry. split_tests; reflexivity.
Qed.

(** Publishing leaves alone what the motion part reads and writes. *)
Lemma four_wheel_steering_publish_frame lk time c :
  let c' := fst (publish_odometry lk time c) in
  odometry_ c' = odometry_ c /\
  command_ c' = command_ c /\
  last0_cmd_ c' = last0_cmd_ c /\
  last1_cmd_ c' = last1_cmd_ c /\
  publish_period_ c' = publish_period_ c /\
  open_loop_ c' = open_loop_ c /\
  limiter_lin_ c' = limiter_lin_ c /\
  limiter_ang_ c' = limiter_ang_ c /\
  cmd_vel_timeout_ c' = cmd_vel_timeout_ c /\
  read_command c' = read_command c.
Proof.
  unfold publish_odometry. cbn.
  split_ifs; repeat split.
Qed.

Lemma four_wheel_steering_publish_no_command lk time c :
  filter is_SetCommand (snd (publish_odometry lk time c)) = [].
Proof.
  unfold publish_odometry. cbn.
  split_ifs; reflexivity.
Qed.

(** What one pass through the publishing block emits and does to
    [last_state_publish_time_]. *)
Lemma four_wheel_steering_publish_cases lk time c :
  let p := publish_odometry lk time c in
  let due := (last_state_publish_time_ c + publish_period_ c <? time)%Z in
  last_state_publish_time_ (fst p) =
    (if due then last_state_publish_time_ c + publish_period_ c
     else last_state_publish_time_ c)%Z /\
  List.length (filter is_PublishOdom (snd p)) =
    (if (due && odom_trylock lk)%bool then 1 else 0)%nat.
Proof.
  unfold publish_odometry. cbn.
  split_ifs; split; reflexivity.
Qed.

(** With two handles a side, as [init] leaves them, the motion part writes
    the four wheels, then the four steering joints. *)
Lemma four_wheel_steering_commands c (lf rf lr rr front rear : float) :
  List.length (left_wheel_joints_ c) = 2%nat ->
  List.length (right_wheel_joints_ c) = 2%nat ->
  List.length (left_steering_joints_ c) = 2%nat ->
  List.length (right_steering_joints_ c) = 2%nat ->
  set_wheels_velocities c lf rf lr rr ++ set_steering_angles c front rear =
  [ SetCommand (nth 0 (left_wheel_joints_ c) null_handle) lf;
    SetCommand (nth 0 (right_wheel_joints_ c) null_handle) rf;
    SetCommand (nth 1 (left_wheel_joints_ c) null_handle) lr;
    SetCommand (nth 1 (right_wheel_joints_ c) null_handle) rr;
    SetCommand (nth 0 (left_steering_joints_ c) null_handle) front;
    SetCommand (nth 0 (right_steering_joints_ c) null_handle) front;
    SetCommand (nth 1 (left_steering_joints_ c) null_handle) rear;
    SetCommand (nth 1 (right_steering_joints_ c) null_handle) rear ].
Proof.
  intros H1 H2 H3 H4. unfold set_wheels_velocities, set_steering_angles.
  rewrite H1, H2, H3, H4. reflexivity.
Qed.

(** The controller and the effects of a cycle that gets past the sensors. *)
Lemma four_wheel_steering_update_fields s lk time period c o :
  compute_odometry s time c = Some o ->
  let u := update s lk time period c in
  let p := publish_odometry lk time (c <| odometry_ := o |>) in
  let curr_cmd := limited_command time period c in
  let ws := wheel_separation_ c in
  let wr := wheel_radius_ c in
  let steering :=
    steering_angles (enable_twist_cmd_ c) (getLinear o) (wheel_base_ c) curr_cmd in
  odometry_ (fst u) = o /\
  last0_cmd_ (fst u) = curr_cmd /\
  last1_cmd_ (fst u) = last0_cmd_ c /\
  last_state_publish_time_ (fst u) = last_state_publish_time_ (fst p) /\
  snd u =
    snd p ++
    (set_wheels_velocities c
       (vel_left_front ws wr (wheel_base_ c) (getAngular o) curr_cmd)
       (vel_right_front ws wr (wheel_base_ c) (getAngular o) curr_cmd)
       (vel_left_rear ws wr (getAngular o) curr_cmd)
       (vel_right_rear ws wr (getAngular o) curr_cmd) ++
     set_steering_angles c (fst steering) (snd steering)).
Proof.
  intros H. cbv zeta.
  rewrite (four_wheel_steering_update_completed s lk time period c o H). cbv zeta.
  destruct (four_wheel_steering_publish_frame lk time (c <| odometry_ := o |>))
    as (Hodo & _).
  repeat split. exact Hodo.
Qed.

End FourWheelSteeringFacts.

(** * The claims *)

Import Examples.

(** C1, amended.  Stale command.  In a cycle where the age of the command
    read from the buffer, [time - stamp] in seconds, exceeds
    [cmd_vel_timeout_], the command of the cycle is made zero in [lin] and
    [ang] (and, four-wheel steering, in [front_steering] and
    [rear_steering]) before the limiters: nothing of what it held is left
    but its stamp.  When the cycle gets past the sensors each limiter
    receives this zero, and what the two return, [l] and [a], is the command
    the cycle stores in [last0_cmd_] and computes its setpoints from.  The
    ackermann controller writes [(l - a*ws/2)/wr] and [(l + a*ws/2)/wr] on
    every wheel pair; every setpoint is zero when [l] and [a] are zero, [ws]
    is finite and [wr] is neither zero nor NaN.  The four-wheel-steering
    controller, with two handles a side, writes its four wheels from [l] and
    the angular speed of the estimator, and its steering joints zero in
    direct-axle mode and from [a] in twist mode. *)
Theorem stale_command_is_zeroed {O : Type} {odometry : OdometryOps O} {env : Env} :
  (forall (c : Ackermann.AckermannController O) s lk time period,
     let cmd := Ackermann.command_ c in
     (Ackermann.cmd_vel_timeout_ c <? toSec (time - Ackermann.stamp cmd)%Z) = true ->
     Ackermann.brake_if_timeout time (Ackermann.cmd_vel_timeout_ c) cmd =
       {| Ackermann.lin := 0; Ackermann.ang := 0; Ackermann.stamp := Ackermann.stamp cmd |} /\
     forall o, Ackermann.compute_odometry s time c = Some o ->
       let u := Ackermann.update s lk time period c in
       let l := limit (Ackermann.limiter_lin_ c) 0
                      (Ackermann.lin (Ackermann.last0_cmd_ c))
                      (Ackermann.lin (Ackermann.last1_cmd_ c)) (toSec period) in
       let a := limit (Ackermann.limiter_ang_ c) 0
                      (Ackermann.ang (Ackermann.last0_cmd_ c))
                      (Ackermann.ang (Ackermann.last1_cmd_ c)) (toSec period) in
       let ws := Ackermann.wheel_separation_multiplier_ c * Ackermann.wheel_separation_ c in
       let wr := Ackermann.wheel_radius_multiplier_ c * Ackermann.wheel_radius_ c in
       Ackermann.last0_cmd_ (fst u) =
         {| Ackermann.lin := l; Ackermann.ang := a;
            Ackermann.stamp := Ackermann.stamp cmd |} /\
       filter is_SetCommand (snd u) =
         flat_map (fun i =>
                     [ SetCommand (nth i (Ackermann.left_wheel_joints_ c) null_handle)
                                  ((l - a * ws / 2) / wr);
                       SetCommand (nth i (Ackermann.right_wheel_joints_ c) null_handle)
                                  ((l + a * ws / 2) / wr) ])
                  (seq 0 (Ackermann.wheel_joints_size_ c)) /\
       (is_zero l = true -> is_zero a = true -> is_finite ws = true ->
        is_nan wr = false -> is_zero wr = false ->
        forall h v, In (SetCommand h v) (snd u) -> is_zero v = true)) /\
  (forall (c : FourWheelSteering.FourWheelSteeringController O) s lk time period,
     let cmd := FourWheelSteering.read_command c in
     (FourWheelSteering.cmd_vel_timeout_ c
        <? toSec (time - FourWheelSteering.stamp cmd)%Z) = true ->
     FourWheelSteering.brake_if_timeout time (FourWheelSteering.cmd_vel_timeout_ c) cmd =
       {| FourWheelSteering.lin := 0; FourWheelSteering.ang := 0;
          FourWheelSteering.front_steering := 0; FourWheelSteering.rear_steering := 0;
          FourWheelSteering.stamp := FourWheelSteering.stamp cmd |} /\
     forall o, FourWheelSteering.compute_odometry s time c = Some o ->
       let u := FourWheelSteering.update s lk time period c in
       let l := limit (FourWheelSteering.limiter_lin_ c) 0
                      (FourWheelSteering.lin (FourWheelSteering.last0_cmd_ c))
                      (FourWheelSteering.lin (FourWheelSteering.last1_cmd_ c))
                      (toSec period) in
       let a := limit (FourWheelSteering.limiter_ang_ c) 0
                      (FourWheelSteering.ang (FourWheelSteering.last0_cmd_ c))
                      (FourWheelSteering.ang (FourWheelSteering.last1_cmd_ c))
                      (toSec period) in
       let w := getAngular o in
       let ws := FourWheelSteering.wheel_separation_ c in
       let wr := FourWheelSteering.wheel_radius_ c in
       let wb := FourWheelSteering.wheel_base_ c in
       let steered :=
         (FourWheelSteering.enable_twist_cmd_ c && (0.01 <? abs (getLinear o)))%bool in
       let steering := atan (a * wb / getLinear o) in
       FourWheelSteering.last0_cmd_ (fst u) =
         {| FourWheelSteering.lin := l; FourWheelSteering.ang := a;
            FourWheelSteering.front_steering := 0; FourWheelSteering.rear_steering := 0;
            FourWheelSteering.stamp := FourWheelSteering.stamp cmd |} /\
       (List.length (FourWheelSteering.left_wheel_joints_ c) = 2%nat ->
        List.length (FourWheelSteering.right_wheel_joints_ c) = 2%nat ->
        List.length (FourWheelSteering.left_steering_joints_ c) = 2%nat ->
        List.length (FourWheelSteering.right_steering_joints_ c) = 2%nat ->
        filter is_SetCommand (snd u) =
        [ SetCommand (nth 0 (FourWheelSteering.left_wheel_joints_ c) null_handle)
            (copysign 1.0 l * sqrt (pow (l - w * ws / 2) 2 + pow (wb * w) 2) / wr);
          SetCommand (nth 0 (FourWheelSteering.right_wheel_joints_ c) null_handle)
            (copysign 1.0 l * sqrt (pow (l + w * ws / 2) 2 + pow (wb * w) 2) / wr);
          SetCommand (nth 1 (FourWheelSteering.left_wheel_joints_ c) null_handle)
            ((l - w * ws / 2) / wr);
          SetCommand (nth 1 (FourWheelSteering.right_wheel_joints_ c) null_handle)
            ((l + w * ws / 2) / wr);
          SetCommand (nth 0 (FourWheelSteering.left_steering_joints_ c) null_handle)
            (if steered then steering / 2 else 0);
          SetCommand (nth 0 (FourWheelSteering.right_steering_joints_ c) null_handle)
            (if steered then steering / 2 else 0);
          SetCommand (nth 1 (FourWheelSteering.left_steering_joints_ c) null_handle)
            (if steered then (- steering) / 2 else 0);
          SetCommand (nth 1 (FourWheelSteering.right_steering_joints_ c) null_handle)
            (if steered then (- steering) / 2 else 0) ]) /\
       (FourWheelSteering.enable_twist_cmd_ c = false ->
        List.length (FourWheelSteering.left_steering_joints_ c) = 2%nat ->
        List.length (FourWheelSteering.right_steering_joints_ c) = 2%nat ->
        exists before,
          snd u =
          before ++
          [ SetCommand (nth 0 (FourWheelSteering.left_steering_joints_ c) null_handle) 0;
            SetCommand (nth 0 (FourWheelSteering.right_steering_joints_ c) null_handle) 0;
            SetCommand (nth 1 (FourWheelSteering.left_steering_joints_ c) null_handle) 0;
            SetCommand (nth 1 (FourWheelSteering.right_steering_joints_ c) null_handle) 0 ])).
Proof.
  split.
  - intros c s lk time period cmd Hstale.
    assert (Hb : Ackermann.brake_if_timeout time (Ackermann.cmd_vel_timeout_ c) cmd =
                 {| Ackermann.lin := 0; Ackermann.ang := 0;
                    Ackermann.stamp := Ackermann.stamp cmd |}).
    { unfold Ackermann.brake_if_timeout. cbv zeta. rewrite Hstale. reflexivity. }
    split; [exact Hb | ].
    intros o Ho u l a ws wr.
    destruct (ackermann_update_fields s lk time period c o Ho)
      as (_ & Hcmd & _ & _ & Hsnd).
    assert (Hlim : Ackermann.limited_command time period c =
                   {| Ackermann.lin := l; Ackermann.ang := a;
                      Ackermann.stamp := Ackermann.stamp cmd |}).
    { unfold Ackermann.limited_command. fold cmd. rewrite Hb. reflexivity. }
    assert (Hf : filter is_SetCommand (snd u) =
                 flat_map (fun i =>
                     [ SetCommand (nth i (Ackermann.left_wheel_joints_ c) null_handle)
                                  ((l - a * ws / 2) / wr);
                       SetCommand (nth i (Ackermann.right_wheel_joints_ c) null_handle)
                                  ((l + a * ws / 2) / wr) ])
                  (seq 0 (Ackermann.wheel_joints_size_ c))).
    { subst u. rewrite Hsnd, Hlim.
      rewrite filter_app_nil by apply ackermann_publish_no_command.
      rewrite ackermann_wheels_all_commands. reflexivity. }
    split; [subst u; rewrite Hcmd; exact Hlim | ].
    split; [exact Hf | ].
    intros Zl Za Fws Nwr Zwr h v Hin.
    assert (Hin' : In (SetCommand h v) (filter is_SetCommand (snd u))).
    { apply filter_In. split; [exact Hin | reflexivity]. }
    rewrite Hf in Hin'. apply in_flat_map in Hin'. destruct Hin' as (i & _ & Hcase).
    destruct (zero_wheel_velocity l a ws wr Zl Za Fws Nwr Zwr) as [Zleft Zright].
    destruct Hcase as [H | [H | [] ] ]; injection H as _ <-; assumption.
  - intros c s lk time period cmd Hstale.
    assert (Hb : FourWheelSteering.brake_if_timeout time
                   (FourWheelSteering.cmd_vel_timeout_ c) cmd =
                 {| FourWheelSteering.lin := 0; FourWheelSteering.ang := 0;
                    FourWheelSteering.front_steering := 0;
                    FourWheelSteering.rear_steering := 0;
                    FourWheelSteering.stamp := FourWheelSteering.stamp cmd |}).
    { unfold FourWheelSteering.brake_if_timeout. cbv zeta. rewrite Hstale. reflexivity. }
    split; [exact Hb | ].
    intros o Ho u l a w ws wr wb steered steering.
    destruct (four_wheel_steering_update_fields s lk time period c o Ho)
      as (_ & Hcmd & _ & _ & Hsnd).
    assert (Hlim : FourWheelSteering.limited_command time period c =
                   {| FourWheelSteering.lin := l; FourWheelSteering.ang := a;
                      FourWheelSteering.front_steering := 0;
                      FourWheelSteering.rear_steering := 0;
                      FourWheelSteering.stamp := FourWheelSteering.stamp cmd |}).
    { unfold FourWheelSteering.limited_command. fold cmd. rewrite Hb. reflexivity. }
    split; [subst u; rewrite Hcmd; exact Hlim | ].
    split.
    + intros H1 H2 H3 H4. subst u. rewrite Hsnd, Hlim.
      rewrite filter_app_nil by apply four_wheel_steering_publish_no_command.
      rewrite (four_wheel_steering_commands c _ _ _ _ _ _ H1 H2 H3 H4).
      unfold FourWheelSteering.steering_angles. subst steered steering.
      destruct (FourWheelSteering.enable_twist_cmd_ c); cbn [andb];
        [destruct (0.01 <? abs (getLinear o)) | ]; reflexivity.
    + intros Hmode Hl Hr. subst u. rewrite Hsnd, Hlim.
      unfold FourWheelSteering.set_steering_angles, FourWheelSteering.steering_angles.
      rewrite Hmode, Hl, Hr. cbn [Nat.eqb andb fst snd].
      eexists. rewrite app_assoc. reflexivity.
Qed.

(** The ackermann example holds a twist (1.0, 0.5) stamped 1.2 s and the
    direct-axle example a drive message (1.0, 0.3, -0.2) of the same stamp;
    both run a cycle at 2 s, past the timeout of 0.5 s, with limiters that
    limit nothing.  The ackermann wheels are written zero.  The direct-axle
    steering joints are written zero and the wheels what the estimated
    angular speed, 0.04, gives. *)
Lemma stale_command_is_zeroed_witness :
  (let c := Examples.ackermann_commanded 1.0 0.5 in
   let u := Ackermann.update (Examples.steady 0.2) Examples.locks_free
              2000000000%Z 10000000%Z c in
   Ackermann.last0_cmd_ (fst u) =
     {| Ackermann.lin := 0; Ackermann.ang := 0; Ackermann.stamp := 1200000000%Z |} /\
   filter is_SetCommand (snd u) =
     [ SetCommand {| iface := VelocityJointInterface; joint_name := "rl_wheel" |} 0;
       SetCommand {| iface := VelocityJointInterface; joint_name := "rr_wheel" |} 0 ] /\
   forall h v, In (SetCommand h v) (snd u) -> is_zero v = true) /\
  (let c := Examples.direct_axle_commanded 1.0 0.3 (-0.2) in
   let u := FourWheelSteering.update (Examples.steady 0.2) Examples.locks_free
              2000000000%Z 10000000%Z c in
   FourWheelSteering.last0_cmd_ (fst u) =
     {| FourWheelSteering.lin := 0; FourWheelSteering.ang := 0;
        FourWheelSteering.front_steering := 0; FourWheelSteering.rear_steering := 0;
        FourWheelSteering.stamp := 1200000000%Z |} /\
   filter is_SetCommand (snd u) =
     [ SetCommand {| iface := VelocityJointInterface; joint_name := "fl_wheel" |}
                  0.41231056256176613;
       SetCommand {| iface := VelocityJointInterface; joint_name := "fr_wheel" |}
                  0.41231056256176613;
       SetCommand {| iface := VelocityJointInterface; joint_name := "rl_wheel" |}
                  (-0.10000000000000002);
       SetCommand {| iface := VelocityJointInterface; joint_name := "rr_wheel" |}
                  0.10000000000000002;
       SetCommand {| iface := PositionJointInterface; joint_name := "fl_steer" |} 0;
       SetCommand {| iface := PositionJointInterface; joint_name := "fr_steer" |} 0;
       SetCommand {| iface := PositionJointInterface; joint_name := "rl_steer" |} 0;
       SetCommand {| iface := PositionJointInterface; joint_name := "rr_steer" |} 0 ] /\
   exists before,
     snd u = before ++
       [ SetCommand {| iface := PositionJointInterface; joint_name := "fl_steer" |} 0;
         SetCommand {| iface := PositionJointInterface; joint_name := "fr_steer" |} 0;
         SetCommand {| iface := PositionJointInterface; joint_name := "rl_steer" |} 0;
         SetCommand {| iface := PositionJointInterface; joint_name := "rr_steer" |} 0 ]).
Proof.
  destruct (@stale_command_is_zeroed _ Examples.estimator Examples.env) as [HA HF].
  split.
  - destruct (HA (Examples.ackermann_commanded 1.0 0.5) (Examples.steady 0.2)
                 Examples.locks_free 2000000000%Z 10000000%Z eq_refl) as [_ H].
    edestruct H as (Hc & Hw & Hz); [reflexivity | ].
    split; [exact Hc | split; [exact Hw | ] ].
    exact (Hz eq_refl eq_refl eq_refl eq_refl eq_refl).
  - destruct (HF (Examples.direct_axle_commanded 1.0 0.3 (-0.2)) (Examples.steady 0.2)
                 Examples.locks_free 2000000000%Z 10000000%Z eq_refl) as [_ H].
    edestruct H as (Hc & Hw & Hs); [reflexivity | ].
    split; [exact Hc | split; [exact (Hw eq_refl eq_refl eq_refl eq_refl) | ] ].
    exact (Hs eq_refl eq_refl eq_refl).
Defined.

(** C1 as stated fails: a cycle whose command is stale need not write zero.
    The ackermann example with a limiter that bounds the change of [lin] to
    1 unit per second has ramped up to 0.02 when its command goes stale: the
    limiter turns the zero into 0.01 and the wheels are written 0.1.  The
    direct-axle example, whose limiters limit nothing, stores a zero command
    but writes its four wheels from the estimated angular speed, 0.04: 0.41
    on the front wheels, -0.1 and 0.1 on the rear ones. *)
Lemma stale_command_is_zeroed_counterexample :
  (let c0 := (Examples.ackermann_commanded 1.0 0.0)
               <| Ackermann.limiter_lin_ := Examples.ramp_limits |> in
   let c := fst (Ackermann.run [ Examples.cycle_at 1300000000%Z Examples.locks_free;
                                 Examples.cycle_at 1310000000%Z Examples.locks_free ] c0) in
   let u := Ackermann.update (Examples.steady 0.2) Examples.locks_free
              2000000000%Z 10000000%Z c in
   Ackermann.state_ c = RUNNING /\
   (Ackermann.cmd_vel_timeout_ c
      <? toSec (2000000000 - Ackermann.stamp (Ackermann.command_ c))%Z) = true /\
   Ackermann.compute_odometry (Examples.steady 0.2) 2000000000%Z c <> None /\
   Ackermann.lin (Ackermann.last0_cmd_ (fst u)) = 0.01 /\
   filter is_SetCommand (snd u) =
     [ SetCommand {| iface := VelocityJointInterface; joint_name := "rl_wheel" |}
                  0.099999999999999992;
       SetCommand {| iface := VelocityJointInterface; joint_name := "rr_wheel" |}
                  0.099999999999999992 ]) /\
  (let c := Examples.direct_axle_commanded 1.0 0.3 (-0.2) in
   let u := FourWheelSteering.update (Examples.steady 0.2) Examples.locks_free
              2000000000%Z 10000000%Z c in
   FourWheelSteering.state_ c = RUNNING /\
   (FourWheelSteering.cmd_vel_timeout_ c
      <? toSec (2000000000 - FourWheelSteering.stamp (FourWheelSteering.read_command c))%Z)
     = true /\
   FourWheelSteering.compute_odometry (Examples.steady 0.2) 2000000000%Z c <> None /\
   FourWheelSteering.lin (FourWheelSteering.last0_cmd_ (fst u)) = 0 /\
   FourWheelSteering.ang (FourWheelSteering.last0_cmd_ (fst u)) = 0 /\
   filter is_SetCommand (snd u) =
     [ SetCommand {| iface := VelocityJointInterface; joint_name := "fl_wheel" |}
                  0.41231056256176613;
       SetCommand {| iface := VelocityJointInterface; joint_name := "fr_wheel" |}
                  0.41231056256176613;
       SetCommand {| iface := VelocityJointInterface; joint_name := "rl_wheel" |}
                  (-0.10000000000000002);
       SetCommand {| iface := VelocityJointInterface; joint_name := "rr_wheel" |}
                  0.10000000000000002;
       SetCommand {| iface := PositionJointInterface; joint_name := "fl_steer" |} 0;
       SetCommand {| iface := PositionJointInterface; joint_name := "fr_steer" |} 0;
       SetCommand {| iface := PositionJointInterface; joint_name := "rl_steer" |} 0;
       SetCommand {| iface := PositionJointInterface; joint_name := "rr_steer" |} 0 ]).
Proof.
  split; cbv zeta.
  - split; [reflexivity | ].
    split; [reflexivity | ].
    split; [discriminate | ].
    split; vm_compute; reflexivity.
  - split; [reflexivity | ].
    split; [reflexivity | ].
    split; [discriminate | ].
    split; [reflexivity | ].
    split; vm_compute; reflexivity.
Qed.

(** A NaN position or velocity read on a wheel joint aborts the closed-loop
    cycle: the controller is returned as it was and nothing is written or
    published. *)
Lemma nan_wheel_reading_aborts {O : Type} {odometry : OdometryOps O} {env : Env} :
  (forall (c : Ackermann.AckermannController O) s lk time period i,
     Ackermann.open_loop_ c = false ->
     (i < Ackermann.wheel_joints_size_ c)%nat ->
     (is_nan (getPosition s (nth i (Ackermann.left_wheel_joints_ c) null_handle)) ||
      is_nan (getPosition s (nth i (Ackermann.right_wheel_joints_ c) null_handle)) ||
      is_nan (getVelocity s (nth i (Ackermann.left_wheel_joints_ c) null_handle)) ||
      is_nan (getVelocity s (nth i (Ackermann.right_wheel_joints_ c) null_handle)))%bool
       = true ->
     Ackermann.update s lk time period c = (c, [])) /\
  (forall (c : FourWheelSteering.FourWheelSteeringController O) s lk time period i,
     FourWheelSteering.open_loop_ c = false ->
     (i < FourWheelSteering.wheel_joints_size_ c)%nat ->
     (is_nan (getPosition s (nth i (FourWheelSteering.left_wheel_joints_ c) null_handle)) ||
      is_nan (getPosition s (nth i (FourWheelSteering.right_wheel_joints_ c) null_handle)) ||
      is_nan (getVelocity s (nth i (FourWheelSteering.left_wheel_joints_ c) null_handle)) ||
      is_nan (getVelocity s (nth i (FourWheelSteering.right_wheel_joints_ c) null_handle)))%bool
       = true ->
     FourWheelSteering.update s lk time period c = (c, [])).
Proof.
  split; intros c s lk time period i Hloop Hi Hnan.
  - apply ackermann_update_aborted.
    unfold Ackermann.compute_odometry. rewrite Hloop.
    rewrite (read_wheels_nan s _ _ _ zero_sums i); [reflexivity | | exact Hnan].
    apply in_seq. lia.
  - apply four_wheel_steering_update_aborted.
    unfold FourWheelSteering.compute_odometry. rewrite Hloop.
    rewrite (read_wheels_nan s _ _ _ zero_sums i); [reflexivity | | exact Hnan].
    apply in_seq. lia.
Qed.

(** C2, where the code departs from it.  The steering position is a sensor
    reading of the closed-loop cycle too, and it is not tested: when the wheel
    readings pass and the left steering joint reads NaN, the cycle is not
    aborted.  The estimator is updated with a NaN steering angle, the limiter
    history moves on and the wheels are written. *)
Theorem nan_steering_reading_is_not_detected
  {O : Type} {odometry : OdometryOps O} {env : Env} :
  (forall (c : Ackermann.AckermannController O) s lk time period sums l rest,
     Ackermann.open_loop_ c = false ->
     read_wheels s (Ackermann.left_wheel_joints_ c) (Ackermann.right_wheel_joints_ c)
                 (seq 0 (Ackermann.wheel_joints_size_ c)) zero_sums = Some sums ->
     Ackermann.left_steering_joints_ c = l :: rest ->
     is_nan (getPosition s l) = true ->
     let u := Ackermann.update s lk time period c in
     (exists linear_pos linear_vel,
        Ackermann.odometry_ (fst u) =
        odometry_update (Ackermann.odometry_ c) linear_pos linear_vel nan time) /\
     Ackermann.last1_cmd_ (fst u) = Ackermann.last0_cmd_ c /\
     Ackermann.last0_cmd_ (fst u) = Ackermann.limited_command time period c /\
     (forall i, (i < Ackermann.wheel_joints_size_ c)%nat ->
        exists v, In (SetCommand (nth i (Ackermann.left_wheel_joints_ c) null_handle) v)
                     (snd u))) /\
  (forall (c : FourWheelSteering.FourWheelSteeringController O) s lk time period
          sums l rest r rest',
     FourWheelSteering.open_loop_ c = false ->
     read_wheels s (FourWheelSteering.left_wheel_joints_ c)
                 (FourWheelSteering.right_wheel_joints_ c)
                 (seq 0 (FourWheelSteering.wheel_joints_size_ c)) zero_sums = Some sums ->
     FourWheelSteering.left_steering_joints_ c = l :: rest ->
     FourWheelSteering.right_steering_joints_ c = r :: rest' ->
     is_nan (getPosition s l) = true ->
     let u := FourWheelSteering.update s lk time period c in
     (exists wheel_angular_pos wheel_angular_vel,
        FourWheelSteering.odometry_ (fst u) =
        odometry_update (FourWheelSteering.odometry_ c)
                        wheel_angular_pos wheel_angular_vel nan time) /\
     FourWheelSteering.last1_cmd_ (fst u) = FourWheelSteering.last0_cmd_ c /\
     FourWheelSteering.last0_cmd_ (fst u) = FourWheelSteering.limited_command time period c /\
     (List.length (FourWheelSteering.left_wheel_joints_ c) = 2%nat ->
      List.length (FourWheelSteering.right_wheel_joints_ c) = 2%nat ->
      exists v, In (SetCommand (nth 0 (FourWheelSteering.left_wheel_joints_ c) null_handle) v)
                   (snd u))).
Proof.
  split.
  - intros c s lk time period sums l rest Hloop Hread Hsteer Hnan u.
    apply is_nan_inv in Hnan.
    assert (Ho : exists linear_pos linear_vel,
               Ackermann.compute_odometry s time c =
               Some (odometry_update (Ackermann.odometry_ c) linear_pos linear_vel nan time)).
    { unfold Ackermann.compute_odometry. rewrite Hloop, Hread, Hsteer, Hnan.
      cbv zeta. rewrite nan_add_l, nan_div_l. eauto. }
    destruct Ho as (linear_pos & linear_vel & Ho).
    subst u. rewrite (ackermann_update_completed _ lk _ period _ _ Ho). cbv zeta.
    destruct (ackermann_publish_frame lk time
                (c <| Ackermann.odometry_ :=
                        odometry_update (Ackermann.odometry_ c) linear_pos linear_vel nan time |>))
      as (Hodo & _).
    repeat split.
    + exists linear_pos, linear_vel. cbn [fst]. exact Hodo.
    + intros i Hi. eexists. cbn [snd]. apply in_or_app. right.
      unfold Ackermann.set_wheels_velocities. apply in_flat_map.
      exists i. split; [apply in_seq; lia | left; reflexivity].
  - intros c s lk time period sums l rest r rest' Hloop Hread Hl Hr Hnan u.
    apply is_nan_inv in Hnan.
    assert (Ho : exists pos vel,
               FourWheelSteering.compute_odometry s time c =
               Some (odometry_update (FourWheelSteering.odometry_ c) pos vel nan time)).
    { unfold FourWheelSteering.compute_odometry. rewrite Hloop, Hread, Hl, Hr, Hnan.
      cbv zeta beta iota. rewrite nan_add_l, nan_div_l. eauto. }
    destruct Ho as (pos & vel & Ho).
    subst u. rewrite (four_wheel_steering_update_completed _ lk _ period _ _ Ho). cbv zeta.
    destruct (four_wheel_steering_publish_frame lk time
                (c <| FourWheelSteering.odometry_ :=
                        odometry_update (FourWheelSteering.odometry_ c) pos vel nan time |>))
      as (Hodo & _).
    repeat split.
    + exists pos, vel. cbn [fst]. exact Hodo.
    + intros H1 H2. eexists. cbn [snd]. apply in_or_app. right. apply in_or_app. left.
      unfold FourWheelSteering.set_wheels_velocities. rewrite H1, H2.
      left. reflexivity.
Qed.

(** The failing input: the ackermann example, closed loop, holds the twist
    (0.0, 2.0) stamped 1.2 s; at 1.3 s every wheel joint reads 0.2 and the
    position of the steering joint [fl_steer] reads NaN.  The wheels are
    written -5 and 5 and the estimator has taken the NaN in.  The same on the
    direct-axle example. *)
Lemma nan_steering_reading_is_not_detected_witness :
  (let c := Examples.ackermann_commanded 0.0 2.0 in
   let s := Examples.nan_position_at "fl_steer" 0.2 in
   let u := Ackermann.update s Examples.locks_free 1300000000%Z 10000000%Z c in
   is_nan (position s "fl_steer") = true /\
   (exists v,
      In (SetCommand {| iface := VelocityJointInterface; joint_name := "rl_wheel" |} v)
         (snd u)) /\
   filter is_SetCommand (snd u) =
     [ SetCommand {| iface := VelocityJointInterface; joint_name := "rl_wheel" |} (-5);
       SetCommand {| iface := VelocityJointInterface; joint_name := "rr_wheel" |} 5 ] /\
   is_nan (getAngular (Ackermann.odometry_ (fst u))) = true) /\
  (let c := Examples.direct_axle_commanded 1.0 0.3 (-0.2) in
   let s := Examples.nan_position_at "fl_steer" 0.2 in
   let u := FourWheelSteering.update s Examples.locks_free 1300000000%Z 10000000%Z c in
   is_nan (position s "fl_steer") = true /\
   (exists v,
      In (SetCommand {| iface := VelocityJointInterface; joint_name := "fl_wheel" |} v)
         (snd u)) /\
   is_nan (getAngular (FourWheelSteering.odometry_ (fst u))) = true).
Proof.
  destruct (@nan_steering_reading_is_not_detected _ Examples.estimator Examples.env)
    as [HA HF].
  split.
  - cbv zeta. split; [reflexivity | ].
    split; [ | split; reflexivity].
    edestruct (HA (Examples.ackermann_commanded 0.0 2.0)
                  (Examples.nan_position_at "fl_steer" 0.2)
                  Examples.locks_free 1300000000%Z 10000000%Z)
      as (_ & _ & _ & H); [reflexivity | reflexivity | reflexivity | reflexivity | ].
    apply (H 0%nat). cbn. lia.
  - cbv zeta. split; [reflexivity | ].
    split; [ | reflexivity].
    edestruct (HF (Examples.direct_axle_commanded 1.0 0.3 (-0.2))
                  (Examples.nan_position_at "fl_steer" 0.2)
                  Examples.locks_free 1300000000%Z 10000000%Z)
      as (_ & _ & _ & H);
      [reflexivity | reflexivity | reflexivity | reflexivity | reflexivity | ].
    apply H; reflexivity.
Defined.

(** C3. Ackermann inverse kinematics.  In a cycle that gets past the sensors,
    with [(linear, angular)] the command as the limiters leave it (what the
    cycle stores in [last0_cmd_]), [ws] the separation times its multiplier
    and [wr] the radius times its multiplier, the commands written are, for
    every wheel pair in turn, [(linear - angular*ws/2)/wr] on the left handle
    and [(linear + angular*ws/2)/wr] on the right one.  With multipliers 1,
    separation 0.5 and radius 0.1, the command (1.0, 0.0) gives 10.0 on both
    sides and (0.0, 2.0) gives -5.0 and 5.0. *)
Theorem ackermann_wheel_velocities {O : Type} {odometry : OdometryOps O} {env : Env}
  (c : Ackermann.AckermannController O) (s : Sensors) (lk : Locks)
  (time : Time) (period : Duration) (o : O) :
  Ackermann.compute_odometry s time c = Some o ->
  let u := Ackermann.update s lk time period c in
  let linear := Ackermann.lin (Ackermann.last0_cmd_ (fst u)) in
  let angular := Ackermann.ang (Ackermann.last0_cmd_ (fst u)) in
  let ws := Ackermann.wheel_separation_multiplier_ c * Ackermann.wheel_separation_ c in
  let wr := Ackermann.wheel_radius_multiplier_ c * Ackermann.wheel_radius_ c in
  let vel_left := (linear - angular * ws / 2) / wr in
  let vel_right := (linear + angular * ws / 2) / wr in
  filter is_SetCommand (snd u) =
    flat_map (fun i =>
                [ SetCommand (nth i (Ackermann.left_wheel_joints_ c) null_handle) vel_left;
                  SetCommand (nth i (Ackermann.right_wheel_joints_ c) null_handle) vel_right ])
             (seq 0 (Ackermann.wheel_joints_size_ c)) /\
  (Ackermann.wheel_separation_multiplier_ c = 1 ->
   Ackermann.wheel_radius_multiplier_ c = 1 ->
   Ackermann.wheel_separation_ c = 0.5 ->
   Ackermann.wheel_radius_ c = 0.1 ->
   (linear = 1.0 -> angular = 0.0 -> vel_left = 10.0 /\ vel_right = 10.0) /\
   (linear = 0.0 -> angular = 2.0 -> vel_left = -5.0 /\ vel_right = 5.0)).
Proof.
  intros Ho u linear angular ws wr vel_left vel_right.
  subst vel_left vel_right ws wr linear angular u.
  rewrite (ackermann_update_completed s lk time period c o Ho). cbv zeta.
  cbn [fst snd].
  split.
  - rewrite filter_app_nil by apply ackermann_publish_no_command.
    rewrite ackermann_wheels_all_commands.
    reflexivity.
  - intros Hms Hmr Hs Hr.
    change (Ackermann.last0_cmd_
              (_ <| Ackermann.last0_cmd_ := Ackermann.limited_command time period c |>))
      with (Ackermann.limited_command time period c).
    rewrite Hms, Hmr, Hs, Hr.
    split; intros Hl Ha; rewrite Hl, Ha; split; reflexivity.
Qed.

(** The ackermann example (multipliers 1, separation 0.5, radius 0.1, no
    limits) with the fresh twist (1.0, 0.0) writes 10.0 to both wheels. *)
Lemma ackermann_wheel_velocities_witness :
  let c := Examples.ackermann_commanded 1.0 0.0 in
  let u := Ackermann.update (Examples.steady 0.2) Examples.locks_free
             1300000000%Z 10000000%Z c in
  filter is_SetCommand (snd u) =
    [ SetCommand {| iface := VelocityJointInterface; joint_name := "rl_wheel" |} 10.0;
      SetCommand {| iface := VelocityJointInterface; joint_name := "rr_wheel" |} 10.0 ].
Proof.
  refine (proj1 (@ackermann_wheel_velocities _ Examples.estimator Examples.env
                   (Examples.ackermann_commanded 1.0 0.0) (Examples.steady 0.2)
                   Examples.locks_free 1300000000%Z 10000000%Z _ _)).
  reflexivity.
Defined.



(** C5, amended.  Twist mode.  With [enable_twist_cmd_] on, in a cycle that
    gets past the sensors, let [l] be the linear velocity estimate of the
    estimator as this cycle updated it.  When [|l|] is not greater than 0.01,
    that is, at most 0.01 or [l] is NaN, the four steering joints are written
    zero.  When [|l|] is greater than 0.01 they are written [steering/2]
    (front) and [-steering/2] (rear), where
    [steering = atan(angular * wheel_base_ / l)] and [angular] is the angular
    command as the limiter leaves it.  One of the cases always applies. *)
Theorem twist_mode_steering {O : Type} {odometry : OdometryOps O} {env : Env}
  (c : FourWheelSteering.FourWheelSteeringController O) (s : Sensors) (lk : Locks)
  (time : Time) (period : Duration) (o : O) :
  FourWheelSteering.enable_twist_cmd_ c = true ->
  FourWheelSteering.compute_odometry s time c = Some o ->
  List.length (FourWheelSteering.left_steering_joints_ c) = 2%nat ->
  List.length (FourWheelSteering.right_steering_joints_ c) = 2%nat ->
  let u := FourWheelSteering.update s lk time period c in
  let l := getLinear (FourWheelSteering.odometry_ (fst u)) in
  let angular := FourWheelSteering.ang (FourWheelSteering.last0_cmd_ (fst u)) in
  let steering := atan (angular * FourWheelSteering.wheel_base_ c / l) in
  let steering_commands front rear :=
    [ SetCommand (nth 0 (FourWheelSteering.left_steering_joints_ c) null_handle) front;
      SetCommand (nth 0 (FourWheelSteering.right_steering_joints_ c) null_handle) front;
      SetCommand (nth 1 (FourWheelSteering.left_steering_joints_ c) null_handle) rear;
      SetCommand (nth 1 (FourWheelSteering.right_steering_joints_ c) null_handle) rear ] in
  ((abs l <=? 0.01) = true \/ is_nan l = true ->
   exists before, snd u = before ++ steering_commands 0 0) /\
  ((0.01 <? abs l) = true ->
   exists before, snd u = before ++ steering_commands (steering / 2) ((- steering) / 2)) /\
  ((abs l <=? 0.01) = true \/ is_nan l = true \/ (0.01 <? abs l) = true).
Proof.
  intros Hmode Ho Hl Hr u l angular steering steering_commands.
  assert (Hu : u = FourWheelSteering.update s lk time period c) by reflexivity.
  rewrite (four_wheel_steering_update_completed s lk time period c o Ho) in Hu.
  cbv zeta in Hu.
  assert (Hodo : FourWheelSteering.odometry_ (fst u) = o).
  { rewrite Hu. cbn [fst].
    exact (proj1 (four_wheel_steering_publish_frame lk time
                    (c <| FourWheelSteering.odometry_ := o |>))). }
  assert (Hang : angular =
                 FourWheelSteering.ang (FourWheelSteering.limited_command time period c)).
  { subst angular. rewrite Hu. reflexivity. }
  assert (Hsnd : exists before,
             snd u = before ++
               FourWheelSteering.set_steering_angles c
                 (fst (FourWheelSteering.steering_angles true l
                         (FourWheelSteering.wheel_base_ c)
                         (FourWheelSteering.limited_command time period c)))
                 (snd (FourWheelSteering.steering_angles true l
                         (FourWheelSteering.wheel_base_ c)
                         (FourWheelSteering.limited_command time period c)))).
  { subst l. rewrite Hodo. rewrite Hu. cbn [snd]. rewrite Hmode.
    eexists. rewrite app_assoc. reflexivity. }
  destruct Hsnd as [before Hsnd].
  unfold FourWheelSteering.set_steering_angles in Hsnd.
  rewrite Hl, Hr in Hsnd. cbn [Nat.eqb andb] in Hsnd.
  unfold FourWheelSteering.steering_angles in Hsnd.
  repeat split.
  - intros Hsmall.
    assert (Htest : (0.01 <? abs l) = false).
    { destruct Hsmall as [Hle | Hnan].
      - apply leb_not_ltb. exact Hle.
      - apply is_nan_inv in Hnan. rewrite Hnan. reflexivity. }
    rewrite Htest in Hsnd. exists before. exact Hsnd.
  - intros Htest. rewrite Htest in Hsnd. cbn [fst snd] in Hsnd.
    exists before. subst steering. rewrite Hang. exact Hsnd.
  - destruct (0.01 <? abs l) eqn:Htest; [auto | ].
    destruct (not_ltb_cases (abs l) 0.01 Htest) as [Hle | [Hnan | Hnan] ].
    + auto.
    + right. left. apply abs_nan_inv. exact Hnan.
    + discriminate Hnan.
Qed.

(** The twist-mode example with the fresh twist (1.0, 0.5): the wheels turn at
    0.2, the estimate is above the threshold and the joints are steered. *)
Lemma twist_mode_steering_witness :
  let c := Examples.twist_commanded Examples.twist_mode 1.0 0.5 in
  let u := FourWheelSteering.update (Examples.steady 0.2) Examples.locks_free
             1300000000%Z 10000000%Z c in
  let steering := Examples.atan_example (0.5 * 1.0 / 0.2) in
  exists before,
    snd u =
    before ++
    [ SetCommand {| iface := PositionJointInterface; joint_name := "fl_steer" |}
                 (steering / 2);
      SetCommand {| iface := PositionJointInterface; joint_name := "fr_steer" |}
                 (steering / 2);
      SetCommand {| iface := PositionJointInterface; joint_name := "rl_steer" |}
                 ((- steering) / 2);
      SetCommand {| iface := PositionJointInterface; joint_name := "rr_steer" |}
                 ((- steering) / 2) ].
Proof.
  edestruct (@twist_mode_steering _ Examples.estimator Examples.env
               (Examples.twist_commanded Examples.twist_mode 1.0 0.5)
               (Examples.steady 0.2) Examples.locks_free 1300000000%Z 10000000%Z)
    as (_ & H & _); [reflexivity | reflexivity | reflexivity | reflexivity | ].
  exact (H eq_refl).
Defined.

(** C5 as stated fails when the estimate is NaN.  The open-loop twist-mode
    example receives a twist whose [linear.x] is NaN; its first cycle stores
    the NaN in [last0_cmd_] and the second feeds it to the estimator.  In that
    second cycle the estimate is not at most 0.01 in magnitude, yet the
    steering joints are written zero, where the formula of the other case
    gives NaN for every [atan] that maps NaN to NaN. *)
Lemma twist_mode_steering_counterexample :
  let c0 := Examples.twist_commanded Examples.twist_mode_open_loop nan 0.5 in
  let c := fst (FourWheelSteering.update (Examples.steady 0.2) Examples.locks_free
                  1300000000%Z 10000000%Z c0) in
  let u := FourWheelSteering.update (Examples.steady 0.2) Examples.locks_free
             1310000000%Z 10000000%Z c in
  let l := getLinear (FourWheelSteering.odometry_ (fst u)) in
  let angular := FourWheelSteering.ang (FourWheelSteering.last0_cmd_ (fst u)) in
  FourWheelSteering.enable_twist_cmd_ c = true /\
  FourWheelSteering.compute_odometry (Examples.steady 0.2) 1310000000%Z c <> None /\
  (abs l <=? 0.01) = false /\
  (exists before,
     snd u =
     before ++
     [ SetCommand {| iface := PositionJointInterface; joint_name := "fl_steer" |} 0;
       SetCommand {| iface := PositionJointInterface; joint_name := "fr_steer" |} 0;
       SetCommand {| iface := PositionJointInterface; joint_name := "rl_steer" |} 0;
       SetCommand {| iface := PositionJointInterface; joint_name := "rr_steer" |} 0 ]) /\
  (forall e : Env,
     is_nan (@atan e nan) = true ->
     is_nan (@atan e (angular * FourWheelSteering.wheel_base_ c / l) / 2) = true).
Proof.
  cbv zeta.
  split; [reflexivity | ].
  split; [discriminate | ].
  split; [reflexivity | ].
  split.
  - match goal with |- exists before, ?effects = _ => exists (firstn 6 effects) end.
    vm_compute. reflexivity.
  - intros e He. apply is_nan_inv in He.
    change (is_nan (@atan e nan / 2) = true).
    rewrite He. reflexivity.
Qed.

(** C6, amended.  What a cycle that gets past the sensors writes.  The
    four-wheel-steering controller, with two handles a side as [init] leaves
    them, writes the four wheel velocities of its kinematic model and then the
    four steering angles.  The ackermann controller writes the two wheel
    velocities of every wheel pair and nothing else: every handle it writes
    is a wheel handle, so a steering joint keeps the command it had. *)
Theorem cycle_writes {O : Type} {odometry : OdometryOps O} {env : Env} :
  (forall (c : FourWheelSteering.FourWheelSteeringController O) s lk time period o,
     FourWheelSteering.compute_odometry s time c = Some o ->
     List.length (FourWheelSteering.left_wheel_joints_ c) = 2%nat ->
     List.length (FourWheelSteering.right_wheel_joints_ c) = 2%nat ->
     List.length (FourWheelSteering.left_steering_joints_ c) = 2%nat ->
     List.length (FourWheelSteering.right_steering_joints_ c) = 2%nat ->
     let u := FourWheelSteering.update s lk time period c in
     let cmd := FourWheelSteering.last0_cmd_ (fst u) in
     let o' := FourWheelSteering.odometry_ (fst u) in
     let ws := FourWheelSteering.wheel_separation_ c in
     let wr := FourWheelSteering.wheel_radius_ c in
     let wb := FourWheelSteering.wheel_base_ c in
     let steering :=
       FourWheelSteering.steering_angles (FourWheelSteering.enable_twist_cmd_ c)
                                         (getLinear o') wb cmd in
     filter is_SetCommand (snd u) =
     [ SetCommand (nth 0 (FourWheelSteering.left_wheel_joints_ c) null_handle)
                  (FourWheelSteering.vel_left_front ws wr wb (getAngular o') cmd);
       SetCommand (nth 0 (FourWheelSteering.right_wheel_joints_ c) null_handle)
                  (FourWheelSteering.vel_right_front ws wr wb (getAngular o') cmd);
       SetCommand (nth 1 (FourWheelSteering.left_wheel_joints_ c) null_handle)
                  (FourWheelSteering.vel_left_rear ws wr (getAngular o') cmd);
       SetCommand (nth 1 (FourWheelSteering.right_wheel_joints_ c) null_handle)
                  (FourWheelSteering.vel_right_rear ws wr (getAngular o') cmd);
       SetCommand (nth 0 (FourWheelSteering.left_steering_joints_ c) null_handle)
                  (fst steering);
       SetCommand (nth 0 (FourWheelSteering.right_steering_joints_ c) null_handle)
                  (fst steering);
       SetCommand (nth 1 (FourWheelSteering.left_steering_joints_ c) null_handle)
                  (snd steering);
       SetCommand (nth 1 (FourWheelSteering.right_steering_joints_ c) null_handle)
                  (snd steering) ]) /\
  (forall (c : Ackermann.AckermannController O) s lk time period o,
     Ackermann.compute_odometry s time c = Some o ->
     let u := Ackermann.update s lk time period c in
     let cmd := Ackermann.last0_cmd_ (fst u) in
     let ws := Ackermann.wheel_separation_multiplier_ c * Ackermann.wheel_separation_ c in
     let wr := Ackermann.wheel_radius_multiplier_ c * Ackermann.wheel_radius_ c in
     filter is_SetCommand (snd u) =
       flat_map (fun i =>
                   [ SetCommand (nth i (Ackermann.left_wheel_joints_ c) null_handle)
                                (Ackermann.vel_left ws wr cmd);
                     SetCommand (nth i (Ackermann.right_wheel_joints_ c) null_handle)
                                (Ackermann.vel_right ws wr cmd) ])
                (seq 0 (Ackermann.wheel_joints_size_ c)) /\
     forall h v, In (SetCommand h v) (snd u) ->
       exists i, (i < Ackermann.wheel_joints_size_ c)%nat /\
                 (h = nth i (Ackermann.left_wheel_joints_ c) null_handle \/
                  h = nth i (Ackermann.right_wheel_joints_ c) null_handle)).
Proof.
  split.
  - intros c s lk time period o Ho H1 H2 H3 H4 u cmd o' ws wr wb steering.
    destruct (four_wheel_steering_update_fields s lk time period c o Ho)
      as (Hodo & Hcmd & _ & _ & Hsnd).
    subst steering wb wr ws o' cmd u.
    rewrite Hodo, Hcmd, Hsnd.
    rewrite filter_app_nil by apply four_wheel_steering_publish_no_command.
    rewrite (four_wheel_steering_commands c _ _ _ _ _ _ H1 H2 H3 H4).
    reflexivity.
  - intros c s lk time period o Ho u cmd ws wr.
    destruct (ackermann_update_fields s lk time period c o Ho)
      as (_ & Hcmd & _ & _ & Hsnd).
    subst wr ws cmd u. rewrite Hcmd.
    assert (Hf : filter is_SetCommand (snd (Ackermann.update s lk time period c)) =
                 Ackermann.set_wheels_velocities c
                   (Ackermann.vel_left
                      (Ackermann.wheel_separation_multiplier_ c *
                       Ackermann.wheel_separation_ c)
                      (Ackermann.wheel_radius_multiplier_ c * Ackermann.wheel_radius_ c)
                      (Ackermann.limited_command time period c))
                   (Ackermann.vel_right
                      (Ackermann.wheel_separation_multiplier_ c *
                       Ackermann.wheel_separation_ c)
                      (Ackermann.wheel_radius_multiplier_ c * Ackermann.wheel_radius_ c)
                      (Ackermann.limited_command time period c))).
    { rewrite Hsnd.
      rewrite filter_app_nil by apply ackermann_publish_no_command.
      apply ackermann_wheels_all_commands. }
    split; [exact Hf | ].
    intros h v Hin.
    assert (Hin' : In (SetCommand h v)
                      (filter is_SetCommand (snd (Ackermann.update s lk time period c)))).
    { apply filter_In. split; [exact Hin | reflexivity]. }
    rewrite Hf in Hin'. unfold Ackermann.set_wheels_velocities in Hin'.
    apply in_flat_map in Hin'. destruct Hin' as (i & Hi & Hcase).
    apply in_seq in Hi. exists i. split; [lia | ].
    destruct Hcase as [H | [H | [] ] ]; injection H as <- _; auto.
Qed.

(** The direct-axle example writes its eight joints; the ackermann example
    writes its wheel pair. *)
Lemma cycle_writes_witness :
  (let c := Examples.direct_axle_commanded 1.0 0.3 (-0.2) in
   let u := FourWheelSteering.update (Examples.steady 0.2) Examples.locks_free
              1300000000%Z 10000000%Z c in
   map (fun e => match e with
                 | SetCommand h _ => joint_name h
                 | _ => EmptyString
                 end)
       (filter is_SetCommand (snd u)) =
   [ "fl_wheel"; "fr_wheel"; "rl_wheel"; "rr_wheel";
     "fl_steer"; "fr_steer"; "rl_steer"; "rr_steer" ]%string) /\
  (let c := Examples.ackermann_commanded 1.0 0.5 in
   let u := Ackermann.update (Examples.steady 0.2) Examples.locks_free
              1300000000%Z 10000000%Z c in
   filter is_SetCommand (snd u) =
   [ SetCommand {| iface := VelocityJointInterface; joint_name := "rl_wheel" |} 8.75;
     SetCommand {| iface := VelocityJointInterface; joint_name := "rr_wheel" |} 11.25 ]).
Proof.
  destruct (@cycle_writes _ Examples.estimator Examples.env) as [HF HA].
  split.
  - cbv zeta.
    rewrite (HF (Examples.direct_axle_commanded 1.0 0.3 (-0.2)) (Examples.steady 0.2)
                Examples.locks_free 1300000000%Z 10000000%Z _
                eq_refl eq_refl eq_refl eq_refl eq_refl).
    reflexivity.
  - edestruct (HA (Examples.ackermann_commanded 1.0 0.5) (Examples.steady 0.2)
                  Examples.locks_free 1300000000%Z 10000000%Z) as [H _]; [reflexivity | ].
    exact H.
Defined.

(** C6 as stated fails on the ackermann controller.  Its example, holding the
    fresh twist (1.0, 0.5), runs a cycle that gets past the sensors; the two
    steering joints [fl_steer] and [fr_steer] are among its handles and no
    command is written to either: the cycle writes the two wheels only. *)
Lemma cycle_writes_counterexample :
  let c := Examples.ackermann_commanded 1.0 0.5 in
  let u := Ackermann.update (Examples.steady 0.2) Examples.locks_free
             1300000000%Z 10000000%Z c in
  let fl_steer := {| iface := VelocityJointInterface; joint_name := "fl_steer" |} in
  let fr_steer := {| iface := VelocityJointInterface; joint_name := "fr_steer" |} in
  Ackermann.compute_odometry (Examples.steady 0.2) 1300000000%Z c <> None /\
  Ackermann.left_steering_joints_ c = [fl_steer] /\
  Ackermann.right_steering_joints_ c = [fr_steer] /\
  existsb (writes_to fl_steer) (snd u) = false /\
  existsb (writes_to fr_steer) (snd u) = false /\
  filter is_SetCommand (snd u) =
    [ SetCommand {| iface := VelocityJointInterface; joint_name := "rl_wheel" |} 8.75;
      SetCommand {| iface := VelocityJointInterface; joint_name := "rr_wheel" |} 11.25 ].
Proof.
  cbv zeta. split; [discriminate | ].
  repeat split; reflexivity.
Qed.

(** A cycle, aborted or not, leaves the limiters and the timeout as they
    were. *)
Lemma update_keeps_configuration {O : Type} {odometry : OdometryOps O} {env : Env} :
  (forall (c : Ackermann.AckermannController O) s lk time period,
     let c' := fst (Ackermann.update s lk time period c) in
     Ackermann.limiter_lin_ c' = Ackermann.limiter_lin_ c /\
     Ackermann.limiter_ang_ c' = Ackermann.limiter_ang_ c /\
     Ackermann.cmd_vel_timeout_ c' = Ackermann.cmd_vel_timeout_ c /\
     Ackermann.command_ c' = Ackermann.command_ c /\
     Ackermann.publish_period_ c' = Ackermann.publish_period_ c /\
     Ackermann.open_loop_ c' = Ackermann.open_loop_ c) /\
  (forall (c : FourWheelSteering.FourWheelSteeringController O) s lk time period,
     let c' := fst (FourWheelSteering.update s lk time period c) in
     FourWheelSteering.limiter_lin_ c' = FourWheelSteering.limiter_lin_ c /\
     FourWheelSteering.limiter_ang_ c' = FourWheelSteering.limiter_ang_ c /\
     FourWheelSteering.cmd_vel_timeout_ c' = FourWheelSteering.cmd_vel_timeout_ c /\
     FourWheelSteering.read_command c' = FourWheelSteering.read_command c /\
     FourWheelSteering.publish_period_ c' = FourWheelSteering.publish_period_ c /\
     FourWheelSteering.open_loop_ c' = FourWheelSteering.open_loop_ c).
Proof.
  split; intros c s lk time period.
  - destruct (Ackermann.compute_odometry s time c) as [o | ] eqn:Ho.
    + rewrite (ackermann_update_completed s lk time period c o Ho). cbv zeta.
      destruct (ackermann_publish_frame lk time (c <| Ackermann.odometry_ := o |>))
        as (_ & Hc & _ & _ & Hp & Hl & Hll & Hla & Ht).
      repeat split; assumption.
    + rewrite (ackermann_update_aborted s lk time period c Ho). repeat split.
  - destruct (FourWheelSteering.compute_odometry s time c) as [o | ] eqn:Ho.
    + rewrite (four_wheel_steering_update_completed s lk time period c o Ho). cbv zeta.
      destruct (four_wheel_steering_publish_frame lk time
                  (c <| FourWheelSteering.odometry_ := o |>))
        as (_ & _ & _ & _ & Hp & Hl & Hll & Hla & Ht & Hc).
      repeat split; assumption.
    + rewrite (four_wheel_steering_update_aborted s lk time period c Ho). repeat split.
Qed.

(** C7. Limiter history.  In a cycle that gets past the sensors each limiter
    is called on its field of the command of the cycle with [last0_cmd_] and
    [last1_cmd_] as the two previous values and the period in seconds as
    [dt]; what it returns replaces the field, and the command so rewritten
    is stored: afterwards [last1_cmd_] is the former [last0_cmd_] and
    [last0_cmd_] holds the limited [lin] and [ang].  Hence over two such
    cycles in a row the second calls the limiters with the limited values of
    the first cycle and of the one before it. *)
Theorem limiter_history {O : Type} {odometry : OdometryOps O} {env : Env} :
  (forall (c : Ackermann.AckermannController O) s lk time period o,
     Ackermann.compute_odometry s time c = Some o ->
     let cmd := Ackermann.brake_if_timeout time (Ackermann.cmd_vel_timeout_ c)
                                           (Ackermann.command_ c) in
     let c' := fst (Ackermann.update s lk time period c) in
     Ackermann.last1_cmd_ c' = Ackermann.last0_cmd_ c /\
     Ackermann.last0_cmd_ c' =
       {| Ackermann.lin :=
            limit (Ackermann.limiter_lin_ c) (Ackermann.lin cmd)
                  (Ackermann.lin (Ackermann.last0_cmd_ c))
                  (Ackermann.lin (Ackermann.last1_cmd_ c)) (toSec period);
          Ackermann.ang :=
            limit (Ackermann.limiter_ang_ c) (Ackermann.ang cmd)
                  (Ackermann.ang (Ackermann.last0_cmd_ c))
                  (Ackermann.ang (Ackermann.last1_cmd_ c)) (toSec period);
          Ackermann.stamp := Ackermann.stamp cmd |} /\
     forall s2 lk2 time2 period2 o2,
       Ackermann.compute_odometry s2 time2 c' = Some o2 ->
       let cmd2 := Ackermann.brake_if_timeout time2 (Ackermann.cmd_vel_timeout_ c)
                                              (Ackermann.command_ c) in
       let c'' := fst (Ackermann.update s2 lk2 time2 period2 c') in
       Ackermann.lin (Ackermann.last0_cmd_ c'') =
         limit (Ackermann.limiter_lin_ c) (Ackermann.lin cmd2)
               (Ackermann.lin (Ackermann.last0_cmd_ c'))
               (Ackermann.lin (Ackermann.last0_cmd_ c)) (toSec period2) /\
       Ackermann.ang (Ackermann.last0_cmd_ c'') =
         limit (Ackermann.limiter_ang_ c) (Ackermann.ang cmd2)
               (Ackermann.ang (Ackermann.last0_cmd_ c'))
               (Ackermann.ang (Ackermann.last0_cmd_ c)) (toSec period2)) /\
  (forall (c : FourWheelSteering.FourWheelSteeringController O) s lk time period o,
     FourWheelSteering.compute_odometry s time c = Some o ->
     let cmd := FourWheelSteering.brake_if_timeout time
                  (FourWheelSteering.cmd_vel_timeout_ c)
                  (FourWheelSteering.read_command c) in
     let c' := fst (FourWheelSteering.update s lk time period c) in
     FourWheelSteering.last1_cmd_ c' = FourWheelSteering.last0_cmd_ c /\
     FourWheelSteering.last0_cmd_ c' =
       {| FourWheelSteering.lin :=
            limit (FourWheelSteering.limiter_lin_ c) (FourWheelSteering.lin cmd)
                  (FourWheelSteering.lin (FourWheelSteering.last0_cmd_ c))
                  (FourWheelSteering.lin (FourWheelSteering.last1_cmd_ c)) (toSec period);
          FourWheelSteering.ang :=
            limit (FourWheelSteering.limiter_ang_ c) (FourWheelSteering.ang cmd)
                  (FourWheelSteering.ang (FourWheelSteering.last0_cmd_ c))
                  (FourWheelSteering.ang (FourWheelSteering.last1_cmd_ c)) (toSec period);
          FourWheelSteering.front_steering := FourWheelSteering.front_steering cmd;
          FourWheelSteering.rear_steering := FourWheelSteering.rear_steering cmd;
          FourWheelSteering.stamp := FourWheelSteering.stamp cmd |} /\
     forall s2 lk2 time2 period2 o2,
       FourWheelSteering.compute_odometry s2 time2 c' = Some o2 ->
       let cmd2 := FourWheelSteering.brake_if_timeout time2
                     (FourWheelSteering.cmd_vel_timeout_ c)
                     (FourWheelSteering.read_command c) in
       let c'' := fst (FourWheelSteering.update s2 lk2 time2 period2 c') in
       FourWheelSteering.lin (FourWheelSteering.last0_cmd_ c'') =
         limit (FourWheelSteering.limiter_lin_ c) (FourWheelSteering.lin cmd2)
               (FourWheelSteering.lin (FourWheelSteering.last0_cmd_ c'))
               (FourWheelSteering.lin (FourWheelSteering.last0_cmd_ c)) (toSec period2) /\
       FourWheelSteering.ang (FourWheelSteering.last0_cmd_ c'') =
         limit (FourWheelSteering.limiter_ang_ c) (FourWheelSteering.ang cmd2)
               (FourWheelSteering.ang (FourWheelSteering.last0_cmd_ c'))
               (FourWheelSteering.ang (FourWheelSteering.last0_cmd_ c)) (toSec period2)).
Proof.
  split.
  - intros c s lk time period o Ho cmd c'.
    destruct (ackermann_update_fields s lk time period c o Ho)
      as (_ & Hlast0 & Hlast1 & _).
    fold c' in Hlast0, Hlast1.
    split; [exact Hlast1 | ].
    split; [rewrite Hlast0; reflexivity | ].
    intros s2 lk2 time2 period2 o2 Ho2 cmd2 c''.
    destruct (ackermann_update_fields s2 lk2 time2 period2 c' o2 Ho2)
      as (_ & Hlast0' & _).
    fold c'' in Hlast0'. rewrite Hlast0'.
    destruct (proj1 update_keeps_configuration c s lk time period)
      as (Hll & Hla & Ht & Hc & _).
    fold c' in Hll, Hla, Ht, Hc.
    unfold Ackermann.limited_command, Ackermann.limit_command.
    rewrite Hll, Hla, Ht, Hc, Hlast1. split; reflexivity.
  - intros c s lk time period o Ho cmd c'.
    destruct (four_wheel_steering_update_fields s lk time period c o Ho)
      as (_ & Hlast0 & Hlast1 & _).
    fold c' in Hlast0, Hlast1.
    split; [exact Hlast1 | ].
    split; [rewrite Hlast0; reflexivity | ].
    intros s2 lk2 time2 period2 o2 Ho2 cmd2 c''.
    destruct (four_wheel_steering_update_fields s2 lk2 time2 period2 c' o2 Ho2)
      as (_ & Hlast0' & _).
    fold c'' in Hlast0'. rewrite Hlast0'.
    destruct (proj2 update_keeps_configuration c s lk time period)
      as (Hll & Hla & Ht & Hc & _).
    fold c' in Hll, Hla, Ht, Hc.
    unfold FourWheelSteering.limited_command, FourWheelSteering.limit_command.
    rewrite Hll, Hla, Ht, Hc, Hlast1. split; reflexivity.
Qed.

(** Both examples with a limiter that lets the linear speed change by 1 unit
    per second, a fresh command of linear speed 1.0 and cycles of 10 ms: the
    first stores 0.01, the second 0.02 and moves 0.01 to [last1_cmd_]. *)
Lemma limiter_history_witness :
  (let c := (Examples.ackermann_commanded 1.0 0.0)
              <| Ackermann.limiter_lin_ := Examples.ramp_limits |> in
   let c' := fst (Ackermann.update (Examples.steady 0.2) Examples.locks_free
                    1300000000%Z 10000000%Z c) in
   let c'' := fst (Ackermann.update (Examples.steady 0.2) Examples.locks_free
                     1310000000%Z 10000000%Z c') in
   Ackermann.last1_cmd_ c' = Ackermann.last0_cmd_ c /\
   Ackermann.lin (Ackermann.last0_cmd_ c') = 0.01 /\
   Ackermann.lin (Ackermann.last0_cmd_ c'') = 0.02) /\
  (let c := (Examples.direct_axle_commanded 1.0 0.3 (-0.2))
              <| FourWheelSteering.limiter_lin_ := Examples.ramp_limits |> in
   let c' := fst (FourWheelSteering.update (Examples.steady 0.2) Examples.locks_free
                    1300000000%Z 10000000%Z c) in
   let c'' := fst (FourWheelSteering.update (Examples.steady 0.2) Examples.locks_free
                     1310000000%Z 10000000%Z c') in
   FourWheelSteering.last1_cmd_ c' = FourWheelSteering.last0_cmd_ c /\
   FourWheelSteering.lin (FourWheelSteering.last0_cmd_ c') = 0.01 /\
   FourWheelSteering.lin (FourWheelSteering.last0_cmd_ c'') = 0.02).
Proof.
  destruct (@limiter_history _ Examples.estimator Examples.env) as [HA HF].
  split.
  - edestruct (HA ((Examples.ackermann_commanded 1.0 0.0)
                     <| Ackermann.limiter_lin_ := Examples.ramp_limits |>)
                  (Examples.steady 0.2) Examples.locks_free 1300000000%Z 10000000%Z)
      as (H1 & H0 & H2); [reflexivity | ].
    cbv zeta. split; [exact H1 | ].
    split; [rewrite H0; reflexivity | ].
    edestruct (H2 (Examples.steady 0.2) Examples.locks_free 1310000000%Z 10000000%Z)
      as (Hl & _); [reflexivity | ].
    rewrite Hl. reflexivity.
  - edestruct (HF ((Examples.direct_axle_commanded 1.0 0.3 (-0.2))
                     <| FourWheelSteering.limiter_lin_ := Examples.ramp_limits |>)
                  (Examples.steady 0.2) Examples.locks_free 1300000000%Z 10000000%Z)
      as (H1 & H0 & H2); [reflexivity | ].
    cbv zeta. split; [exact H1 | ].
    split; [rewrite H0; reflexivity | ].
    edestruct (H2 (Examples.steady 0.2) Examples.locks_free 1310000000%Z 10000000%Z)
      as (Hl & _); [reflexivity | ].
    rewrite Hl. reflexivity.
Defined.

(** The name blocks of [init] succeed only on two lists of the same length
    (of length 2, four-wheel steering). *)
Lemma ackermann_names_read {O : Type} (nh : NodeHandle)
  (c c' : Ackermann.AckermannController O) (l r : list string) :
  (Ackermann.init_wheel_names nh c = Some (c', l, r) ->
   getWheelNames nh "left_wheel" = Some l /\
   getWheelNames nh "right_wheel" = Some r /\
   List.length l = List.length r) /\
  (Ackermann.init_steering_names nh c = Some (c', l, r) ->
   getWheelNames nh "left_steering" = Some l /\
   getWheelNames nh "right_steering" = Some r /\
   List.length l = List.length r).
Proof.
  split.
  - unfold Ackermann.init_wheel_names.
    destruct (getWheelNames nh "left_wheel") as [lw | ]; [ | discriminate].
    destruct (getWheelNames nh "right_wheel") as [rw | ]; [ | discriminate].
    destruct (Nat.eqb (List.length lw) (List.length rw)) eqn:E; [ | discriminate].
    cbn [negb]. intros [= _ <- <-]. apply Nat.eqb_eq in E. auto.
  - unfold Ackermann.init_steering_names.
    destruct (getWheelNames nh "left_steering") as [ls | ]; [ | discriminate].
    destruct (getWheelNames nh "right_steering") as [rs | ]; [ | discriminate].
    destruct (Nat.eqb (List.length ls) (List.length rs)) eqn:E; [ | discriminate].
    cbn [negb]. intros [= _ <- <-]. apply Nat.eqb_eq in E. auto.
Qed.

Lemma four_wheel_steering_names_read {O : Type} (nh : NodeHandle)
  (c c' : FourWheelSteering.FourWheelSteeringController O) (l r : list string) :
  (FourWheelSteering.init_wheel_names nh c = Some (c', l, r) ->
   getWheelNames nh "left_wheel" = Some l /\
   getWheelNames nh "right_wheel" = Some r /\
   List.length l = 2%nat /\ List.length r = 2%nat) /\
  (FourWheelSteering.init_steering_names nh c = Some (c', l, r) ->
   getWheelNames nh "left_steering" = Some l /\
   getWheelNames nh "right_steering" = Some r /\
   List.length l = 2%nat /\ List.length r = 2%nat).
Proof.
  split.
  - unfold FourWheelSteering.init_wheel_names.
    destruct (getWheelNames nh "left_wheel") as [lw | ]; [ | discriminate].
    destruct (getWheelNames nh "right_wheel") as [rw | ]; [ | discriminate].
    destruct (Nat.eqb (List.length lw) (List.length rw)) eqn:E; [ | discriminate].
    destruct (Nat.eqb (List.length lw) 2) eqn:E2; [ | discriminate].
    cbn [negb]. intros [= _ <- <-]. apply Nat.eqb_eq in E, E2.
    repeat split; congruence.
  - unfold FourWheelSteering.init_steering_names.
    destruct (getWheelNames nh "left_steering") as [ls | ]; [ | discriminate].
    destruct (getWheelNames nh "right_steering") as [rs | ]; [ | discriminate].
    destruct (Nat.eqb (List.length ls) (List.length rs)) eqn:E; [ | discriminate].
    destruct (Nat.eqb (List.length ls) 2) eqn:E2; [ | discriminate].
    cbn [negb]. intros [= _ <- <-]. apply Nat.eqb_eq in E, E2.
    repeat split; congruence.
Qed.

(** The name blocks of [init] leave [state_] alone. *)
Lemma names_keep_state {O : Type} (nh : NodeHandle) :
  (forall (c c' : Ackermann.AckermannController O) l r,
     Ackermann.init_wheel_names nh c = Some (c', l, r) \/
     Ackermann.init_steering_names nh c = Some (c', l, r) ->
     Ackermann.state_ c' = Ackermann.state_ c) /\
  (forall (c c' : FourWheelSteering.FourWheelSteeringController O) l r,
     FourWheelSteering.init_wheel_names nh c = Some (c', l, r) \/
     FourWheelSteering.init_steering_names nh c = Some (c', l, r) ->
     FourWheelSteering.state_ c' = FourWheelSteering.state_ c).
Proof.
  split; intros c c' l r [H | H]; revert H.
  - unfold Ackermann.init_wheel_names.
    destruct (getWheelNames nh "left_wheel"); [ | discriminate].
    destruct (getWheelNames nh "right_wheel"); [ | discriminate].
    destruct (negb _); [discriminate | ].
    intros [= <- _ _]. reflexivity.
  - unfold Ackermann.init_steering_names.
    destruct (getWheelNames nh "left_steering"); [ | discriminate].
    destruct (getWheelNames nh "right_steering"); [ | discriminate].
    destruct (negb _); [discriminate | ].
    intros [= <- _ _]. reflexivity.
  - unfold FourWheelSteering.init_wheel_names.
    destruct (getWheelNames nh "left_wheel"); [ | discriminate].
    destruct (getWheelNames nh "right_wheel"); [ | discriminate].
    destruct (negb _); [discriminate | ].
    destruct (negb _); [discriminate | ].
    intros [= <- _ _]. reflexivity.
  - unfold FourWheelSteering.init_steering_names.
    destruct (getWheelNames nh "left_steering"); [ | discriminate].
    destruct (getWheelNames nh "right_steering"); [ | discriminate].
    destruct (negb _); [discriminate | ].
    destruct (negb _); [discriminate | ].
    intros [= <- _ _]. reflexivity.
Qed.

(** C8. Rejected joint lists.  [init] returns false when the left and the
    right wheel lists, or the left and the right steering lists, are read with
    different lengths and, four-wheel steering, when any of the four lists is
    read with a length other than 2.  The hardware interfaces come back as
    they went in, so no handle was taken and no resource claimed, and
    [initRequest] returns false in turn, leaving [state_] and the claimed
    resources as they were: the controller is not initialised. *)
Theorem init_rejects_joint_lists {O : Type} {odometry : OdometryOps O} {env : Env} :
  (forall setWheelParams hw_vel root_nh controller_nh (c : Ackermann.AckermannController O),
     let mismatch left right :=
       exists l r, getWheelNames controller_nh left = Some l /\
                   getWheelNames controller_nh right = Some r /\
                   List.length l <> List.length r in
     mismatch "left_wheel"%string "right_wheel"%string \/
     mismatch "left_steering"%string "right_steering"%string ->
     (exists c', Ackermann.init setWheelParams hw_vel root_nh controller_nh c =
                 Ok (false, c', hw_vel) /\
                 Ackermann.state_ c' = Ackermann.state_ c) /\
     forall pos claimed,
       exists c' hw',
         Ackermann.initRequest setWheelParams
           {| pos_joint_hw := pos; vel_joint_hw := Some hw_vel |}
           root_nh controller_nh claimed c = Ok (false, c', hw', claimed) /\
         Ackermann.state_ c' = Ackermann.state_ c /\
         (forall hw, vel_joint_hw hw' = Some hw -> claims hw = [] \/ hw = hw_vel)) /\
  (forall setWheelParams hw_pos hw_vel root_nh controller_nh
          (c : FourWheelSteering.FourWheelSteeringController O),
     let mismatch left right :=
       exists l r, getWheelNames controller_nh left = Some l /\
                   getWheelNames controller_nh right = Some r /\
                   List.length l <> List.length r in
     let not_two key :=
       exists l, getWheelNames controller_nh key = Some l /\ List.length l <> 2%nat in
     mismatch "left_wheel"%string "right_wheel"%string \/
     mismatch "left_steering"%string "right_steering"%string \/
     not_two "left_wheel"%string \/ not_two "right_wheel"%string \/
     not_two "left_steering"%string \/ not_two "right_steering"%string ->
     (exists c', FourWheelSteering.init setWheelParams hw_pos hw_vel root_nh controller_nh c =
                 Ok (false, c', hw_pos, hw_vel) /\
                 FourWheelSteering.state_ c' = FourWheelSteering.state_ c) /\
     forall claimed,
       exists c' hw',
         FourWheelSteering.initRequest setWheelParams
           {| pos_joint_hw := Some hw_pos; vel_joint_hw := Some hw_vel |}
           root_nh controller_nh claimed c = Ok (false, c', hw', claimed) /\
         FourWheelSteering.state_ c' = FourWheelSteering.state_ c /\
         (forall hw, pos_joint_hw hw' = Some hw -> claims hw = [] \/ hw = hw_pos) /\
         (forall hw, vel_joint_hw hw' = Some hw -> claims hw = [] \/ hw = hw_vel)).
Proof.
  split.
  - intros sw hw_vel root_nh nh c mismatch Hbad.
    assert (Hinit : forall hw,
               exists c', Ackermann.init sw hw root_nh nh c = Ok (false, c', hw) /\
                          Ackermann.state_ c' = Ackermann.state_ c).
    { intros hw. unfold Ackermann.init.
      destruct (Ackermann.init_wheel_names nh _) as [ [ [c1 lw] rw] | ] eqn:Ew;
        [ | eexists; split; reflexivity].
      destruct (Ackermann.init_steering_names nh c1) as [ [ [c2 ls] rs] | ] eqn:Es.
      - exfalso.
        apply (proj1 (ackermann_names_read nh _ _ _ _)) in Ew.
        apply (proj2 (ackermann_names_read nh _ _ _ _)) in Es.
        destruct Ew as (Ewl & Ewr & Ewn), Es as (Esl & Esr & Esn).
        destruct Hbad as [(l & r & Hl & Hr & Hne) | (l & r & Hl & Hr & Hne)];
          congruence.
      - eexists. split; [reflexivity | ].
        rewrite (proj1 (names_keep_state nh) _ _ lw rw (or_introl Ew)).
        reflexivity. }
    split; [apply Hinit | ].
    intros pos claimed. unfold Ackermann.initRequest.
    destruct (Ackermann.state_ c) eqn:Est.
    2, 3: exists c, {| pos_joint_hw := pos; vel_joint_hw := Some hw_vel |};
      split; [reflexivity | split; [exact Est | ] ];
      cbn [vel_joint_hw]; intros hw [= <-]; right; reflexivity.
    destruct pos as [pos | ]; cbn [pos_joint_hw vel_joint_hw].
    2: exists c, {| pos_joint_hw := None; vel_joint_hw := Some hw_vel |};
      split; [reflexivity | split; [exact Est | ] ];
      cbn [vel_joint_hw]; intros hw [= <-]; right; reflexivity.
    destruct (Hinit (clearClaims hw_vel)) as (c' & Hc' & Hst).
    cbv zeta. rewrite Hc'. cbn [bind negb].
    exists c', {| pos_joint_hw := Some (clearClaims pos);
                  vel_joint_hw := Some (clearClaims hw_vel) |}.
    split; [reflexivity | split; [congruence | ] ].
    cbn [vel_joint_hw]. intros hw [= <-]. left. reflexivity.
  - intros sw hw_pos hw_vel root_nh nh c mismatch not_two Hbad.
    assert (Hinit : forall hp hv,
               exists c', FourWheelSteering.init sw hp hv root_nh nh c =
                          Ok (false, c', hp, hv) /\
                          FourWheelSteering.state_ c' = FourWheelSteering.state_ c).
    { intros hp hv. unfold FourWheelSteering.init.
      destruct (FourWheelSteering.init_wheel_names nh _) as [ [ [c1 lw] rw] | ] eqn:Ew;
        [ | eexists; split; reflexivity].
      destruct (FourWheelSteering.init_steering_names nh c1) as [ [ [c2 ls] rs] | ] eqn:Es.
      - exfalso.
        apply (proj1 (four_wheel_steering_names_read nh _ _ _ _)) in Ew.
        apply (proj2 (four_wheel_steering_names_read nh _ _ _ _)) in Es.
        destruct Ew as (Ewl & Ewr & Ewn & Ewm), Es as (Esl & Esr & Esn & Esm).
        destruct Hbad as [(l & r & Hl & Hr & Hne) | [(l & r & Hl & Hr & Hne) |
                          [(l & Hl & Hne) | [(l & Hl & Hne) |
                          [(l & Hl & Hne) | (l & Hl & Hne)] ] ] ] ];
          congruence.
      - eexists. split; [reflexivity | ].
        rewrite (proj2 (names_keep_state nh) _ _ lw rw (or_introl Ew)).
        reflexivity. }
    split; [apply Hinit | ].
    intros claimed. unfold FourWheelSteering.initRequest.
    destruct (FourWheelSteering.state_ c) eqn:Est.
    2, 3: exists c, {| pos_joint_hw := Some hw_pos; vel_joint_hw := Some hw_vel |};
      split; [reflexivity | split; [exact Est | ] ];
      split; cbn [pos_joint_hw vel_joint_hw]; intros hw [= <-]; right; reflexivity.
    cbn [pos_joint_hw vel_joint_hw].
    destruct (Hinit (clearClaims hw_pos) (clearClaims hw_vel)) as (c' & Hc' & Hst).
    cbv zeta. rewrite Hc'. cbn [bind negb].
    exists c', {| pos_joint_hw := Some (clearClaims hw_pos);
                  vel_joint_hw := Some (clearClaims hw_vel) |}.
    split; [reflexivity | split; [congruence | ] ].
    split; cbn [pos_joint_hw vel_joint_hw]; intros hw [= <-]; left; reflexivity.
Qed.

(** The ackermann constructor's controller on two left wheels for one right
    wheel, and the four-wheel-steering one on a single pair a side. *)
Lemma init_rejects_joint_lists_witness :
  (exists c',
     Ackermann.init Examples.setWheelParams2 Examples.hardware Examples.root_nh
                    Examples.mismatched_nh Examples.ackermann_constructed =
     Ok (false, c', Examples.hardware) /\
     Ackermann.state_ c' = CONSTRUCTED) /\
  (exists c',
     FourWheelSteering.init Examples.setWheelParams3 Examples.hardware Examples.hardware
                            Examples.root_nh Examples.ackermann_nh
                            Examples.four_wheel_steering_constructed =
     Ok (false, c', Examples.hardware, Examples.hardware) /\
     FourWheelSteering.state_ c' = CONSTRUCTED).
Proof.
  destruct (@init_rejects_joint_lists _ Examples.estimator Examples.env) as [HA HF].
  split.
  - refine (proj1 (HA Examples.setWheelParams2 Examples.hardware Examples.root_nh
                      Examples.mismatched_nh Examples.ackermann_constructed _)).
    left. exists ["fl_wheel"; "rl_wheel"]%string, ["rr_wheel"]%string.
    split; [reflexivity | split; [reflexivity | ] ]. cbn. lia.
  - refine (proj1 (HF Examples.setWheelParams3 Examples.hardware Examples.hardware
                      Examples.root_nh Examples.ackermann_nh
                      Examples.four_wheel_steering_constructed _)).
    right. right. left. exists ["rl_wheel"]%string.
    split; [reflexivity | ]. cbn. lia.
Defined.

(** C9. Command ingestion.  A command callback writes to its command buffer
    exactly when the controller is running; the command written carries the
    fields of the message and the current time as its stamp, and is the value
    the buffer then holds.  When the controller is not running the callback
    returns the controller as it was and writes nothing. *)
Theorem ingestion_only_when_running {O : Type} :
  (forall (c : Ackermann.AckermannController O) now command,
     let r := Ackermann.cmdVelCallback now command c in
     let cmd := {| Ackermann.lin := vx (Ackermann.linear command);
                   Ackermann.ang := vz (Ackermann.angular command);
                   Ackermann.stamp := now |} in
     ((exists written, In (Ackermann.WriteFromNonRT written) (snd r)) <->
      Ackermann.state_ c = RUNNING) /\
     (Ackermann.state_ c = RUNNING ->
      snd r = [Ackermann.WriteFromNonRT cmd] /\
      Ackermann.command_ (fst r) = cmd /\
      Ackermann.command_struct_ (fst r) = cmd) /\
     (Ackermann.state_ c <> RUNNING -> r = (c, []))) /\
  (forall (c : FourWheelSteering.FourWheelSteeringController O) now command,
     let r := FourWheelSteering.cmdVelCallback now command c in
     let cmd := {| FourWheelSteering.lin := vx (FourWheelSteering.linear command);
                   FourWheelSteering.ang := vz (FourWheelSteering.angular command);
                   FourWheelSteering.front_steering :=
                     FourWheelSteering.front_steering (FourWheelSteering.command_struct_ c);
                   FourWheelSteering.rear_steering :=
                     FourWheelSteering.rear_steering (FourWheelSteering.command_struct_ c);
                   FourWheelSteering.stamp := now |} in
     ((exists e, In e (snd r)) <-> FourWheelSteering.state_ c = RUNNING) /\
     (FourWheelSteering.state_ c = RUNNING ->
      snd r = [FourWheelSteering.WriteFromNonRT cmd] /\
      FourWheelSteering.command_ (fst r) = cmd /\
      FourWheelSteering.command_struct_ (fst r) = cmd /\
      FourWheelSteering.command_four_wheel_steering_ (fst r) =
        FourWheelSteering.command_four_wheel_steering_ c) /\
     (FourWheelSteering.state_ c <> RUNNING -> r = (c, []))) /\
  (forall (c : FourWheelSteering.FourWheelSteeringController O) now command,
     let r := FourWheelSteering.cmdFourWheelSteeringCallback now command c in
     let cmd := {| FourWheelSteering.lin := FourWheelSteering.speed command;
                   FourWheelSteering.ang :=
                     FourWheelSteering.ang
                       (FourWheelSteering.command_struct_four_wheel_steering_ c);
                   FourWheelSteering.front_steering :=
                     FourWheelSteering.front_steering_angle command;
                   FourWheelSteering.rear_steering :=
                     FourWheelSteering.rear_steering_angle command;
                   FourWheelSteering.stamp := now |} in
     ((exists e, In e (snd r)) <-> FourWheelSteering.state_ c = RUNNING) /\
     (FourWheelSteering.state_ c = RUNNING ->
      snd r = [FourWheelSteering.WriteFromNonRT_four_wheel_steering cmd] /\
      FourWheelSteering.command_four_wheel_steering_ (fst r) = cmd /\
      FourWheelSteering.command_struct_four_wheel_steering_ (fst r) = cmd /\
      FourWheelSteering.command_ (fst r) = FourWheelSteering.command_ c) /\
     (FourWheelSteering.state_ c <> RUNNING -> r = (c, []))).
Proof.
  repeat split.
  - intros [written Hin]. revert Hin.
    unfold Ackermann.cmdVelCallback, Ackermann.isRunning.
    destruct (Ackermann.state_ c); cbn; tauto.
  - intros H. unfold Ackermann.cmdVelCallback, Ackermann.isRunning. rewrite H.
    eexists. left. reflexivity.
  - unfold Ackermann.cmdVelCallback, Ackermann.isRunning. rewrite H. reflexivity.
  - unfold Ackermann.cmdVelCallback, Ackermann.isRunning. rewrite H. reflexivity.
  - unfold Ackermann.cmdVelCallback, Ackermann.isRunning. rewrite H. reflexivity.
  - unfold Ackermann.cmdVelCallback, Ackermann.isRunning.
    destruct (Ackermann.state_ c); congruence.
  - intros [e Hin]. revert Hin.
    unfold FourWheelSteering.cmdVelCallback, FourWheelSteering.isRunning.
    destruct (FourWheelSteering.state_ c); cbn; tauto.
  - intros H. unfold FourWheelSteering.cmdVelCallback, FourWheelSteering.isRunning.
    rewrite H. eexists. left. reflexivity.
  - unfold FourWheelSteering.cmdVelCallback, FourWheelSteering.isRunning.
    rewrite H. reflexivity.
  - unfold FourWheelSteering.cmdVelCallback, FourWheelSteering.isRunning.
    rewrite H. reflexivity.
  - unfold FourWheelSteering.cmdVelCallback, FourWheelSteering.isRunning.
    rewrite H. reflexivity.
  - unfold FourWheelSteering.cmdVelCallback, FourWheelSteering.isRunning.
    rewrite H. reflexivity.
  - unfold FourWheelSteering.cmdVelCallback, FourWheelSteering.isRunning.
    destruct (FourWheelSteering.state_ c); congruence.
  - intros [e Hin]. revert Hin.
    unfold FourWheelSteering.cmdFourWheelSteeringCallback, FourWheelSteering.isRunning.
    destruct (FourWheelSteering.state_ c); cbn; tauto.
  - intros H.
    unfold FourWheelSteering.cmdFourWheelSteeringCallback, FourWheelSteering.isRunning.
    rewrite H. eexists. left. reflexivity.
  - unfold FourWheelSteering.cmdFourWheelSteeringCallback, FourWheelSteering.isRunning.
    rewrite H. reflexivity.
  - unfold FourWheelSteering.cmdFourWheelSteeringCallback, FourWheelSteering.isRunning.
    rewrite H. reflexivity.
  - unfold FourWheelSteering.cmdFourWheelSteeringCallback, FourWheelSteering.isRunning.
    rewrite H. reflexivity.
  - unfold FourWheelSteering.cmdFourWheelSteeringCallback, FourWheelSteering.isRunning.
    rewrite H. reflexivity.
  - unfold FourWheelSteering.cmdFourWheelSteeringCallback, FourWheelSteering.isRunning.
    destruct (FourWheelSteering.state_ c); congruence.
Qed.

(** The running examples take a command in; the controllers fresh from their
    constructors do not. *)
Lemma ingestion_only_when_running_witness :
  (snd (Ackermann.cmdVelCallback 1200000000%Z (Examples.twist 1.0 0.5) Examples.ackermann) =
   [ Ackermann.WriteFromNonRT
       {| Ackermann.lin := 1.0; Ackermann.ang := 0.5; Ackermann.stamp := 1200000000%Z |} ]) /\
  (Ackermann.cmdVelCallback 1200000000%Z (Examples.twist 1.0 0.5)
                            Examples.ackermann_constructed =
   (Examples.ackermann_constructed, [])) /\
  (snd (FourWheelSteering.cmdFourWheelSteeringCallback 1200000000%Z
          (Examples.drive 1.0 0.3 (-0.2)) Examples.direct_axle) =
   [ FourWheelSteering.WriteFromNonRT_four_wheel_steering
       {| FourWheelSteering.lin := 1.0; FourWheelSteering.ang := 0;
          FourWheelSteering.front_steering := 0.3;
          FourWheelSteering.rear_steering := -0.2;
          FourWheelSteering.stamp := 1200000000%Z |} ]) /\
  (FourWheelSteering.cmdVelCallback 1200000000%Z (Examples.twist4 1.0 0.5)
                                    Examples.four_wheel_steering_constructed =
   (Examples.four_wheel_steering_constructed, [])).
Proof.
  destruct (@ingestion_only_when_running Examples.VelocityEstimator) as (HA & HT & HF).
  split; [ | split; [ | split] ].
  - exact (proj1 (proj1 (proj2 (HA Examples.ackermann 1200000000%Z
                                   (Examples.twist 1.0 0.5))) eq_refl)).
  - apply (proj2 (proj2 (HA Examples.ackermann_constructed 1200000000%Z
                            (Examples.twist 1.0 0.5)))).
    discriminate.
  - exact (proj1 (proj1 (proj2 (HF Examples.direct_axle 1200000000%Z
                                   (Examples.drive 1.0 0.3 (-0.2)))) eq_refl)).
  - apply (proj2 (proj2 (HT Examples.four_wheel_steering_constructed 1200000000%Z
                            (Examples.twist4 1.0 0.5)))).
    discriminate.
Defined.

(** ** Publishing, cycle by cycle *)

Lemma published_odom_app (es1 es2 : list Effect) :
  published_odom (es1 ++ es2) = (published_odom es1 + published_odom es2)%nat.
Proof. unfold published_odom. rewrite filter_app, length_app. reflexivity. Qed.

Lemma ackermann_cycle_publication {O : Type} {odometry : OdometryOps O} {env : Env}
  (c : Ackermann.AckermannController O) s lk time period :
  Ackermann.compute_odometry s time c <> None ->
  let u := Ackermann.update s lk time period c in
  let due := (Ackermann.last_state_publish_time_ c + Ackermann.publish_period_ c <? time)%Z in
  Ackermann.last_state_publish_time_ (fst u) =
    (if due then Ackermann.last_state_publish_time_ c + Ackermann.publish_period_ c
     else Ackermann.last_state_publish_time_ c)%Z /\
  published_odom (snd u) = (if (due && odom_trylock lk)%bool then 1 else 0)%nat.
Proof.
  intros Hc. destruct (Ackermann.compute_odometry s time c) as [o | ] eqn:Ho;
    [clear Hc | congruence].
  cbv zeta.
  destruct (ackermann_update_fields s lk time period c o Ho) as (_ & _ & _ & Ht & Hs).
  rewrite Ht, Hs, published_odom_app.
  destruct (ackermann_publish_cases lk time (c <| Ackermann.odometry_ := o |>))
    as (Hp1 & Hp2).
  unfold published_odom at 2. rewrite ackermann_wheels_no_publication.
  unfold published_odom. rewrite Hp1, Hp2. cbn [List.length].
  rewrite Nat.add_0_r. split; reflexivity.
Qed.

Lemma four_wheel_steering_cycle_publication
  {O : Type} {odometry : OdometryOps O} {env : Env}
  (c : FourWheelSteering.FourWheelSteeringController O) s lk time period :
  FourWheelSteering.compute_odometry s time c <> None ->
  let u := FourWheelSteering.update s lk time period c in
  let due := (FourWheelSteering.last_state_publish_time_ c +
              FourWheelSteering.publish_period_ c <? time)%Z in
  FourWheelSteering.last_state_publish_time_ (fst u) =
    (if due then FourWheelSteering.last_state_publish_time_ c +
                 FourWheelSteering.publish_period_ c
     else FourWheelSteering.last_state_publish_time_ c)%Z /\
  published_odom (snd u) = (if (due && odom_trylock lk)%bool then 1 else 0)%nat.
Proof.
  intros Hc. destruct (FourWheelSteering.compute_odometry s time c) as [o | ] eqn:Ho;
    [clear Hc | congruence].
  cbv zeta.
  destruct (four_wheel_steering_update_fields s lk time period c o Ho)
    as (_ & _ & _ & Ht & Hs).
  rewrite Ht, Hs, published_odom_app.
  destruct (four_wheel_steering_publish_cases lk time
              (c <| FourWheelSteering.odometry_ := o |>)) as (Hp1 & Hp2).
  assert (Hw : forall a b d e f g,
             published_odom (FourWheelSteering.set_wheels_velocities c a b d e ++
                             FourWheelSteering.set_steering_angles c f g) = 0%nat).
  { intros. unfold published_odom, FourWheelSteering.set_wheels_velocities,
      FourWheelSteering.set_steering_angles.
    split_tests; reflexivity. }
  rewrite Hw. unfold published_odom. rewrite Hp1, Hp2.
  rewrite Nat.add_0_r. split; reflexivity.
Qed.

(** While the publish time lags every cycle of a run by more periods than
    the run has cycles, each cycle takes the publishing block: the time moves
    on one period per cycle, and a cycle emits an odometry message exactly
    when it gets the publisher's lock. *)
Lemma ackermann_catch_up {O : Type} {odometry : OdometryOps O} {env : Env}
  (cycles : list Cycle) :
  forall c : Ackermann.AckermannController O,
    (0 <= Ackermann.publish_period_ c)%Z ->
    Ackermann.completes cycles c ->
    (forall k, In k cycles ->
       (Ackermann.last_state_publish_time_ c +
        Z.of_nat (List.length cycles) * Ackermann.publish_period_ c < cycle_time k)%Z) ->
    let r := Ackermann.run cycles c in
    Ackermann.last_state_publish_time_ (fst r) =
      (Ackermann.last_state_publish_time_ c +
       Z.of_nat (List.length cycles) * Ackermann.publish_period_ c)%Z /\
    map published_odom (snd r) =
      map (fun k => if odom_trylock (cycle_locks k) then 1%nat else 0%nat) cycles.
Proof.
  induction cycles as [ | k rest IH]; intros c Hperiod Hcomplete Hlag.
  - cbn. split; [lia | reflexivity].
  - destruct Hcomplete as [Hk Hrest].
    cbn [Ackermann.run]. cbv zeta. cbn [fst snd map].
    destruct (ackermann_cycle_publication c (cycle_sensors k) (cycle_locks k)
                (cycle_time k) (cycle_period k) Hk) as (Htime & Hcount).
    destruct (proj1 update_keeps_configuration c (cycle_sensors k) (cycle_locks k)
                (cycle_time k) (cycle_period k)) as (_ & _ & _ & _ & Hp & _).
    assert (Hdue : (Ackermann.last_state_publish_time_ c + Ackermann.publish_period_ c
                    <? cycle_time k)%Z = true).
    { apply Z.ltb_lt. specialize (Hlag k (or_introl eq_refl)).
      cbn [List.length] in Hlag. nia. }
    rewrite Hdue in Htime, Hcount. cbn [andb] in Hcount.
    specialize (IH (fst (Ackermann.update (cycle_sensors k) (cycle_locks k)
                           (cycle_time k) (cycle_period k) c))).
    destruct IH as (IHtime & IHcount).
    + rewrite Hp. exact Hperiod.
    + exact Hrest.
    + intros k' Hin. rewrite Htime, Hp.
      specialize (Hlag k' (or_intror Hin)). cbn [List.length] in Hlag. nia.
    + split.
      * rewrite IHtime, Htime, Hp. cbn [List.length]. nia.
      * rewrite IHcount, Hcount. reflexivity.
Qed.

Lemma four_wheel_steering_catch_up {O : Type} {odometry : OdometryOps O} {env : Env}
  (cycles : list Cycle) :
  forall c : FourWheelSteering.FourWheelSteeringController O,
    (0 <= FourWheelSteering.publish_period_ c)%Z ->
    FourWheelSteering.completes cycles c ->
    (forall k, In k cycles ->
       (FourWheelSteering.last_state_publish_time_ c +
        Z.of_nat (List.length cycles) * FourWheelSteering.publish_period_ c
        < cycle_time k)%Z) ->
    let r := FourWheelSteering.run cycles c in
    FourWheelSteering.last_state_publish_time_ (fst r) =
      (FourWheelSteering.last_state_publish_time_ c +
       Z.of_nat (List.length cycles) * FourWheelSteering.publish_period_ c)%Z /\
    map published_odom (snd r) =
      map (fun k => if odom_trylock (cycle_locks k) then 1%nat else 0%nat) cycles.
Proof.
  induction cycles as [ | k rest IH]; intros c Hperiod Hcomplete Hlag.
  - cbn. split; [lia | reflexivity].
  - destruct Hcomplete as [Hk Hrest].
    cbn [FourWheelSteering.run]. cbv zeta. cbn [fst snd map].
    destruct (four_wheel_steering_cycle_publication c (cycle_sensors k) (cycle_locks k)
                (cycle_time k) (cycle_period k) Hk) as (Htime & Hcount).
    destruct (proj2 update_keeps_configuration c (cycle_sensors k) (cycle_locks k)
                (cycle_time k) (cycle_period k)) as (_ & _ & _ & _ & Hp & _).
    assert (Hdue : (FourWheelSteering.last_state_publish_time_ c +
                    FourWheelSteering.publish_period_ c <? cycle_time k)%Z = true).
    { apply Z.ltb_lt. specialize (Hlag k (or_introl eq_refl)).
      cbn [List.length] in Hlag. nia. }
    rewrite Hdue in Htime, Hcount. cbn [andb] in Hcount.
    specialize (IH (fst (FourWheelSteering.update (cycle_sensors k) (cycle_locks k)
                           (cycle_time k) (cycle_period k) c))).
    destruct IH as (IHtime & IHcount).
    + rewrite Hp. exact Hperiod.
    + exact Hrest.
    + intros k' Hin. rewrite Htime, Hp.
      specialize (Hlag k' (or_intror Hin)). cbn [List.length] in Hlag. nia.
    + split.
      * rewrite IHtime, Htime, Hp. cbn [List.length]. nia.
      * rewrite IHcount, Hcount. reflexivity.
Qed.

(** C10, amended.  Publication pacing.  A cycle that gets past the sensors
    emits at most one odometry message, and when it emits one
    [last_state_publish_time_] has moved on by exactly [publish_period_],
    whatever the time of the cycle.  The publishing block is taken when
    [last_state_publish_time_ + publish_period_ < time]: the time then moves
    on by one period, and the message is emitted if the publisher's lock is
    obtained and skipped if it is not; otherwise nothing is emitted and the
    time stays.  So, after a gap of several periods, every following cycle
    takes the block, and emits one message when it gets the lock, until
    [last_state_publish_time_] is within one period of the cycle time. *)
Theorem publication_pacing {O : Type} {odometry : OdometryOps O} {env : Env} :
  (forall (c : Ackermann.AckermannController O) s lk time period,
     Ackermann.compute_odometry s time c <> None ->
     let u := Ackermann.update s lk time period c in
     let last := Ackermann.last_state_publish_time_ in
     let due := (last c + Ackermann.publish_period_ c <? time)%Z in
     (published_odom (snd u) <= 1)%nat /\
     (published_odom (snd u) = 1%nat ->
      last (fst u) = (last c + Ackermann.publish_period_ c)%Z) /\
     (due = true ->
      last (fst u) = (last c + Ackermann.publish_period_ c)%Z /\
      published_odom (snd u) = if odom_trylock lk then 1%nat else 0%nat) /\
     (due = false -> last (fst u) = last c /\ published_odom (snd u) = 0%nat)) /\
  (forall (c : Ackermann.AckermannController O) cycles,
     (0 <= Ackermann.publish_period_ c)%Z ->
     Ackermann.completes cycles c ->
     (forall k, In k cycles ->
        (Ackermann.last_state_publish_time_ c +
         Z.of_nat (List.length cycles) * Ackermann.publish_period_ c < cycle_time k)%Z) ->
     let r := Ackermann.run cycles c in
     Ackermann.last_state_publish_time_ (fst r) =
       (Ackermann.last_state_publish_time_ c +
        Z.of_nat (List.length cycles) * Ackermann.publish_period_ c)%Z /\
     map published_odom (snd r) =
       map (fun k => if odom_trylock (cycle_locks k) then 1%nat else 0%nat) cycles) /\
  (forall (c : FourWheelSteering.FourWheelSteeringController O) s lk time period,
     FourWheelSteering.compute_odometry s time c <> None ->
     let u := FourWheelSteering.update s lk time period c in
     let last := FourWheelSteering.last_state_publish_time_ in
     let due := (last c + FourWheelSteering.publish_period_ c <? time)%Z in
     (published_odom (snd u) <= 1)%nat /\
     (published_odom (snd u) = 1%nat ->
      last (fst u) = (last c + FourWheelSteering.publish_period_ c)%Z) /\
     (due = true ->
      last (fst u) = (last c + FourWheelSteering.publish_period_ c)%Z /\
      published_odom (snd u) = if odom_trylock lk then 1%nat else 0%nat) /\
     (due = false -> last (fst u) = last c /\ published_odom (snd u) = 0%nat)) /\
  (forall (c : FourWheelSteering.FourWheelSteeringController O) cycles,
     (0 <= FourWheelSteering.publish_period_ c)%Z ->
     FourWheelSteering.completes cycles c ->
     (forall k, In k cycles ->
        (FourWheelSteering.last_state_publish_time_ c +
         Z.of_nat (List.length cycles) * FourWheelSteering.publish_period_ c
         < cycle_time k)%Z) ->
     let r := FourWheelSteering.run cycles c in
     FourWheelSteering.last_state_publish_time_ (fst r) =
       (FourWheelSteering.last_state_publish_time_ c +
        Z.of_nat (List.length cycles) * FourWheelSteering.publish_period_ c)%Z /\
     map published_odom (snd r) =
       map (fun k => if odom_trylock (cycle_locks k) then 1%nat else 0%nat) cycles).
Proof.
  split; [ | split; [ | split] ].
  - intros c s lk time period Hc u last due.
    destruct (ackermann_cycle_publication c s lk time period Hc) as (Htime & Hcount).
    fold u in Htime, Hcount. subst due last. cbv beta.
    rewrite Htime, Hcount.
    destruct (_ <? _)%Z, (odom_trylock lk); cbn [andb]; cbv iota;
      (split; [lia | split; [ | split] ]); intros H; try discriminate;
      try split; reflexivity.
  - intros c cycles. apply (ackermann_catch_up cycles c).
  - intros c s lk time period Hc u last due.
    destruct (four_wheel_steering_cycle_publication c s lk time period Hc)
      as (Htime & Hcount).
    fold u in Htime, Hcount. subst due last. cbv beta.
    rewrite Htime, Hcount.
    destruct (_ <? _)%Z, (odom_trylock lk); cbn [andb]; cbv iota;
      (split; [lia | split; [ | split] ]); intros H; try discriminate;
      try split; reflexivity.
  - intros c cycles. apply (four_wheel_steering_catch_up cycles c).
Qed.

(** The ackermann example last published at 1 s, every 20 ms.  Three cycles
    from 1.3 s on, each with the lock free, emit one message each and leave
    the publish time at 1.06 s; the same on the direct-axle example. *)
Lemma publication_pacing_witness :
  (let cycles := [ Examples.cycle_at 1300000000%Z Examples.locks_free;
                   Examples.cycle_at 1310000000%Z Examples.locks_free;
                   Examples.cycle_at 1320000000%Z Examples.locks_free ] in
   let r := Ackermann.run cycles (Examples.ackermann_commanded 1.0 0.0) in
   Ackermann.last_state_publish_time_ (fst r) = 1060000000%Z /\
   map published_odom (snd r) = [1; 1; 1]%nat) /\
  (let cycles := [ Examples.cycle_at 1300000000%Z Examples.locks_free;
                   Examples.cycle_at 1310000000%Z Examples.locks_free;
                   Examples.cycle_at 1320000000%Z Examples.locks_free ] in
   let r := FourWheelSteering.run cycles (Examples.direct_axle_commanded 1.0 0.3 (-0.2)) in
   FourWheelSteering.last_state_publish_time_ (fst r) = 1060000000%Z /\
   map published_odom (snd r) = [1; 1; 1]%nat).
Proof.
  destruct (@publication_pacing _ Examples.estimator Examples.env)
    as (_ & HA & _ & HF).
  split.
  - refine (HA (Examples.ackermann_commanded 1.0 0.0)
               [ Examples.cycle_at 1300000000%Z Examples.locks_free;
                 Examples.cycle_at 1310000000%Z Examples.locks_free;
                 Examples.cycle_at 1320000000%Z Examples.locks_free ] _ _ _).
    + vm_compute. discriminate.
    + repeat split; vm_compute; discriminate.
    + intros k [<- | [<- | [<- | [] ] ] ]; vm_compute; reflexivity.
  - refine (HF (Examples.direct_axle_commanded 1.0 0.3 (-0.2))
               [ Examples.cycle_at 1300000000%Z Examples.locks_free;
                 Examples.cycle_at 1310000000%Z Examples.locks_free;
                 Examples.cycle_at 1320000000%Z Examples.locks_free ] _ _ _).
    + vm_compute. discriminate.
    + repeat split; vm_compute; discriminate.
    + intros k [<- | [<- | [<- | [] ] ] ]; vm_compute; reflexivity.
Defined.

(** C10 as stated fails when the publisher's lock is busy.  The ackermann
    example last published at 1 s, every 20 ms, and runs two cycles at 1.3 s
    and 1.31 s, fifteen periods late; neither is aborted.  In the first the
    lock is busy: no message is emitted although the publish time is far from
    caught up, and the time moves on by a period all the same.  The second,
    with the lock free, emits one. *)
Lemma publication_pacing_counterexample :
  let c := Examples.ackermann_commanded 1.0 0.0 in
  let cycles := [ Examples.cycle_at 1300000000%Z Examples.locks_busy;
                  Examples.cycle_at 1310000000%Z Examples.locks_free ] in
  let r := Ackermann.run cycles c in
  Ackermann.completes cycles c /\
  (Ackermann.last_state_publish_time_ c + 15 * Ackermann.publish_period_ c
   <= 1300000000)%Z /\
  map published_odom (snd r) = [0; 1]%nat /\
  Ackermann.last_state_publish_time_ (fst r) =
    (Ackermann.last_state_publish_time_ c + 2 * Ackermann.publish_period_ c)%Z.
Proof.
  cbv zeta. split.
  - repeat split; vm_compute; discriminate.
  - repeat split; vm_compute; try reflexivity. discriminate.
Qed.

(** * Further properties of the two controllers

    What the code does beyond the claims above: how the parameters and the
    robot description are read, what [init] and [initRequest] leave behind,
    which cycles are aborted, what is published, and what a message does to
    the joints. *)

(** ** Reading the joint names *)

Lemma strings_round_trip (l : list XmlRpcValue) :
  forallb (fun v => match v with TypeString _ => true | _ => false end) l = true ->
  map TypeString (map (fun v => match v with TypeString s => s | _ => EmptyString end) l) = l.
Proof.
  induction l as [|v l IH]; cbn; [reflexivity | ].
  intros H. apply andb_true_iff in H. destruct H as [Hv Hl].
  destruct v; try discriminate. rewrite IH by exact Hl. reflexivity.
Qed.

Lemma names_round_trip (names : list string) :
  forallb (fun v => match v with TypeString _ => true | _ => false end)
          (map TypeString names) = true /\
  map (fun v => match v with TypeString s => s | _ => EmptyString end)
      (map TypeString names) = names.
Proof.
  induction names as [|n names [IH1 IH2]]; cbn; [split; reflexivity | ].
  rewrite IH1, IH2. split; reflexivity.
Qed.

(** X1. [getWheelNames] returns names in exactly two cases: the parameter is
    a string, read as a list of one name, or it is a list that is not empty
    and holds strings only, read in order.  A missing parameter, an empty
    list, a list with an entry of another type and a value of another type
    all make it return false; the names it returns are never empty. *)
Theorem getWheelNames_reads (controller_nh : NodeHandle) (wheel_param : string)
  (names : list string) :
  getWheelNames controller_nh wheel_param = Some names <->
  (exists s, param_value controller_nh wheel_param = Some (TypeString s) /\ names = [s]) \/
  (names <> [] /\
   param_value controller_nh wheel_param = Some (TypeArray (map TypeString names))).
Proof.
  unfold getWheelNames. split.
  - destruct (param_value controller_nh wheel_param) as [v | ]; [ | discriminate].
    destruct v as [ | b | i | d | s | l | ]; try discriminate.
    + intros [= <-]. left. exists s. split; reflexivity.
    + destruct l as [|v l]; [discriminate | ].
      destruct (forallb _ (v :: l)) eqn:E; [ | discriminate].
      intros [= <-]. right. split.
      * destruct v; discriminate.
      * do 2 f_equal. symmetry. exact (strings_round_trip (v :: l) E).
  - intros [(s & -> & ->) | (Hne & ->)]; [reflexivity | ].
    destruct names as [|n names]; [congruence | ].
    destruct (names_round_trip (n :: names)) as [H1 H2].
    change (map TypeString (n :: names)) with (TypeString n :: map TypeString names) in *.
    rewrite H1, H2. reflexivity.
Qed.

(** ** The wheel radius of a link *)

(** The two answers of [getWheelRadius]. *)
Lemma wheel_radius_cases (wheel_link : option Link) :
  (forall r,
     getWheelRadius wheel_link = Ok (Some r) <->
     exists l c len,
       wheel_link = Some l /\ collision l = Some c /\ geometry c = Some (CYLINDER r len)) /\
  (getWheelRadius wheel_link = Ok None <->
   exists l, wheel_link = Some l /\ isCylinder wheel_link = false).
Proof.
  split.
  - intros r. split.
    + destruct wheel_link as [[n [[[[ | | r' len | ] | ]] | ]] | ]; cbn; try discriminate.
      intros [= <-]. eexists _, _, len. repeat split.
    + intros (l & c & len & -> & Hc & Hg).
      destruct l as [n col]. cbn in Hc. subst col.
      destruct c as [g]. cbn in Hg. subst g. reflexivity.
  - split.
    + destruct wheel_link as [[n [[[[ | | r' len | ] | ]] | ]] | ]; cbn; try discriminate;
        intros _; eexists; split; reflexivity.
    + intros (l & -> & H). unfold getWheelRadius. rewrite H. reflexivity.
Qed.

(** X2. [getWheelRadius] finds a radius exactly when the link exists and its
    collision geometry is a cylinder, and the radius found is that of the
    cylinder; it returns false for a link without collision, without
    collision geometry or with a geometry of another kind. *)
Theorem getWheelRadius_reads (wheel_link : option Link) :
  (forall r,
     getWheelRadius wheel_link = Ok (Some r) <->
     exists l c len,
       wheel_link = Some l /\ collision l = Some c /\ geometry c = Some (CYLINDER r len)) /\
  (getWheelRadius wheel_link = Ok None <->
   exists l, wheel_link = Some l /\ isCylinder wheel_link = false).
Proof. exact (wheel_radius_cases wheel_link). Qed.

(** ** Geometry from the robot description *)

Section UrdfLookup.

Context {env : Env}.

(** What a successful lookup has read. *)
Lemma urdf_lookup_found (root_nh : NodeHandle)
  (left_wheel_name right_wheel_name : string) (lookup_wheel_separation lookup_wheel_radius : bool)
  (ws wr ws' wr' : float) :
  setOdomParamsFromUrdf root_nh left_wheel_name right_wheel_name
    lookup_wheel_separation lookup_wheel_radius ws wr = Ok (true, ws', wr') ->
  (lookup_wheel_separation = false -> ws' = ws) /\
  (lookup_wheel_radius = false -> wr' = wr) /\
  ((lookup_wheel_separation || lookup_wheel_radius)%bool = true ->
   exists robot_model_str model,
     getParam_string root_nh "robot_description" = Some robot_model_str /\
     parseURDF robot_model_str = Some model /\
     (lookup_wheel_separation = true ->
      exists l r,
        getJoint model left_wheel_name = Some l /\
        getJoint model right_wheel_name = Some r /\
        ws' = euclideanOfVectors (parent_to_joint_origin_position l)
                                 (parent_to_joint_origin_position r)) /\
     (lookup_wheel_radius = true ->
      exists l link c len,
        getJoint model left_wheel_name = Some l /\
        getLink model (child_link_name l) = Some link /\
        collision link = Some c /\
        geometry c = Some (CYLINDER wr' len))).
Proof.
  unfold setOdomParamsFromUrdf.
  destruct lookup_wheel_separation, lookup_wheel_radius; cbn [orb negb].
  - destruct (getParam_string root_nh "robot_description") as [str | ] eqn:Hs; [ | discriminate].
    destruct (parseURDF str) as [model | ] eqn:Hm; [ | discriminate].
    destruct (getJoint model left_wheel_name) as [l | ] eqn:Hjl; [ | discriminate].
    destruct (getJoint model right_wheel_name) as [r | ] eqn:Hjr; [ | discriminate].
    destruct (getWheelRadius (getLink model (child_link_name l))) as [[rad | ] | ] eqn:E;
      cbn [bind]; try discriminate.
    intros [= <- <-]. apply (proj1 (wheel_radius_cases _)) in E.
    destruct E as (link & c & len & Hl & Hc & Hg).
    split; [discriminate | split; [discriminate | ] ].
    intros _. exists str, model. split; [reflexivity | split; [exact Hm | split] ].
    + intros _. exists l, r. repeat split; assumption.
    + intros _. exists l, link, c, len. repeat split; assumption.
  - destruct (getParam_string root_nh "robot_description") as [str | ] eqn:Hs; [ | discriminate].
    destruct (parseURDF str) as [model | ] eqn:Hm; [ | discriminate].
    destruct (getJoint model left_wheel_name) as [l | ] eqn:Hjl; [ | discriminate].
    destruct (getJoint model right_wheel_name) as [r | ] eqn:Hjr; [ | discriminate].
    intros [= <- <-]. split; [discriminate | split; [reflexivity | ] ].
    intros _. exists str, model. split; [reflexivity | split; [exact Hm | split] ].
    + intros _. exists l, r. repeat split; assumption.
    + discriminate.
  - destruct (getParam_string root_nh "robot_description") as [str | ] eqn:Hs; [ | discriminate].
    destruct (parseURDF str) as [model | ] eqn:Hm; [ | discriminate].
    destruct (getJoint model left_wheel_name) as [l | ] eqn:Hjl; [ | discriminate].
    destruct (getWheelRadius (getLink model (child_link_name l))) as [[rad | ] | ] eqn:E;
      cbn [bind]; try discriminate.
    intros [= <- <-]. apply (proj1 (wheel_radius_cases _)) in E.
    destruct E as (link & c & len & Hl & Hc & Hg).
    split; [reflexivity | split; [discriminate | ] ].
    intros _. exists str, model. split; [reflexivity | split; [exact Hm | split] ].
    + discriminate.
    + intros _. exists l, link, c, len. repeat split; assumption.
  - intros [= <- <-]. split; [reflexivity | split; [reflexivity | discriminate] ].
Qed.

(** What is enough for a lookup to succeed. *)
Lemma urdf_lookup_sufficient (root_nh : NodeHandle)
  (left_wheel_name right_wheel_name : string) (lookup_wheel_separation lookup_wheel_radius : bool)
  (ws wr ws' wr' : float) :
  (lookup_wheel_separation = false -> ws' = ws) ->
  (lookup_wheel_radius = false -> wr' = wr) ->
  ((lookup_wheel_separation || lookup_wheel_radius)%bool = true ->
   exists robot_model_str model,
     getParam_string root_nh "robot_description" = Some robot_model_str /\
     parseURDF robot_model_str = Some model /\
     (lookup_wheel_separation = true ->
      exists l r,
        getJoint model left_wheel_name = Some l /\
        getJoint model right_wheel_name = Some r /\
        ws' = euclideanOfVectors (parent_to_joint_origin_position l)
                                 (parent_to_joint_origin_position r)) /\
     (lookup_wheel_radius = true ->
      exists l link c len,
        getJoint model left_wheel_name = Some l /\
        getLink model (child_link_name l) = Some link /\
        collision link = Some c /\
        geometry c = Some (CYLINDER wr' len))) ->
  setOdomParamsFromUrdf root_nh left_wheel_name right_wheel_name
    lookup_wheel_separation lookup_wheel_radius ws wr = Ok (true, ws', wr').
Proof.
  intros Hs Hr Hm. unfold setOdomParamsFromUrdf.
  destruct (lookup_wheel_separation || lookup_wheel_radius)%bool eqn:Hl; cbn [negb].
  - destruct (Hm eq_refl) as (str & model & -> & -> & Hsep & Hrad).
    assert (R : lookup_wheel_radius = true ->
                exists l, getJoint model left_wheel_name = Some l /\
                          getWheelRadius (getLink model (child_link_name l)) = Ok (Some wr')).
    { intros E. destruct (Hrad E) as (l & link & [g] & len & Hj & Hk & Hc & Hg).
      exists l. split; [exact Hj | ]. rewrite Hk.
      destruct link as [n col]. cbn in Hc, Hg. subst col g. reflexivity. }
    destruct lookup_wheel_separation.
    + destruct (Hsep eq_refl) as (l & r & Hjl & Hjr & ->). rewrite Hjl, Hjr.
      destruct lookup_wheel_radius.
      * destruct (R eq_refl) as (l' & Hj & Hw). rewrite Hjl in Hj. injection Hj as <-.
        rewrite Hw. reflexivity.
      * rewrite (Hr eq_refl). reflexivity.
    + rewrite (Hs eq_refl). cbn [orb] in Hl. subst lookup_wheel_radius.
      destruct (R eq_refl) as (l & -> & ->). reflexivity.
  - apply orb_false_iff in Hl. destruct Hl as [-> ->].
    rewrite (Hs eq_refl), (Hr eq_refl). reflexivity.
Qed.

(** X3. [setOdomParamsFromUrdf] returns true exactly when this holds of the
    values it leaves: a value it was not asked to look up is the one it was
    given, and a value it was asked to look up comes from the model parsed
    from the [robot_description] string of the root namespace, the
    separation as the distance between the origins of the left and the
    right wheel joint, the radius as that of the cylinder which is the
    collision geometry of the child link of the left wheel joint.  Nothing
    else is asked of the model: the link of the right wheel is never
    consulted. *)
Theorem setOdomParamsFromUrdf_found (root_nh : NodeHandle)
  (left_wheel_name right_wheel_name : string) (lookup_wheel_separation lookup_wheel_radius : bool)
  (ws wr ws' wr' : float) :
  setOdomParamsFromUrdf root_nh left_wheel_name right_wheel_name
    lookup_wheel_separation lookup_wheel_radius ws wr = Ok (true, ws', wr') <->
  (lookup_wheel_separation = false -> ws' = ws) /\
  (lookup_wheel_radius = false -> wr' = wr) /\
  ((lookup_wheel_separation || lookup_wheel_radius)%bool = true ->
   exists robot_model_str model,
     getParam_string root_nh "robot_description" = Some robot_model_str /\
     parseURDF robot_model_str = Some model /\
     (lookup_wheel_separation = true ->
      exists l r,
        getJoint model left_wheel_name = Some l /\
        getJoint model right_wheel_name = Some r /\
        ws' = euclideanOfVectors (parent_to_joint_origin_position l)
                                 (parent_to_joint_origin_position r)) /\
     (lookup_wheel_radius = true ->
      exists l link c len,
        getJoint model left_wheel_name = Some l /\
        getLink model (child_link_name l) = Some link /\
        collision link = Some c /\
        geometry c = Some (CYLINDER wr' len))).
Proof.
  split.
  - apply urdf_lookup_found.
  - intros (Hs & Hr & Hm). apply urdf_lookup_sufficient; assumption.
Qed.

(** X4. When [setOdomParamsFromUrdf] returns false it was asked to look up
    something, the radius is the one it was given, and the separation is the
    one it was given unless both were looked up and the radius alone was not
    found: the separation has then already been replaced by the distance
    between the two joints. *)
Theorem setOdomParamsFromUrdf_not_found (root_nh : NodeHandle)
  (left_wheel_name right_wheel_name : string) (lookup_wheel_separation lookup_wheel_radius : bool)
  (ws wr ws' wr' : float) :
  setOdomParamsFromUrdf root_nh left_wheel_name right_wheel_name
    lookup_wheel_separation lookup_wheel_radius ws wr = Ok (false, ws', wr') ->
  (lookup_wheel_separation || lookup_wheel_radius)%bool = true /\
  wr' = wr /\
  (ws' = ws \/
   lookup_wheel_separation = true /\ lookup_wheel_radius = true /\
   exists robot_model_str model l r,
     getParam_string root_nh "robot_description" = Some robot_model_str /\
     parseURDF robot_model_str = Some model /\
     getJoint model left_wheel_name = Some l /\
     getJoint model right_wheel_name = Some r /\
     isCylinder (getLink model (child_link_name l)) = false /\
     ws' = euclideanOfVectors (parent_to_joint_origin_position l)
                              (parent_to_joint_origin_position r)).
Proof.
  unfold setOdomParamsFromUrdf.
  destruct lookup_wheel_separation, lookup_wheel_radius; cbn [orb negb];
    try discriminate.
  - destruct (getParam_string root_nh "robot_description") as [str | ] eqn:Hs;
      [ | intros [= <- <-]; auto].
    destruct (parseURDF str) as [model | ] eqn:Hm; [ | discriminate].
    destruct (getJoint model left_wheel_name) as [l | ] eqn:Hjl; [ | intros [= <- <-]; auto].
    destruct (getJoint model right_wheel_name) as [r | ] eqn:Hjr; [ | intros [= <- <-]; auto].
    destruct (getWheelRadius (getLink model (child_link_name l))) as [[rad | ] | ] eqn:E;
      cbn [bind]; try discriminate.
    intros [= <- <-]. apply (proj2 (wheel_radius_cases _)) in E.
    destruct E as (link & Hl & Hc).
    repeat split. right. repeat split.
    exists str, model, l, r. repeat split; assumption.
  - destruct (getParam_string root_nh "robot_description") as [str | ] eqn:Hs;
      [ | intros [= <- <-]; auto].
    destruct (parseURDF str) as [model | ] eqn:Hm; [ | discriminate].
    destruct (getJoint model left_wheel_name) as [l | ] eqn:Hjl; [ | intros [= <- <-]; auto].
    destruct (getJoint model right_wheel_name) as [r | ] eqn:Hjr; [ | intros [= <- <-]; auto].
    discriminate.
  - destruct (getParam_string root_nh "robot_description") as [str | ] eqn:Hs;
      [ | intros [= <- <-]; auto].
    destruct (parseURDF str) as [model | ] eqn:Hm; [ | discriminate].
    destruct (getJoint model left_wheel_name) as [l | ] eqn:Hjl; [ | discriminate].
    destruct (getWheelRadius (getLink model (child_link_name l))) as [[rad | ] | ] eqn:E;
      cbn [bind]; try discriminate.
    intros [= <- <-]. auto.
Qed.

End UrdfLookup.

(** The rear axle of the example model: the joints are 0.5 apart and the left
    wheel link is a cylinder of radius 0.1.  From the rear left wheel to the
    front right one the lookup succeeds as well, although the link of the
    front right wheel is a box. *)
Lemma setOdomParamsFromUrdf_found_witness :
  (@setOdomParamsFromUrdf Examples.env_with_model Examples.described_nh
     "rl_wheel" "rr_wheel" true true 0 0 = Ok (true, 0.5, 0.1) /\
   exists l link c len,
     getJoint Examples.robot_model "rl_wheel" = Some l /\
     getLink Examples.robot_model (child_link_name l) = Some link /\
     collision link = Some c /\
     geometry c = Some (CYLINDER 0.1 len)) /\
  (@setOdomParamsFromUrdf Examples.env_with_model Examples.described_nh
     "rl_wheel" "fr_wheel" true true 0 0 = Ok (true, 1.1180339887498949, 0.1) /\
   isCylinder (getLink Examples.robot_model "fr_wheel_link") = false).
Proof.
  split.
  - assert (H : @setOdomParamsFromUrdf Examples.env_with_model Examples.described_nh
                  "rl_wheel" "rr_wheel" true true 0 0 = Ok (true, 0.5, 0.1))
      by (vm_compute; reflexivity).
    split; [exact H | ].
    destruct (proj1 (@setOdomParamsFromUrdf_found Examples.env_with_model
                       _ _ _ _ _ _ _ _ _) H) as (_ & _ & Hm).
    destruct (Hm eq_refl) as (str & model & Hs & Hp & _ & Hr).
    assert (model = Examples.robot_model).
    { injection Hs as <-. injection Hp as <-. reflexivity. }
    subst model. exact (Hr eq_refl).
  - split; [ | reflexivity].
    apply (proj2 (@setOdomParamsFromUrdf_found Examples.env_with_model
                    Examples.described_nh "rl_wheel" "fr_wheel" true true 0 0
                    1.1180339887498949 0.1)).
    split; [discriminate | split; [discriminate | ] ].
    intros _. exists "<robot/>"%string, Examples.robot_model.
    split; [reflexivity | split; [reflexivity | split; intros _] ].
    + eexists _, _. split; [reflexivity | split; [reflexivity | ] ].
      vm_compute. reflexivity.
    + eexists _, _, _, _. repeat split.
Defined.

(** The front axle of the example model: the joints are 0.5 apart but the
    wheel links are boxes, so the call fails after it has replaced the
    separation. *)
Lemma setOdomParamsFromUrdf_not_found_witness :
  @setOdomParamsFromUrdf Examples.env_with_model Examples.described_nh
    "fl_wheel" "fr_wheel" true true 0 0.3 = Ok (false, 0.5, 0.3) /\
  exists l,
    getJoint Examples.robot_model "fl_wheel" = Some l /\
    isCylinder (getLink Examples.robot_model (child_link_name l)) = false.
Proof.
  assert (H : @setOdomParamsFromUrdf Examples.env_with_model Examples.described_nh
                "fl_wheel" "fr_wheel" true true 0 0.3 = Ok (false, 0.5, 0.3))
    by (vm_compute; reflexivity).
  split; [exact H | ].
  destruct (@setOdomParamsFromUrdf_not_found Examples.env_with_model
              _ _ _ _ _ _ _ _ _ H) as (_ & _ & [Hsame | Hreplaced]).
  - apply (f_equal (fun v => v <? 0.25)) in Hsame. vm_compute in Hsame. discriminate.
  - destruct Hreplaced as (_ & _ & str & model & l & r & Hs & Hp & Hl & _ & Hc & _).
    assert (model = Examples.robot_model).
    { injection Hs as <-. injection Hp as <-. reflexivity. }
    subst model. exists l. split; assumption.
Defined.

(** ** The messages prepared by [setOdomPubFields] *)

Lemma covariance_diagonal_reads (controller_nh : NodeHandle) (key : string)
  (d : list float) :
  param_value controller_nh key = Some (TypeArray (map TypeDouble d)) ->
  List.length d = 6%nat ->
  covariance_diagonal controller_nh key = Ok d.
Proof.
  intros Hp Hd. unfold covariance_diagonal. rewrite Hp, length_map, Hd.
  do 7 (destruct d as [|? d]; try discriminate). reflexivity.
Qed.

Lemma diagonal_matrix_entries (d : list float) (i j : nat) :
  (i < 6)%nat -> (j < 6)%nat ->
  nth (6 * i + j) (diagonal_matrix d) 0 = if Nat.eqb i j then nth i d 0 else 0.
Proof.
  intros Hi Hj.
  do 6 (destruct i as [|i]; [do 6 (destruct j as [|j]; [reflexivity | ]); lia | ]).
  lia.
Qed.

(** X5. With the two covariance parameters given as lists of six doubles,
    [setOdomPubFields] builds the odometry publisher on [controller_nh] with
    topic [odom] and the tf publisher on [root_nh] with topic [/tf].  The
    odometry message has frame [odom] and child frame [base_frame_id_], and
    its two covariances are 6x6 matrices, row by row, with the six doubles
    on the diagonal and zero elsewhere; the tf message holds one transform
    between the same two frames. *)
Theorem setOdomPubFields_messages (root_nh controller_nh : NodeHandle)
  (base_frame_id_ : string) (pose twist : list float) :
  param_value controller_nh "pose_covariance_diagonal" =
    Some (TypeArray (map TypeDouble pose)) ->
  param_value controller_nh "twist_covariance_diagonal" =
    Some (TypeArray (map TypeDouble twist)) ->
  List.length pose = 6%nat ->
  List.length twist = 6%nat ->
  exists odom frame,
    setOdomPubFields root_nh controller_nh base_frame_id_ =
      Ok ({| node_ := controller_nh; topic_ := "odom"; msg_ := odom |},
          {| node_ := root_nh; topic_ := "/tf"; msg_ := {| transforms := [frame] |} |}) /\
    header_frame_id odom = "odom"%string /\
    child_frame_id odom = base_frame_id_ /\
    position_z odom = 0 /\
    List.length (pose_covariance odom) = 36%nat /\
    List.length (twist_covariance odom) = 36%nat /\
    (forall i j, (i < 6)%nat -> (j < 6)%nat ->
       nth (6 * i + j) (pose_covariance odom) 0 = (if Nat.eqb i j then nth i pose 0 else 0) /\
       nth (6 * i + j) (twist_covariance odom) 0 =
         (if Nat.eqb i j then nth i twist 0 else 0)) /\
    tf_frame_id frame = "odom"%string /\
    tf_child_frame_id frame = base_frame_id_ /\
    translation_z frame = 0.
Proof.
  intros Hp Ht Lp Lt. unfold setOdomPubFields.
  rewrite (covariance_diagonal_reads _ _ pose Hp Lp).
  rewrite (covariance_diagonal_reads _ _ twist Ht Lt).
  cbn [bind]. eexists _, _. split; [reflexivity | ].
  cbn [header_frame_id child_frame_id position_z pose_covariance twist_covariance
       tf_frame_id tf_child_frame_id translation_z].
  repeat split.
  - apply diagonal_matrix_entries; assumption.
  - apply diagonal_matrix_entries; assumption.
Qed.

(** The covariances of the ackermann example. *)
Lemma setOdomPubFields_messages_witness :
  exists odom frame,
    setOdomPubFields Examples.root_nh Examples.ackermann_nh "base_link" =
      Ok ({| node_ := Examples.ackermann_nh; topic_ := "odom"; msg_ := odom |},
          {| node_ := Examples.root_nh; topic_ := "/tf";
             msg_ := {| transforms := [frame] |} |}) /\
    nth 0 (pose_covariance odom) 0 = 0.001 /\
    nth 1 (pose_covariance odom) 0 = 0 /\
    nth 35 (twist_covariance odom) 0 = 1000.0 /\
    child_frame_id odom = "base_link"%string /\
    tf_child_frame_id frame = "base_link"%string.
Proof.
  destruct (setOdomPubFields_messages Examples.root_nh Examples.ackermann_nh "base_link"
              [0.001; 0.001; 1000000.0; 1000000.0; 1000000.0; 1000.0]
              [0.001; 0.001; 1000000.0; 1000000.0; 1000000.0; 1000.0]
              eq_refl eq_refl eq_refl eq_refl)
    as (odom & frame & H & _ & Hc & _ & _ & _ & Hcov & _ & Hf & _).
  exists odom, frame. split; [exact H | ].
  split; [exact (proj1 (Hcov 0 0 ltac:(lia) ltac:(lia)))%nat | ].
  split; [exact (proj1 (Hcov 0 1 ltac:(lia) ltac:(lia)))%nat | ].
  split; [exact (proj2 (Hcov 5 5 ltac:(lia) ltac:(lia)))%nat | ].
  split; assumption.
Defined.

(** ** The name of the controller *)

Lemma no_slash_cons (c : ascii) (s : string) :
  existsb (Ascii.eqb "/"%char) (list_ascii_of_string (String c s)) =
  (Ascii.eqb c "/"%char || existsb (Ascii.eqb "/"%char) (list_ascii_of_string s))%bool.
Proof.
  cbn [list_ascii_of_string existsb]. rewrite (Ascii.eqb_sym "/"%char c). reflexivity.
Qed.

(** X6. The name [init] keeps of the controller is the part of the namespace
    after its last slash: it holds no slash, and the namespace is either this
    name (it then holds no slash) or a prefix, a slash and this name. *)
Theorem name_is_last_segment (complete_ns : string) :
  let name := after_last_slash complete_ns in
  existsb (Ascii.eqb "/"%char) (list_ascii_of_string name) = false /\
  (complete_ns = name \/
   exists prefix, complete_ns = (prefix ++ String "/"%char name)%string).
Proof.
  cbv zeta. induction complete_ns as [|c s [IH1 IH2]]; [split; auto | ].
  cbn [after_last_slash].
  destruct (existsb (Ascii.eqb "/"%char) (list_ascii_of_string s)) eqn:E.
  - split; [exact IH1 | ]. right.
    destruct IH2 as [IH2 | (prefix & IH2)].
    + rewrite <- IH2 in IH1. congruence.
    + exists (String c prefix). cbn. rewrite <- IH2. reflexivity.
  - destruct (Ascii.eqb c "/"%char) eqn:Ec.
    + split; [exact E | ]. right. exists EmptyString.
      apply Ascii.eqb_eq in Ec. subst c. reflexivity.
    + split; [ | left; reflexivity].
      rewrite no_slash_cons, Ec, E. reflexivity.
Qed.

(** ** The joint handles taken by [init] *)

Lemma assign_spec (k : nat) (x : JointHandle) (v : list JointHandle) :
  (k < List.length v)%nat ->
  assign k x v = firstn k v ++ x :: skipn (S k) v.
Proof.
  revert k. induction v as [|y v IH]; intros k Hk; [cbn in Hk; lia | ].
  destruct k as [|k]; [reflexivity | ].
  cbn [assign firstn skipn app]. cbn in Hk. rewrite (IH k) by lia. reflexivity.
Qed.

Lemma assign_length (k : nat) (x : JointHandle) (v : list JointHandle) :
  List.length (assign k x v) = List.length v.
Proof.
  revert k. induction v as [|y v IH]; intros k; [destruct k; reflexivity | ].
  destruct k as [|k]; [reflexivity | ]. cbn. rewrite IH. reflexivity.
Qed.

Lemma assign_firstn (k : nat) (x : JointHandle) (v : list JointHandle) :
  (k < List.length v)%nat ->
  firstn (S k) (assign k x v) = firstn k v ++ [x].
Proof.
  intros Hk. rewrite assign_spec by exact Hk.
  rewrite firstn_app, length_firstn, Nat.min_l by lia.
  replace (S k - k)%nat with 1%nat by lia.
  rewrite firstn_all2 by (rewrite length_firstn; lia). reflexivity.
Qed.

Lemma assign_skipn (k m : nat) (x : JointHandle) (v : list JointHandle) :
  (k < List.length v)%nat ->
  skipn (S k + m) (assign k x v) = skipn (S k + m) v.
Proof.
  intros Hk. rewrite assign_spec by exact Hk.
  rewrite skipn_app, length_firstn, Nat.min_l by lia.
  rewrite (skipn_all2 (firstn k v)) by (rewrite length_firstn; lia).
  replace (S k + m - k)%nat with (S m) by lia.
  change (skipn (S m) (x :: skipn (S k) v)) with (skipn m (skipn (S k) v)).
  cbn [app]. rewrite skipn_skipn. f_equal. lia.
Qed.

Lemma getHandles_steps (i : Interface) (left_names right_names : list string) (m : nat) :
  forall (k : nat) (hw : HardwareInterface) (left_joints right_joints : list JointHandle),
    (k + m <= List.length left_joints)%nat ->
    (k + m <= List.length right_joints)%nat ->
    getHandles i hw left_names right_names (seq k m) left_joints right_joints =
    if forallb (fun k => existsb (String.eqb (nth k left_names EmptyString)) (registered hw) &&
                       existsb (String.eqb (nth k right_names EmptyString)) (registered hw))
               (seq k m)
    then Ok (firstn k left_joints ++
               map (fun j => {| iface := i; joint_name := nth j left_names EmptyString |})
                   (seq k m) ++
               skipn (k + m) left_joints,
             firstn k right_joints ++
               map (fun j => {| iface := i; joint_name := nth j right_names EmptyString |})
                   (seq k m) ++
               skipn (k + m) right_joints,
             {| registered := registered hw;
                claims := claims hw ++
                          flat_map (fun j => [nth j left_names EmptyString;
                                              nth j right_names EmptyString])
                                   (seq k m) |})
    else Abort.
Proof.
  induction m as [|m IH]; intros k hw lj rj Hl Hr.
  - cbn. rewrite Nat.add_0_r, !firstn_skipn, app_nil_r. destruct hw; reflexivity.
  - cbn [seq getHandles forallb].
    unfold getHandle at 1.
    destruct (existsb (String.eqb (nth k left_names EmptyString)) (registered hw)) eqn:El;
      [ | reflexivity].
    cbn [bind snd fst]. unfold getHandle at 1. cbn [registered].
    destruct (existsb (String.eqb (nth k right_names EmptyString)) (registered hw)) eqn:Er;
      [ | reflexivity].
    cbn [bind snd fst andb].
    rewrite IH by (rewrite assign_length; lia).
    cbn [registered claims].
    destruct (forallb _ (seq (S k) m)); [ | reflexivity].
    rewrite !assign_firstn, !assign_skipn by lia.
    cbn [map flat_map]. rewrite <- !app_assoc. cbn [app].
    replace (k + S m)%nat with (S k + m)%nat by lia.
    reflexivity.
Qed.

Lemma all_registered_names (hw : HardwareInterface) (left_names right_names : list string) :
  List.length left_names = List.length right_names ->
  forallb (fun k => existsb (String.eqb (nth k left_names EmptyString)) (registered hw) &&
                    existsb (String.eqb (nth k right_names EmptyString)) (registered hw))
          (seq 0 (List.length left_names)) =
  forallb (fun n => existsb (String.eqb n) (registered hw)) (left_names ++ right_names).
Proof.
  intros Hlen. apply eq_true_iff_eq.
  rewrite !forallb_forall. split.
  - intros H n Hn. apply in_app_or in Hn. destruct Hn as [Hn | Hn];
      apply (In_nth _ _ EmptyString) in Hn; destruct Hn as (k & Hk & <-).
    + specialize (H k). rewrite in_seq in H.
      apply andb_true_iff in H; [apply H | lia].
    + specialize (H k). rewrite in_seq in H.
      apply andb_true_iff in H; [apply H | lia].
  - intros H k Hk. apply in_seq in Hk. apply andb_true_iff. split; apply H, in_or_app.
    + left. apply nth_In. lia.
    + right. apply nth_In. lia.
Qed.

Lemma handles_of_names (i : Interface) (names : list string) :
  map (fun j => {| iface := i; joint_name := nth j names EmptyString |})
      (seq 0 (List.length names)) =
  map (fun n => {| iface := i; joint_name := n |}) names.
Proof.
  induction names as [|a names IH]; [reflexivity | ].
  cbn [List.length seq map nth]. f_equal.
  rewrite <- seq_shift, map_map. exact IH.
Qed.

Lemma claimed_names (left_names right_names : list string) (n : string) :
  List.length left_names = List.length right_names ->
  In n (flat_map (fun j => [nth j left_names EmptyString; nth j right_names EmptyString])
                 (seq 0 (List.length left_names))) <->
  In n left_names \/ In n right_names.
Proof.
  intros Hlen. rewrite in_flat_map. split.
  - intros (k & Hk & Hn). apply in_seq in Hk.
    destruct Hn as [<- | [<- | [] ] ]; [left | right]; apply nth_In; lia.
  - intros [Hn | Hn]; apply (In_nth _ _ EmptyString) in Hn; destruct Hn as (k & Hk & <-);
      exists k; (split; [apply in_seq; lia | cbn; auto]).
Qed.

(** X7. The loop of [init] that takes the handles of the left and the right
    joints, run over two lists of names of the same length and two vectors
    resized to that length, returns exactly when every name is registered on
    the interface, and throws otherwise.  When it returns, the two vectors
    hold, in order, one handle of that interface for each name, the joints
    registered on the interface are unchanged, and the resources claimed on
    it are those claimed before and the names of the two lists. *)
Theorem getHandles_takes_every_name (i : Interface) (hw : HardwareInterface)
  (left_names right_names : list string) (left_joints right_joints : list JointHandle) :
  List.length right_names = List.length left_names ->
  List.length left_joints = List.length left_names ->
  List.length right_joints = List.length left_names ->
  let r := getHandles i hw left_names right_names (seq 0 (List.length left_names))
                      left_joints right_joints in
  if forallb (fun n => existsb (String.eqb n) (registered hw)) (left_names ++ right_names)
  then exists hw',
         r = Ok (map (fun n => {| iface := i; joint_name := n |}) left_names,
                 map (fun n => {| iface := i; joint_name := n |}) right_names, hw') /\
         registered hw' = registered hw /\
         forall n, In n (claims hw') <->
                   In n (claims hw) \/ In n left_names \/ In n right_names
  else r = Abort.
Proof.
  intros Hr Hlj Hrj r. subst r.
  rewrite getHandles_steps by (cbn; lia).
  rewrite all_registered_names by (symmetry; exact Hr).
  destruct (forallb _ (left_names ++ right_names)); [ | reflexivity].
  exists {| registered := registered hw;
            claims := claims hw ++
                      flat_map (fun j => [nth j left_names EmptyString;
                                          nth j right_names EmptyString])
                               (seq 0 (List.length left_names)) |}.
  split; [ | split; [reflexivity | ] ].
  - cbn [firstn app Nat.add].
    rewrite !skipn_all2, !app_nil_r by lia.
    rewrite (handles_of_names i left_names).
    rewrite <- (handles_of_names i right_names), Hr. reflexivity.
  - intros n. cbn [claims]. rewrite in_app_iff.
    rewrite claimed_names by (symmetry; exact Hr). reflexivity.
Qed.

(** Two wheel pairs on the example hardware, and a pair one name of which is
    not registered. *)
Lemma getHandles_takes_every_name_witness :
  (exists hw',
     getHandles VelocityJointInterface Examples.hardware
                ["fl_wheel"; "rl_wheel"]%string ["fr_wheel"; "rr_wheel"]%string
                (seq 0 2) [null_handle; null_handle] [null_handle; null_handle] =
     Ok ([ {| iface := VelocityJointInterface; joint_name := "fl_wheel" |};
           {| iface := VelocityJointInterface; joint_name := "rl_wheel" |} ],
         [ {| iface := VelocityJointInterface; joint_name := "fr_wheel" |};
           {| iface := VelocityJointInterface; joint_name := "rr_wheel" |} ], hw') /\
     forall n, In n (claims hw') <->
               In n [] \/ In n ["fl_wheel"; "rl_wheel"]%string \/
               In n ["fr_wheel"; "rr_wheel"]%string) /\
  getHandles VelocityJointInterface Examples.hardware
             ["fl_wheel"]%string ["spare_wheel"]%string
             (seq 0 1) [null_handle] [null_handle] = Abort.
Proof.
  split.
  - destruct (getHandles_takes_every_name VelocityJointInterface Examples.hardware
                ["fl_wheel"; "rl_wheel"]%string ["fr_wheel"; "rr_wheel"]%string
                [null_handle; null_handle] [null_handle; null_handle]
                eq_refl eq_refl eq_refl) as (hw' & H & _ & Hc).
    exists hw'. split; [exact H | exact Hc].
  - exact (getHandles_takes_every_name VelocityJointInterface Examples.hardware
             ["fl_wheel"]%string ["spare_wheel"]%string [null_handle] [null_handle]
             eq_refl eq_refl eq_refl).
Defined.

Lemma registered_names (hw : HardwareInterface) (names : list string) :
  forallb (fun n => existsb (String.eqb n) (registered hw)) names = true <->
  forall n, In n names -> In n (registered hw).
Proof.
  rewrite forallb_forall. split; intros H n Hn; specialize (H n Hn).
  - apply existsb_exists in H. destruct H as (r & Hr & E).
    apply String.eqb_eq in E. subst r. exact Hr.
  - apply existsb_exists. exists n. split; [exact H | apply String.eqb_refl].
Qed.

(** The loop over two lists of names of the same length, when it returns. *)
Lemma getHandles_returns (i : Interface) (hw hw' : HardwareInterface)
  (left_names right_names : list string)
  (left_joints right_joints left_joints' right_joints' : list JointHandle) :
  List.length right_names = List.length left_names ->
  List.length left_joints = List.length left_names ->
  List.length right_joints = List.length left_names ->
  getHandles i hw left_names right_names (seq 0 (List.length left_names))
             left_joints right_joints = Ok (left_joints', right_joints', hw') ->
  left_joints' = map (fun n => {| iface := i; joint_name := n |}) left_names /\
  right_joints' = map (fun n => {| iface := i; joint_name := n |}) right_names /\
  registered hw' = registered hw /\
  (forall n, In n (left_names ++ right_names) -> In n (registered hw)) /\
  (forall n, In n (claims hw') <-> In n (claims hw) \/ In n (left_names ++ right_names)).
Proof.
  intros Hr Hlj Hrj. rewrite getHandles_steps by (cbn; lia).
  rewrite all_registered_names by (symmetry; exact Hr).
  destruct (forallb _ (left_names ++ right_names)) eqn:E; [ | discriminate].
  cbn [firstn app Nat.add]. rewrite !skipn_all2, !app_nil_r by lia.
  rewrite (handles_of_names i left_names).
  rewrite <- Hr at 1. rewrite (handles_of_names i right_names).
  intros [= <- <- <-]. cbn [registered claims].
  split; [reflexivity | ]. split; [reflexivity | ]. split; [reflexivity | ]. split.
  - apply registered_names. exact E.
  - intros n. rewrite in_app_iff, claimed_names by (symmetry; exact Hr).
    rewrite in_app_iff. tauto.
Qed.

Lemma resize_length (n : nat) (v : list JointHandle) : List.length (resize n v) = n.
Proof.
  unfold resize. rewrite length_app, length_firstn, repeat_length. lia.
Qed.

Lemma getWheelNames_not_empty (controller_nh : NodeHandle) (wheel_param : string)
  (names : list string) :
  getWheelNames controller_nh wheel_param = Some names -> (0 < List.length names)%nat.
Proof.
  unfold getWheelNames.
  destruct (param_value controller_nh wheel_param) as [[ | | | | s | [|v l] | ] | ];
    try discriminate.
  - intros [= <-]. cbn. lia.
  - destruct (forallb _ _); [ | discriminate]. intros [= <-]. cbn. lia.
Qed.

(** The body of [init], evaluated down to the calls it makes. *)
Ltac evaluate_init H :=
  cbv beta iota zeta delta
      -[getWheelNames setOdomParamsFromUrdf setOdomPubFields getHandles resize
        param param_int getParam_double getParam_bool getParam_string load_limits
        Duration_fromSec setVelocityRollingWindowSize after_last_slash getNamespace
        nth seq List.length Nat.eqb negb
        PrimFloat.mul PrimFloat.div PrimFloat.opp] in H.

Section AckermannInit.

Import Ackermann.

Context {O : Type} {odometry : OdometryOps O} {env : Env}.
Variable setWheelParams : O -> float -> float -> O.

(** A successful [init], call by call, and the controller it leaves. *)
Lemma ackermann_init_returns
  (hw_vel hw_vel' : HardwareInterface) (root_nh controller_nh : NodeHandle)
  (c c' : AckermannController O) :
  init setWheelParams hw_vel root_nh controller_nh c = Ok (true, c', hw_vel') ->
  exists lw rw ls rs window sep rad pubs lwj rwj hw1 lsj rsj,
    getWheelNames controller_nh "left_wheel" = Some lw /\
    getWheelNames controller_nh "right_wheel" = Some rw /\
    getWheelNames controller_nh "left_steering" = Some ls /\
    getWheelNames controller_nh "right_steering" = Some rs /\
    List.length rw = List.length lw /\
    List.length rs = List.length ls /\
    param_int controller_nh "velocity_rolling_window_size" 10%Z = Ok window /\
    setOdomParamsFromUrdf root_nh (nth 0 lw EmptyString) (nth 0 rw EmptyString)
      match getParam_double controller_nh "wheel_separation" with
      | Some _ => false
      | None => true
      end
      match getParam_double controller_nh "wheel_radius" with
      | Some _ => false
      | None => true
      end
      (param getParam_double controller_nh "wheel_separation" (wheel_separation_ c))
      (param getParam_double controller_nh "wheel_radius" (wheel_radius_ c)) =
      Ok (true, sep, rad) /\
    setOdomPubFields root_nh controller_nh
      (param getParam_string controller_nh "base_frame_id" (base_frame_id_ c)) = Ok pubs /\
    getHandles VelocityJointInterface hw_vel lw rw (seq 0 (List.length lw))
      (resize (List.length lw) (left_wheel_joints_ c))
      (resize (List.length lw) (right_wheel_joints_ c)) = Ok (lwj, rwj, hw1) /\
    getHandles VelocityJointInterface hw1 ls rs (seq 0 (List.length ls))
      (resize (List.length ls) (left_steering_joints_ c))
      (resize (List.length ls) (right_steering_joints_ c)) = Ok (lsj, rsj, hw_vel') /\
    c' =
    {| state_ := state_ c;
       name_ := after_last_slash (getNamespace controller_nh);
       open_loop_ := param getParam_bool controller_nh "open_loop" (open_loop_ c);
       left_wheel_joints_ := lwj;
       right_wheel_joints_ := rwj;
       left_steering_joints_ := lsj;
       right_steering_joints_ := rsj;
       command_ := command_ c;
       command_struct_ := command_struct_ c;
       sub_command_ := Some "cmd_vel"%string;
       odom_pub_ := msg_ (fst pubs);
       tf_odom_pub_ := msg_ (snd pubs);
       odom_pub_topic_ := Some (node_ (fst pubs), topic_ (fst pubs));
       tf_odom_pub_topic_ := Some (node_ (snd pubs), topic_ (snd pubs));
       odometry_ :=
         setWheelParams
           (setVelocityRollingWindowSize (odometry_ c) window)
           (param getParam_double controller_nh "wheel_separation_multiplier"
                  (wheel_separation_multiplier_ c) * sep)
           (param getParam_double controller_nh "wheel_radius_multiplier"
                  (wheel_radius_multiplier_ c) * rad);
       wheel_separation_ := sep;
       wheel_radius_ := rad;
       wheel_separation_multiplier_ :=
         param getParam_double controller_nh "wheel_separation_multiplier"
               (wheel_separation_multiplier_ c);
       wheel_radius_multiplier_ :=
         param getParam_double controller_nh "wheel_radius_multiplier"
               (wheel_radius_multiplier_ c);
       cmd_vel_timeout_ :=
         param getParam_double controller_nh "cmd_vel_timeout" (cmd_vel_timeout_ c);
       base_frame_id_ :=
         param getParam_string controller_nh "base_frame_id" (base_frame_id_ c);
       enable_odom_tf_ :=
         param getParam_bool controller_nh "enable_odom_tf" (enable_odom_tf_ c);
       wheel_joints_size_ := List.length lw;
       steering_joints_size_ := List.length ls;
       last1_cmd_ := last1_cmd_ c;
       last0_cmd_ := last0_cmd_ c;
       limiter_lin_ := load_limits controller_nh "linear/x/" (limiter_lin_ c);
       limiter_ang_ := load_limits controller_nh "angular/z/" (limiter_ang_ c);
       publish_period_ :=
         Duration_fromSec (1.0 / param getParam_double controller_nh "publish_rate" 50.0);
       last_state_publish_time_ := last_state_publish_time_ c |}.
Proof.
  intros H. destruct c.
  evaluate_init H.
  destruct (getWheelNames controller_nh "left_wheel") as [lw | ]; [ | discriminate].
  destruct (getWheelNames controller_nh "right_wheel") as [rw | ]; [ | discriminate].
  destruct (Nat.eqb (List.length lw) (List.length rw)) eqn:Ew; [ | discriminate].
  cbn [negb] in H.
  destruct (getWheelNames controller_nh "left_steering") as [ls | ]; [ | discriminate].
  destruct (getWheelNames controller_nh "right_steering") as [rs | ]; [ | discriminate].
  destruct (Nat.eqb (List.length ls) (List.length rs)) eqn:Es; [ | discriminate].
  cbn [negb] in H.
  destruct (param_int _ _ _) as [window | ] eqn:Ei; [ | discriminate].
  destruct (setOdomParamsFromUrdf _ _ _ _ _ _ _) as [[[found sep] rad] | ] eqn:Eg;
    [ | discriminate].
  destruct found; cbn [negb] in H; [ | discriminate].
  destruct (setOdomPubFields _ _ _) as [pubs | ] eqn:Ep; [ | discriminate].
  destruct (getHandles _ _ _ _ _ _ _) as [[[lwj rwj] hw1] | ] eqn:Ehw in H; [ | discriminate].
  destruct (getHandles _ _ _ _ _ _ _) as [[[lsj rsj] hw2] | ] eqn:Ehs in H; [ | discriminate].
  injection H as <- <-.
  apply Nat.eqb_eq in Ew, Es.
  exists lw, rw, ls, rs, window, sep, rad, pubs, lwj, rwj, hw1, lsj, rsj.
  cbn [wheel_separation_ wheel_radius_ base_frame_id_ left_wheel_joints_ right_wheel_joints_
       left_steering_joints_ right_steering_joints_].
  repeat (split; [first [reflexivity | assumption | symmetry; assumption] | ]).
  reflexivity.
Qed.

(** X8. A successful [init] of the ackermann controller read four lists of
    names, none empty, the left as long as the right, and left the four joint
    vectors holding one handle for each name, in order.  All of them are
    handles of the velocity interface, the steering ones included: every name
    is registered on that interface, whose claims have grown by exactly these
    names and whose registered joints are unchanged. *)
Theorem ackermann_init_takes_velocity_handles
  (hw_vel hw_vel' : HardwareInterface) (root_nh controller_nh : NodeHandle)
  (c c' : AckermannController O) :
  init setWheelParams hw_vel root_nh controller_nh c = Ok (true, c', hw_vel') ->
  exists lw rw ls rs,
    getWheelNames controller_nh "left_wheel" = Some lw /\
    getWheelNames controller_nh "right_wheel" = Some rw /\
    getWheelNames controller_nh "left_steering" = Some ls /\
    getWheelNames controller_nh "right_steering" = Some rs /\
    left_wheel_joints_ c' =
      map (fun n => {| iface := VelocityJointInterface; joint_name := n |}) lw /\
    right_wheel_joints_ c' =
      map (fun n => {| iface := VelocityJointInterface; joint_name := n |}) rw /\
    left_steering_joints_ c' =
      map (fun n => {| iface := VelocityJointInterface; joint_name := n |}) ls /\
    right_steering_joints_ c' =
      map (fun n => {| iface := VelocityJointInterface; joint_name := n |}) rs /\
    wheel_joints_size_ c' = List.length lw /\
    List.length rw = List.length lw /\
    (0 < List.length lw)%nat /\
    steering_joints_size_ c' = List.length ls /\
    List.length rs = List.length ls /\
    (0 < List.length ls)%nat /\
    registered hw_vel' = registered hw_vel /\
    (forall n, In n (lw ++ rw ++ ls ++ rs) -> In n (registered hw_vel)) /\
    (forall n, In n (claims hw_vel') <->
               In n (claims hw_vel) \/ In n (lw ++ rw ++ ls ++ rs)).
Proof.
  intros H. apply ackermann_init_returns in H.
  destruct H as (lw & rw & ls & rs & window & sep & rad & pubs & lwj & rwj & hw1 & lsj & rsj &
                 Hlw & Hrw & Hls & Hrs & Lw & Ls & _ & _ & _ & Hw & Hs & ->).
  apply getHandles_returns in Hw; try (rewrite ?resize_length; auto).
  apply getHandles_returns in Hs; try (rewrite ?resize_length; auto).
  destruct Hw as (-> & -> & Rw & Iw & Cw). destruct Hs as (-> & -> & Rs & Is & Cs).
  exists lw, rw, ls, rs.
  cbn [left_wheel_joints_ right_wheel_joints_ left_steering_joints_ right_steering_joints_
       wheel_joints_size_ steering_joints_size_].
  repeat (split; [first [reflexivity | assumption
                        | eapply getWheelNames_not_empty; eassumption] | ]).
  split; [congruence | ]. split.
  - intros n Hn. rewrite app_assoc in Hn. apply in_app_or in Hn.
    destruct Hn as [Hn | Hn]; [apply Iw, Hn | rewrite <- Rw; apply Is, Hn].
  - intros n. rewrite Cs, Cw, app_assoc, (in_app_iff (lw ++ rw)). tauto.
Qed.

End AckermannInit.

(** The ackermann example: one wheel pair and one steering pair, all four
    handles taken from the velocity interface. *)
Lemma ackermann_init_takes_velocity_handles_witness :
  exists c' hw',
    Ackermann.init Examples.setWheelParams2 Examples.hardware Examples.root_nh
                   Examples.ackermann_nh Examples.ackermann_constructed =
      Ok (true, c', hw') /\
    Ackermann.left_wheel_joints_ c' =
      [ {| iface := VelocityJointInterface; joint_name := "rl_wheel" |} ] /\
    Ackermann.right_steering_joints_ c' =
      [ {| iface := VelocityJointInterface; joint_name := "fr_steer" |} ] /\
    forall n, In n (claims hw') <->
              In n (claims Examples.hardware) \/
              In n ["rl_wheel"; "rr_wheel"; "fl_steer"; "fr_steer"]%string.
Proof.
  assert (H : { r | Ackermann.init Examples.setWheelParams2 Examples.hardware
                      Examples.root_nh Examples.ackermann_nh
                      Examples.ackermann_constructed = Ok (true, fst r, snd r) }).
  { eexists (_, _). vm_compute. reflexivity. }
  destruct H as [[c' hw'] H]. cbn [fst snd] in H.
  exists c', hw'. split; [exact H | ].
  destruct (ackermann_init_takes_velocity_handles _ _ _ _ _ _ _ H)
    as (lw & rw & ls & rs & Hlw & Hrw & Hls & Hrs & Jlw & _ & _ & Jrs & _ & _ & _ &
        _ & _ & _ & _ & _ & Hc).
  vm_compute in Hlw, Hrw, Hls, Hrs.
  injection Hlw as <-. injection Hrw as <-. injection Hls as <-. injection Hrs as <-.
  split; [exact Jlw | split; [exact Jrs | exact Hc] ].
Defined.

Section FourWheelSteeringInit.

Import FourWheelSteering.

Context {O : Type} {odometry : OdometryOps O} {env : Env}.
Variable setWheelParams : O -> float -> float -> float -> O.

(** A successful [init], call by call, and the controller it leaves. *)
Lemma four_wheel_steering_init_returns
  (hw_pos hw_vel hw_pos' hw_vel' : HardwareInterface) (root_nh controller_nh : NodeHandle)
  (c c' : FourWheelSteeringController O) :
  init setWheelParams hw_pos hw_vel root_nh controller_nh c =
    Ok (true, c', hw_pos', hw_vel') ->
  exists lw rw ls rs window sep rad pubs lwj rwj lsj rsj,
    getWheelNames controller_nh "left_wheel" = Some lw /\
    getWheelNames controller_nh "right_wheel" = Some rw /\
    getWheelNames controller_nh "left_steering" = Some ls /\
    getWheelNames controller_nh "right_steering" = Some rs /\
    List.length lw = 2%nat /\
    List.length rw = 2%nat /\
    List.length ls = 2%nat /\
    List.length rs = 2%nat /\
    param_int controller_nh "velocity_rolling_window_size" 10%Z = Ok window /\
    setOdomParamsFromUrdf root_nh (nth 0 lw EmptyString) (nth 0 rw EmptyString)
      match getParam_double controller_nh "wheel_separation" with
      | Some _ => false
      | None => true
      end
      match getParam_double controller_nh "wheel_radius" with
      | Some _ => false
      | None => true
      end
      (param getParam_double controller_nh "wheel_separation" (wheel_separation_ c))
      (param getParam_double controller_nh "wheel_radius" (wheel_radius_ c)) =
      Ok (true, sep, rad) /\
    setOdomPubFields root_nh controller_nh
      (param getParam_string controller_nh "base_frame_id" (base_frame_id_ c)) = Ok pubs /\
    getHandles VelocityJointInterface hw_vel lw rw (seq 0 (List.length lw))
      (resize (List.length lw) (left_wheel_joints_ c))
      (resize (List.length lw) (right_wheel_joints_ c)) = Ok (lwj, rwj, hw_vel') /\
    getHandles PositionJointInterface hw_pos ls rs (seq 0 (List.length ls))
      (resize (List.length ls) (left_steering_joints_ c))
      (resize (List.length ls) (right_steering_joints_ c)) = Ok (lsj, rsj, hw_pos') /\
    let twist :=
      param getParam_bool controller_nh "enable_twist_cmd" (enable_twist_cmd_ c) in
    c' =
    {| state_ := state_ c;
       name_ := after_last_slash (getNamespace controller_nh);
       open_loop_ := param getParam_bool controller_nh "open_loop" (open_loop_ c);
       left_wheel_joints_ := lwj;
       right_wheel_joints_ := rwj;
       left_steering_joints_ := lsj;
       right_steering_joints_ := rsj;
       command_ := command_ c;
       command_struct_ := command_struct_ c;
       command_four_wheel_steering_ := command_four_wheel_steering_ c;
       command_struct_four_wheel_steering_ := command_struct_four_wheel_steering_ c;
       sub_command_ := if twist then Some "cmd_vel"%string else sub_command_ c;
       sub_command_four_wheel_steering_ :=
         if twist then sub_command_four_wheel_steering_ c
         else Some "cmd_four_wheel_steering"%string;
       odom_pub_ := msg_ (fst pubs);
       tf_odom_pub_ := msg_ (snd pubs);
       odom_pub_topic_ := Some (node_ (fst pubs), topic_ (fst pubs));
       tf_odom_pub_topic_ := Some (node_ (snd pubs), topic_ (snd pubs));
       odometry_ :=
         setWheelParams
           (setVelocityRollingWindowSize (odometry_ c) window)
           sep rad (param getParam_double controller_nh "wheel_base" (wheel_base_ c));
       wheel_separation_ := sep;
       wheel_radius_ := rad;
       wheel_base_ := param getParam_double controller_nh "wheel_base" (wheel_base_ c);
       cmd_vel_timeout_ :=
         param getParam_double controller_nh "cmd_vel_timeout" (cmd_vel_timeout_ c);
       base_frame_id_ :=
         param getParam_string controller_nh "base_frame_id" (base_frame_id_ c);
       enable_odom_tf_ :=
         param getParam_bool controller_nh "enable_odom_tf" (enable_odom_tf_ c);
       enable_twist_cmd_ := twist;
       wheel_joints_size_ := List.length lw;
       steering_joints_size_ := List.length ls;
       last1_cmd_ := last1_cmd_ c;
       last0_cmd_ := last0_cmd_ c;
       limiter_lin_ := load_limits controller_nh "linear/x/" (limiter_lin_ c);
       limiter_ang_ := load_limits controller_nh "angular/z/" (limiter_ang_ c);
       publish_period_ :=
         Duration_fromSec (1.0 / param getParam_double controller_nh "publish_rate" 50.0);
       last_state_publish_time_ := last_state_publish_time_ c |}.
Proof.
  intros H. destruct c.
  evaluate_init H.
  destruct (getWheelNames controller_nh "left_wheel") as [lw | ]; [ | discriminate].
  destruct (getWheelNames controller_nh "right_wheel") as [rw | ]; [ | discriminate].
  destruct (Nat.eqb (List.length lw) (List.length rw)) eqn:Ew; [ | discriminate].
  cbn [negb] in H.
  destruct (Nat.eqb (List.length lw) 2) eqn:Ew2; [ | discriminate].
  cbn [negb] in H.
  destruct (getWheelNames controller_nh "left_steering") as [ls | ]; [ | discriminate].
  destruct (getWheelNames controller_nh "right_steering") as [rs | ]; [ | discriminate].
  destruct (Nat.eqb (List.length ls) (List.length rs)) eqn:Es; [ | discriminate].
  cbn [negb] in H.
  destruct (Nat.eqb (List.length ls) 2) eqn:Es2; [ | discriminate].
  cbn [negb] in H.
  destruct (param_int _ _ _) as [window | ] eqn:Ei; [ | discriminate].
  destruct (setOdomParamsFromUrdf _ _ _ _ _ _ _) as [[[found sep] rad] | ] eqn:Eg;
    [ | discriminate].
  destruct found; cbn [negb] in H; [ | discriminate].
  destruct (setOdomPubFields _ _ _) as [pubs | ] eqn:Ep; [ | discriminate].
  destruct (getHandles _ _ _ _ _ _ _) as [[[lwj rwj] hw1] | ] eqn:Ehw in H; [ | discriminate].
  destruct (getHandles _ _ _ _ _ _ _) as [[[lsj rsj] hw2] | ] eqn:Ehs in H; [ | discriminate].
  apply Nat.eqb_eq in Ew, Es, Ew2, Es2.
  exists lw, rw, ls, rs, window, sep, rad, pubs, lwj, rwj, lsj, rsj.
  cbn [wheel_separation_ wheel_radius_ base_frame_id_ left_wheel_joints_ right_wheel_joints_
       left_steering_joints_ right_steering_joints_ enable_twist_cmd_].
  destruct (param getParam_bool controller_nh "enable_twist_cmd" enable_twist_cmd_0);
    injection H as <- <- <-;
    repeat (split; [first [reflexivity | assumption | congruence] | ]);
    reflexivity.
Qed.

(** X9. A successful [init] of the four-wheel-steering controller read four
    lists of exactly two names and left the four joint vectors holding one
    handle for each name, in order: the wheel handles are handles of the
    velocity interface, the steering handles of the position interface.
    Every wheel name is registered on the velocity interface and every
    steering name on the position interface; the claims of each interface
    have grown by exactly these names. *)
Theorem four_wheel_steering_init_takes_handles
  (hw_pos hw_vel hw_pos' hw_vel' : HardwareInterface) (root_nh controller_nh : NodeHandle)
  (c c' : FourWheelSteeringController O) :
  init setWheelParams hw_pos hw_vel root_nh controller_nh c =
    Ok (true, c', hw_pos', hw_vel') ->
  exists lw rw ls rs,
    getWheelNames controller_nh "left_wheel" = Some lw /\
    getWheelNames controller_nh "right_wheel" = Some rw /\
    getWheelNames controller_nh "left_steering" = Some ls /\
    getWheelNames controller_nh "right_steering" = Some rs /\
    List.length lw = 2%nat /\ List.length rw = 2%nat /\
    List.length ls = 2%nat /\ List.length rs = 2%nat /\
    left_wheel_joints_ c' =
      map (fun n => {| iface := VelocityJointInterface; joint_name := n |}) lw /\
    right_wheel_joints_ c' =
      map (fun n => {| iface := VelocityJointInterface; joint_name := n |}) rw /\
    left_steering_joints_ c' =
      map (fun n => {| iface := PositionJointInterface; joint_name := n |}) ls /\
    right_steering_joints_ c' =
      map (fun n => {| iface := PositionJointInterface; joint_name := n |}) rs /\
    wheel_joints_size_ c' = 2%nat /\
    steering_joints_size_ c' = 2%nat /\
    registered hw_vel' = registered hw_vel /\
    registered hw_pos' = registered hw_pos /\
    (forall n, In n (lw ++ rw) -> In n (registered hw_vel)) /\
    (forall n, In n (ls ++ rs) -> In n (registered hw_pos)) /\
    (forall n, In n (claims hw_vel') <-> In n (claims hw_vel) \/ In n (lw ++ rw)) /\
    (forall n, In n (claims hw_pos') <-> In n (claims hw_pos) \/ In n (ls ++ rs)).
Proof.
  intros H. apply four_wheel_steering_init_returns in H.
  destruct H as (lw & rw & ls & rs & window & sep & rad & pubs & lwj & rwj & lsj & rsj &
                 Hlw & Hrw & Hls & Hrs & Lw & Rw & Ls & Rs & _ & _ & _ & Hw & Hs & Hc).
  cbv zeta in Hc. subst c'.
  apply getHandles_returns in Hw; try (rewrite ?resize_length; congruence).
  apply getHandles_returns in Hs; try (rewrite ?resize_length; congruence).
  destruct Hw as (-> & -> & Rgw & Iw & Cw). destruct Hs as (-> & -> & Rgs & Is & Cs).
  exists lw, rw, ls, rs.
  cbn [left_wheel_joints_ right_wheel_joints_ left_steering_joints_ right_steering_joints_
       wheel_joints_size_ steering_joints_size_].
  repeat (split; [first [reflexivity | assumption] | ]).
  exact Cs.
Qed.

End FourWheelSteeringInit.

(** The direct-axle example: the wheels on the velocity interface, the
    steering joints on the position interface. *)
Lemma four_wheel_steering_init_takes_handles_witness :
  exists c' hw_pos' hw_vel',
    FourWheelSteering.init Examples.setWheelParams3 Examples.hardware Examples.hardware
      Examples.root_nh (Examples.four_wheel_steering_nh false false)
      Examples.four_wheel_steering_constructed = Ok (true, c', hw_pos', hw_vel') /\
    FourWheelSteering.left_wheel_joints_ c' =
      [ {| iface := VelocityJointInterface; joint_name := "fl_wheel" |};
        {| iface := VelocityJointInterface; joint_name := "rl_wheel" |} ] /\
    FourWheelSteering.left_steering_joints_ c' =
      [ {| iface := PositionJointInterface; joint_name := "fl_steer" |};
        {| iface := PositionJointInterface; joint_name := "rl_steer" |} ] /\
    forall n, In n (claims hw_pos') <->
              In n (claims Examples.hardware) \/
              In n ["fl_steer"; "rl_steer"; "fr_steer"; "rr_steer"]%string.
Proof.
  assert (H : { r | FourWheelSteering.init Examples.setWheelParams3 Examples.hardware
                      Examples.hardware Examples.root_nh
                      (Examples.four_wheel_steering_nh false false)
                      Examples.four_wheel_steering_constructed =
                    Ok (true, fst (fst r), snd (fst r), snd r) }).
  { eexists (_, _, _). vm_compute. reflexivity. }
  destruct H as [[[c' hw_pos'] hw_vel'] H]. cbn [fst snd] in H.
  exists c', hw_pos', hw_vel'. split; [exact H | ].
  destruct (four_wheel_steering_init_takes_handles _ _ _ _ _ _ _ _ _ H)
    as (lw & rw & ls & rs & Hlw & Hrw & Hls & Hrs & _ & _ & _ & _ & Jlw & _ & Jls & _ &
        _ & _ & _ & _ & _ & _ & _ & Hc).
  vm_compute in Hlw, Hrw, Hls, Hrs.
  injection Hlw as <-. injection Hrw as <-. injection Hls as <-. injection Hrs as <-.
  split; [exact Jlw | split; [exact Jls | exact Hc] ].
Defined.

(** ** [initRequest] *)

Section InitRequest.

Context {O : Type} {odometry : OdometryOps O} {env : Env}.

Lemma initRequest_initializes :
  (forall setWheelParams robot_hw robot_hw' root_nh ctrlr_nh claimed claimed'
          (c c' : Ackermann.AckermannController O),
     Ackermann.initRequest setWheelParams robot_hw root_nh ctrlr_nh claimed c =
       Ok (true, c', robot_hw', claimed') ->
     Ackermann.state_ c' = INITIALIZED) /\
  (forall setWheelParams robot_hw robot_hw' root_nh ctrlr_nh claimed claimed'
          (c c' : FourWheelSteering.FourWheelSteeringController O),
     FourWheelSteering.initRequest setWheelParams robot_hw root_nh ctrlr_nh claimed c =
       Ok (true, c', robot_hw', claimed') ->
     FourWheelSteering.state_ c' = INITIALIZED).
Proof.
  split; intros sWP robot_hw robot_hw' root_nh nh claimed claimed' c c'.
  - unfold Ackermann.initRequest.
    destruct (Ackermann.state_ c); try discriminate.
    destruct (pos_joint_hw robot_hw) as [pos | ]; [ | discriminate].
    destruct (vel_joint_hw robot_hw) as [vel | ]; [ | discriminate].
    cbv zeta.
    destruct (Ackermann.init sWP (clearClaims vel) root_nh nh c)
      as [[[initialized c1] vel1] | ]; [ | discriminate].
    cbn [bind]. destruct initialized; cbn [negb]; [ | discriminate].
    intros [= <- _ _]. reflexivity.
  - unfold FourWheelSteering.initRequest.
    destruct (FourWheelSteering.state_ c); try discriminate.
    destruct (pos_joint_hw robot_hw) as [pos | ]; [ | discriminate].
    destruct (vel_joint_hw robot_hw) as [vel | ]; [ | discriminate].
    cbv zeta.
    destruct (FourWheelSteering.init sWP (clearClaims pos) (clearClaims vel) root_nh nh c)
      as [[[[initialized c1] pos1] vel1] | ]; [ | discriminate].
    cbn [bind]. destruct initialized; cbn [negb]; [ | discriminate].
    intros [= <- _ _]. reflexivity.
Qed.

(** X10. A successful [initRequest] started from [CONSTRUCTED] and ends in
    [INITIALIZED]; both interfaces were there and come back with the joints
    they had registered and no claim left.  The claimed resources it returns
    replace whatever the caller passed in: they are exactly the joint names
    read from the four parameters, all listed under the velocity interface,
    with an empty list for the position interface, in the ackermann
    controller, and as one set in the four-wheel-steering controller. *)
Theorem initRequest_claims_the_joints :
  (forall setWheelParams robot_hw robot_hw' root_nh ctrlr_nh claimed claimed'
          (c c' : Ackermann.AckermannController O),
     Ackermann.initRequest setWheelParams robot_hw root_nh ctrlr_nh claimed c =
       Ok (true, c', robot_hw', claimed') ->
     Ackermann.state_ c = CONSTRUCTED /\
     Ackermann.state_ c' = INITIALIZED /\
     exists pos vel lw rw ls rs names,
       pos_joint_hw robot_hw = Some pos /\
       vel_joint_hw robot_hw = Some vel /\
       robot_hw' = {| pos_joint_hw := Some (clearClaims pos);
                      vel_joint_hw := Some (clearClaims vel) |} /\
       getWheelNames ctrlr_nh "left_wheel" = Some lw /\
       getWheelNames ctrlr_nh "right_wheel" = Some rw /\
       getWheelNames ctrlr_nh "left_steering" = Some ls /\
       getWheelNames ctrlr_nh "right_steering" = Some rs /\
       claimed' = [ (PositionJointInterface, []); (VelocityJointInterface, names) ] /\
       forall n, In n names <-> In n (lw ++ rw ++ ls ++ rs)) /\
  (forall setWheelParams robot_hw robot_hw' root_nh ctrlr_nh claimed claimed'
          (c c' : FourWheelSteering.FourWheelSteeringController O),
     FourWheelSteering.initRequest setWheelParams robot_hw root_nh ctrlr_nh claimed c =
       Ok (true, c', robot_hw', claimed') ->
     FourWheelSteering.state_ c = CONSTRUCTED /\
     FourWheelSteering.state_ c' = INITIALIZED /\
     exists pos vel lw rw ls rs,
       pos_joint_hw robot_hw = Some pos /\
       vel_joint_hw robot_hw = Some vel /\
       robot_hw' = {| pos_joint_hw := Some (clearClaims pos);
                      vel_joint_hw := Some (clearClaims vel) |} /\
       getWheelNames ctrlr_nh "left_wheel" = Some lw /\
       getWheelNames ctrlr_nh "right_wheel" = Some rw /\
       getWheelNames ctrlr_nh "left_steering" = Some ls /\
       getWheelNames ctrlr_nh "right_steering" = Some rs /\
       forall n, In n claimed' <-> In n (lw ++ rw ++ ls ++ rs)).
Proof.
  split.
  - intros sWP robot_hw robot_hw' root_nh nh claimed claimed' c c'.
    unfold Ackermann.initRequest.
    destruct (Ackermann.state_ c) eqn:St; try discriminate.
    destruct (pos_joint_hw robot_hw) as [pos | ] eqn:Hpos; [ | discriminate].
    destruct (vel_joint_hw robot_hw) as [vel | ] eqn:Hvel; [ | discriminate].
    cbv zeta.
    destruct (Ackermann.init sWP (clearClaims vel) root_nh nh c)
      as [[[initialized c1] vel1] | ] eqn:E; [ | discriminate].
    cbn [bind]. destruct initialized; cbn [negb]; [ | discriminate].
    intros [= <- <- <-].
    apply ackermann_init_returns in E.
    destruct E as (lw & rw & ls & rs & window & sep & rad & pubs & lwj & rwj & hw1 & lsj & rsj &
                   Hlw & Hrw & Hls & Hrs & Lw & Ls & _ & _ & _ & Hw & Hs & ->).
    apply getHandles_returns in Hw; try (rewrite ?resize_length; auto).
    apply getHandles_returns in Hs; try (rewrite ?resize_length; auto).
    destruct Hw as (_ & _ & Rw & _ & Cw). destruct Hs as (_ & _ & Rs & _ & Cs).
    split; [reflexivity | ]. split; [reflexivity | ].
    exists pos, vel, lw, rw, ls, rs, (claims vel1).
    split; [reflexivity | ]. split; [reflexivity | ]. split.
    { unfold clearClaims. cbn [claims registered]. rewrite Rs, Rw. reflexivity. }
    repeat (split; [first [reflexivity | assumption] | ]).
    intros n. rewrite Cs, Cw, app_assoc, (in_app_iff (lw ++ rw)).
    cbn [clearClaims claims In]. tauto.
  - intros sWP robot_hw robot_hw' root_nh nh claimed claimed' c c'.
    unfold FourWheelSteering.initRequest.
    destruct (FourWheelSteering.state_ c) eqn:St; try discriminate.
    destruct (pos_joint_hw robot_hw) as [pos | ] eqn:Hpos; [ | discriminate].
    destruct (vel_joint_hw robot_hw) as [vel | ] eqn:Hvel; [ | discriminate].
    cbv zeta.
    destruct (FourWheelSteering.init sWP (clearClaims pos) (clearClaims vel) root_nh nh c)
      as [[[[initialized c1] pos1] vel1] | ] eqn:E; [ | discriminate].
    cbn [bind]. destruct initialized; cbn [negb]; [ | discriminate].
    intros [= <- <- <-].
    apply four_wheel_steering_init_returns in E.
    destruct E as (lw & rw & ls & rs & window & sep & rad & pubs & lwj & rwj & lsj & rsj &
                   Hlw & Hrw & Hls & Hrs & Lw & Rw & Ls & Rs & _ & _ & _ & Hw & Hs & Hc).
    cbv zeta in Hc. subst c1.
    apply getHandles_returns in Hw; try (rewrite ?resize_length; congruence).
    apply getHandles_returns in Hs; try (rewrite ?resize_length; congruence).
    destruct Hw as (_ & _ & Rgw & _ & Cw). destruct Hs as (_ & _ & Rgs & _ & Cs).
    split; [reflexivity | ]. split; [reflexivity | ].
    exists pos, vel, lw, rw, ls, rs.
    split; [reflexivity | ]. split; [reflexivity | ]. split.
    { unfold clearClaims. cbn [claims registered]. rewrite Rgs, Rgw. reflexivity. }
    repeat (split; [first [reflexivity | assumption] | ]).
    intros n. rewrite in_app_iff, Cs, Cw, app_assoc, (in_app_iff (lw ++ rw)).
    cbn [clearClaims claims In]. tauto.
Qed.

(** X11. [initRequest] returns false and leaves the controller, the hardware
    and the claimed resources as they were, without clearing a claim, when
    the controller is not in state [CONSTRUCTED] or when one of the two
    interfaces is missing.  Hence a second [initRequest] after a successful
    one is refused and changes nothing. *)
Theorem initRequest_refused :
  (forall setWheelParams robot_hw root_nh ctrlr_nh claimed
          (c : Ackermann.AckermannController O),
     (Ackermann.state_ c <> CONSTRUCTED \/
      pos_joint_hw robot_hw = None \/ vel_joint_hw robot_hw = None ->
      Ackermann.initRequest setWheelParams robot_hw root_nh ctrlr_nh claimed c =
        Ok (false, c, robot_hw, claimed)) /\
     forall c' robot_hw' claimed',
       Ackermann.initRequest setWheelParams robot_hw root_nh ctrlr_nh claimed c =
         Ok (true, c', robot_hw', claimed') ->
       forall root_nh2 ctrlr_nh2,
         Ackermann.initRequest setWheelParams robot_hw' root_nh2 ctrlr_nh2 claimed' c' =
           Ok (false, c', robot_hw', claimed')) /\
  (forall setWheelParams robot_hw root_nh ctrlr_nh claimed
          (c : FourWheelSteering.FourWheelSteeringController O),
     (FourWheelSteering.state_ c <> CONSTRUCTED \/
      pos_joint_hw robot_hw = None \/ vel_joint_hw robot_hw = None ->
      FourWheelSteering.initRequest setWheelParams robot_hw root_nh ctrlr_nh claimed c =
        Ok (false, c, robot_hw, claimed)) /\
     forall c' robot_hw' claimed',
       FourWheelSteering.initRequest setWheelParams robot_hw root_nh ctrlr_nh claimed c =
         Ok (true, c', robot_hw', claimed') ->
       forall root_nh2 ctrlr_nh2,
         FourWheelSteering.initRequest setWheelParams robot_hw' root_nh2 ctrlr_nh2
                                       claimed' c' =
           Ok (false, c', robot_hw', claimed')).
Proof.
  split; intros sWP robot_hw root_nh nh claimed c.
  - assert (R : Ackermann.state_ c <> CONSTRUCTED \/
                pos_joint_hw robot_hw = None \/ vel_joint_hw robot_hw = None ->
                Ackermann.initRequest sWP robot_hw root_nh nh claimed c =
                  Ok (false, c, robot_hw, claimed)).
    { unfold Ackermann.initRequest. intros [H | [H | H] ].
      - destruct (Ackermann.state_ c); [congruence | reflexivity | reflexivity].
      - rewrite H. destruct (Ackermann.state_ c); reflexivity.
      - rewrite H. destruct (Ackermann.state_ c), (pos_joint_hw robot_hw); reflexivity. }
    split; [exact R | ].
    intros c' robot_hw' claimed' H root_nh2 nh2.
    apply (proj1 initRequest_initializes) in H.
    unfold Ackermann.initRequest. rewrite H. reflexivity.
  - assert (R : FourWheelSteering.state_ c <> CONSTRUCTED \/
                pos_joint_hw robot_hw = None \/ vel_joint_hw robot_hw = None ->
                FourWheelSteering.initRequest sWP robot_hw root_nh nh claimed c =
                  Ok (false, c, robot_hw, claimed)).
    { unfold FourWheelSteering.initRequest. intros [H | [H | H] ].
      - destruct (FourWheelSteering.state_ c); [congruence | reflexivity | reflexivity].
      - rewrite H. destruct (FourWheelSteering.state_ c); reflexivity.
      - rewrite H.
        destruct (FourWheelSteering.state_ c), (pos_joint_hw robot_hw); reflexivity. }
    split; [exact R | ].
    intros c' robot_hw' claimed' H root_nh2 nh2.
    apply (proj2 initRequest_initializes) in H.
    unfold FourWheelSteering.initRequest. rewrite H. reflexivity.
Qed.

End InitRequest.

(** The two examples, from the constructor to [INITIALIZED]; the caller's
    list of claimed resources is replaced. *)
Lemma initRequest_claims_the_joints_witness :
  (exists c' robot_hw' names,
     Ackermann.initRequest Examples.setWheelParams2 Examples.robot_hw Examples.root_nh
       Examples.ackermann_nh [(PositionJointInterface, ["stale"%string])]
       Examples.ackermann_constructed =
       Ok (true, c', robot_hw',
           [ (PositionJointInterface, []); (VelocityJointInterface, names) ]) /\
     Ackermann.state_ c' = INITIALIZED /\
     forall n, In n names <->
               In n ["rl_wheel"; "rr_wheel"; "fl_steer"; "fr_steer"]%string) /\
  (exists c' robot_hw' claimed',
     FourWheelSteering.initRequest Examples.setWheelParams3 Examples.robot_hw
       Examples.root_nh (Examples.four_wheel_steering_nh false false) ["stale"%string]
       Examples.four_wheel_steering_constructed = Ok (true, c', robot_hw', claimed') /\
     FourWheelSteering.state_ c' = INITIALIZED /\
     forall n, In n claimed' <->
               In n ["fl_wheel"; "rl_wheel"; "fr_wheel"; "rr_wheel";
                     "fl_steer"; "rl_steer"; "fr_steer"; "rr_steer"]%string).
Proof.
  split.
  - assert (H : { r | Ackermann.initRequest Examples.setWheelParams2 Examples.robot_hw
                        Examples.root_nh Examples.ackermann_nh
                        [(PositionJointInterface, ["stale"%string])]
                        Examples.ackermann_constructed =
                      Ok (true, fst (fst r), snd (fst r), snd r) }).
    { eexists (_, _, _). vm_compute. reflexivity. }
    destruct H as [[[c' robot_hw'] claimed'] H]. cbn [fst snd] in H.
    destruct (proj1 (@initRequest_claims_the_joints _ Examples.estimator Examples.env)
                _ _ _ _ _ _ _ _ _ H)
      as (_ & St & pos & vel & lw & rw & ls & rs & names & _ & _ & _ &
          Hlw & Hrw & Hls & Hrs & Hcl & Hn).
    vm_compute in Hlw, Hrw, Hls, Hrs.
    injection Hlw as <-. injection Hrw as <-. injection Hls as <-. injection Hrs as <-.
    subst claimed'. exists c', robot_hw', names.
    split; [exact H | split; [exact St | exact Hn] ].
  - assert (H : { r | FourWheelSteering.initRequest Examples.setWheelParams3
                        Examples.robot_hw Examples.root_nh
                        (Examples.four_wheel_steering_nh false false) ["stale"%string]
                        Examples.four_wheel_steering_constructed =
                      Ok (true, fst (fst r), snd (fst r), snd r) }).
    { eexists (_, _, _). vm_compute. reflexivity. }
    destruct H as [[[c' robot_hw'] claimed'] H]. cbn [fst snd] in H.
    destruct (proj2 (@initRequest_claims_the_joints _ Examples.estimator Examples.env)
                _ _ _ _ _ _ _ _ _ H)
      as (_ & St & pos & vel & lw & rw & ls & rs & _ & _ & _ &
          Hlw & Hrw & Hls & Hrs & Hn).
    vm_compute in Hlw, Hrw, Hls, Hrs.
    injection Hlw as <-. injection Hrw as <-. injection Hls as <-. injection Hrs as <-.
    exists c', robot_hw', claimed'.
    split; [exact H | split; [exact St | exact Hn] ].
Defined.

(** The running ackermann example refuses [initRequest]; so does the
    direct-axle example asked a second time. *)
Lemma initRequest_refused_witness :
  Ackermann.initRequest Examples.setWheelParams2 Examples.robot_hw Examples.root_nh
    Examples.ackermann_nh [] Examples.ackermann =
    Ok (false, Examples.ackermann, Examples.robot_hw, []) /\
  exists c' robot_hw' claimed',
    FourWheelSteering.initRequest Examples.setWheelParams3 Examples.robot_hw
      Examples.root_nh (Examples.four_wheel_steering_nh false false) []
      Examples.four_wheel_steering_constructed = Ok (true, c', robot_hw', claimed') /\
    FourWheelSteering.initRequest Examples.setWheelParams3 robot_hw'
      Examples.root_nh (Examples.four_wheel_steering_nh false false) claimed' c' =
      Ok (false, c', robot_hw', claimed').
Proof.
  destruct (@initRequest_refused _ Examples.estimator Examples.env) as [HA HF].
  split.
  - refine (proj1 (HA Examples.setWheelParams2 Examples.robot_hw Examples.root_nh
                      Examples.ackermann_nh [] Examples.ackermann) _).
    left. discriminate.
  - assert (H : { r | FourWheelSteering.initRequest Examples.setWheelParams3
                        Examples.robot_hw Examples.root_nh
                        (Examples.four_wheel_steering_nh false false) []
                        Examples.four_wheel_steering_constructed =
                      Ok (true, fst (fst r), snd (fst r), snd r) }).
    { eexists (_, _, _). vm_compute. reflexivity. }
    destruct H as [[[c' robot_hw'] claimed'] H]. cbn [fst snd] in H.
    exists c', robot_hw', claimed'. split; [exact H | ].
    exact (proj2 (HF _ _ _ _ _ _) _ _ _ H _ _).
Defined.

(** ** The configuration read by [init] *)

Ltac evaluate_init_goal :=
  cbv beta iota zeta delta
      -[getWheelNames setOdomParamsFromUrdf setOdomPubFields getHandles resize
        param param_int getParam_double getParam_bool getParam_string load_limits
        Duration_fromSec setVelocityRollingWindowSize after_last_slash getNamespace
        nth seq List.length Nat.eqb negb
        PrimFloat.mul PrimFloat.div PrimFloat.opp].

Section InitConfiguration.

Context {O : Type} {odometry : OdometryOps O} {env : Env}.

(** X12. When [wheel_separation] and [wheel_radius] are both on the parameter
    server of the controller, [init] reads nothing from the root namespace,
    so no [robot_description] is needed and none is parsed: the root node
    handle only becomes the node of the [/tf] publisher.  With any other
    root node handle [init] returns the same value and leaves the same
    hardware and the same controller but for that node; and when it returns
    true the separation and the radius of the controller are the two
    parameters. *)
Theorem init_with_geometry_parameters (controller_nh : NodeHandle) (ws wr : float) :
  getParam_double controller_nh "wheel_separation" = Some ws ->
  getParam_double controller_nh "wheel_radius" = Some wr ->
  (forall setWheelParams hw_vel root_nh root_nh2 (c : Ackermann.AckermannController O),
     Ackermann.init setWheelParams hw_vel root_nh2 controller_nh c =
       match Ackermann.init setWheelParams hw_vel root_nh controller_nh c with
       | Ok (true, c', hw_vel') =>
           Ok (true,
               c' <| Ackermann.tf_odom_pub_topic_ := Some (root_nh2, "/tf"%string) |>,
               hw_vel')
       | returned => returned
       end /\
     forall c' hw_vel',
       Ackermann.init setWheelParams hw_vel root_nh controller_nh c =
         Ok (true, c', hw_vel') ->
       Ackermann.tf_odom_pub_topic_ c' = Some (root_nh, "/tf"%string) /\
       Ackermann.wheel_separation_ c' = ws /\ Ackermann.wheel_radius_ c' = wr) /\
  (forall setWheelParams hw_pos hw_vel root_nh root_nh2
          (c : FourWheelSteering.FourWheelSteeringController O),
     FourWheelSteering.init setWheelParams hw_pos hw_vel root_nh2 controller_nh c =
       match FourWheelSteering.init setWheelParams hw_pos hw_vel root_nh controller_nh c with
       | Ok (true, c', hw_pos', hw_vel') =>
           Ok (true,
               c' <| FourWheelSteering.tf_odom_pub_topic_ := Some (root_nh2, "/tf"%string) |>,
               hw_pos', hw_vel')
       | returned => returned
       end /\
     forall c' hw_pos' hw_vel',
       FourWheelSteering.init setWheelParams hw_pos hw_vel root_nh controller_nh c =
         Ok (true, c', hw_pos', hw_vel') ->
       FourWheelSteering.tf_odom_pub_topic_ c' = Some (root_nh, "/tf"%string) /\
       FourWheelSteering.wheel_separation_ c' = ws /\
       FourWheelSteering.wheel_radius_ c' = wr).
Proof.
  intros Hws Hwr.
  assert (G : forall root_nh l r a b,
             setOdomParamsFromUrdf root_nh l r
               match getParam_double controller_nh "wheel_separation" with
               | Some _ => false
               | None => true
               end
               match getParam_double controller_nh "wheel_radius" with
               | Some _ => false
               | None => true
               end
               (param getParam_double controller_nh "wheel_separation" a)
               (param getParam_double controller_nh "wheel_radius" b) =
             Ok (true, ws, wr)).
  { intros. unfold param. rewrite Hws, Hwr. reflexivity. }
  assert (P : forall frame,
             (forall root, setOdomPubFields root controller_nh frame = Abort) \/
             exists odom tf,
               forall root, setOdomPubFields root controller_nh frame =
                 Ok ({| node_ := controller_nh; topic_ := "odom"; msg_ := odom |},
                     {| node_ := root; topic_ := "/tf"; msg_ := tf |})).
  { intros frame. unfold setOdomPubFields.
    destruct (covariance_diagonal controller_nh "pose_covariance_diagonal");
      [ | left; reflexivity].
    destruct (covariance_diagonal controller_nh "twist_covariance_diagonal");
      [ | left; reflexivity].
    right. eexists _, _. intros root. reflexivity. }
  split.
  - intros sWP hw_vel root_nh root_nh2 c. split.
    + destruct c. evaluate_init_goal.
      destruct (getWheelNames controller_nh "left_wheel") as [lw | ]; [ | reflexivity].
      destruct (getWheelNames controller_nh "right_wheel") as [rw | ]; [ | reflexivity].
      destruct (negb (Nat.eqb (List.length lw) (List.length rw))); [reflexivity | ].
      destruct (getWheelNames controller_nh "left_steering") as [ls | ]; [ | reflexivity].
      destruct (getWheelNames controller_nh "right_steering") as [rs | ]; [ | reflexivity].
      destruct (negb (Nat.eqb (List.length ls) (List.length rs))); [reflexivity | ].
      destruct (param_int _ _ _) as [window | ]; [ | reflexivity].
      rewrite !G. cbn [negb].
      destruct (P (param getParam_string controller_nh "base_frame_id" base_frame_id_))
        as [Hp | (odom & tf & Hp)]; rewrite !Hp; [reflexivity | ].
      destruct (getHandles _ _ _ _ _ _ _) as [[[lwj rwj] hw1] | ]; [ | reflexivity].
      destruct (getHandles _ _ _ _ _ _ _) as [[[lsj rsj] hw2] | ]; reflexivity.
    + intros c' hw_vel' H. apply ackermann_init_returns in H.
      destruct H as (lw & rw & ls & rs & window & sep & rad & pubs & lwj & rwj & hw1 &
                     lsj & rsj & _ & _ & _ & _ & _ & _ & _ & Hg & Hp & _ & _ & ->).
      rewrite G in Hg. injection Hg as <- <-.
      destruct (P (param getParam_string controller_nh "base_frame_id"
                         (Ackermann.base_frame_id_ c))) as [Ha | (odom & tf & Hq)];
        rewrite ?Ha, ?Hq in Hp; [discriminate | ].
      injection Hp as <-. repeat split.
  - intros sWP hw_pos hw_vel root_nh root_nh2 c. split.
    + destruct c. evaluate_init_goal.
      destruct (getWheelNames controller_nh "left_wheel") as [lw | ]; [ | reflexivity].
      destruct (getWheelNames controller_nh "right_wheel") as [rw | ]; [ | reflexivity].
      destruct (negb (Nat.eqb (List.length lw) (List.length rw))); [reflexivity | ].
      destruct (negb (Nat.eqb (List.length lw) 2)); [reflexivity | ].
      destruct (getWheelNames controller_nh "left_steering") as [ls | ]; [ | reflexivity].
      destruct (getWheelNames controller_nh "right_steering") as [rs | ]; [ | reflexivity].
      destruct (negb (Nat.eqb (List.length ls) (List.length rs))); [reflexivity | ].
      destruct (negb (Nat.eqb (List.length ls) 2)); [reflexivity | ].
      destruct (param_int _ _ _) as [window | ]; [ | reflexivity].
      rewrite !G. cbn [negb].
      destruct (P (param getParam_string controller_nh "base_frame_id" base_frame_id_))
        as [Hp | (odom & tf & Hp)]; rewrite !Hp; [reflexivity | ].
      destruct (getHandles _ _ _ _ _ _ _) as [[[lwj rwj] hw1] | ]; [ | reflexivity].
      destruct (getHandles _ _ _ _ _ _ _) as [[[lsj rsj] hw2] | ]; [ | reflexivity].
      destruct (param getParam_bool controller_nh "enable_twist_cmd" enable_twist_cmd_);
        reflexivity.
    + intros c' hw_pos' hw_vel' H. apply four_wheel_steering_init_returns in H.
      destruct H as (lw & rw & ls & rs & window & sep & rad & pubs & lwj & rwj & lsj & rsj &
                     _ & _ & _ & _ & _ & _ & _ & _ & _ & Hg & Hp & _ & _ & Hc).
      cbv zeta in Hc. subst c'.
      rewrite G in Hg. injection Hg as <- <-.
      destruct (P (param getParam_string controller_nh "base_frame_id"
                         (FourWheelSteering.base_frame_id_ c))) as [Ha | (odom & tf & Hq)];
        rewrite ?Ha, ?Hq in Hp; [discriminate | ].
      injection Hp as <-. repeat split.
Qed.

(** X13. After a successful [init] the estimator has been given the geometry
    that [update] computes the wheel velocities with: in the ackermann
    controller the separation and the radius times their multipliers, in the
    four-wheel-steering controller the separation, the radius and the wheel
    base as they are.  The wheel base is the [wheel_base] parameter or, when
    there is none, the value the controller had: it is not looked up in the
    robot description. *)
Theorem init_sets_estimator_geometry :
  (forall setWheelParams hw_vel hw_vel' root_nh controller_nh
          (c c' : Ackermann.AckermannController O),
     Ackermann.init setWheelParams hw_vel root_nh controller_nh c =
       Ok (true, c', hw_vel') ->
     exists o,
       Ackermann.odometry_ c' =
       setWheelParams o
         (Ackermann.wheel_separation_multiplier_ c' * Ackermann.wheel_separation_ c')
         (Ackermann.wheel_radius_multiplier_ c' * Ackermann.wheel_radius_ c')) /\
  (forall setWheelParams hw_pos hw_vel hw_pos' hw_vel' root_nh controller_nh
          (c c' : FourWheelSteering.FourWheelSteeringController O),
     FourWheelSteering.init setWheelParams hw_pos hw_vel root_nh controller_nh c =
       Ok (true, c', hw_pos', hw_vel') ->
     (exists o,
        FourWheelSteering.odometry_ c' =
        setWheelParams o (FourWheelSteering.wheel_separation_ c')
                       (FourWheelSteering.wheel_radius_ c')
                       (FourWheelSteering.wheel_base_ c')) /\
     FourWheelSteering.wheel_base_ c' =
       match getParam_double controller_nh "wheel_base" with
       | Some wb => wb
       | None => FourWheelSteering.wheel_base_ c
       end).
Proof.
  split.
  - intros sWP hw_vel hw_vel' root_nh nh c c' H. apply ackermann_init_returns in H.
    destruct H as (lw & rw & ls & rs & window & sep & rad & pubs & lwj & rwj & hw1 & lsj & rsj &
                   _ & _ & _ & _ & _ & _ & _ & _ & _ & _ & _ & ->).
    eexists. reflexivity.
  - intros sWP hw_pos hw_vel hw_pos' hw_vel' root_nh nh c c' H.
    apply four_wheel_steering_init_returns in H.
    destruct H as (lw & rw & ls & rs & window & sep & rad & pubs & lwj & rwj & lsj & rsj &
                   _ & _ & _ & _ & _ & _ & _ & _ & _ & _ & _ & _ & _ & Hc).
    cbv zeta in Hc. subst c'. split; [eexists; reflexivity | reflexivity].
Qed.

Lemma setOdomPubFields_frames (root_nh controller_nh : NodeHandle) (frame : string)
  (pubs : RealtimePublisher OdometryMsg * RealtimePublisher tfMessage) :
  setOdomPubFields root_nh controller_nh frame = Ok pubs ->
  header_frame_id (msg_ (fst pubs)) = "odom"%string /\
  child_frame_id (msg_ (fst pubs)) = frame /\
  exists t, transforms (msg_ (snd pubs)) = [t] /\
            tf_frame_id t = "odom"%string /\ tf_child_frame_id t = frame.
Proof.
  unfold setOdomPubFields.
  destruct (covariance_diagonal controller_nh "pose_covariance_diagonal");
    [ | discriminate].
  destruct (covariance_diagonal controller_nh "twist_covariance_diagonal");
    [ | discriminate].
  cbn [bind]. intros [= <-]. cbn [fst snd msg_ header_frame_id child_frame_id transforms].
  split; [reflexivity | ]. split; [reflexivity | ].
  eexists. split; [reflexivity | split; reflexivity].
Qed.

(** X14. After a successful [init] the base frame of the controller is the
    [base_frame_id] parameter or, when there is none, the frame the
    controller had ([base_link] from the constructor); the odometry message
    to publish has frame [odom] and this base frame as child frame, and the
    tf message to publish holds exactly one transform, between the same two
    frames. *)
Theorem init_sets_frames :
  (forall setWheelParams hw_vel hw_vel' root_nh controller_nh
          (c c' : Ackermann.AckermannController O),
     Ackermann.init setWheelParams hw_vel root_nh controller_nh c =
       Ok (true, c', hw_vel') ->
     Ackermann.base_frame_id_ c' =
       match getParam_string controller_nh "base_frame_id" with
       | Some frame => frame
       | None => Ackermann.base_frame_id_ c
       end /\
     header_frame_id (Ackermann.odom_pub_ c') = "odom"%string /\
     child_frame_id (Ackermann.odom_pub_ c') = Ackermann.base_frame_id_ c' /\
     exists t, transforms (Ackermann.tf_odom_pub_ c') = [t] /\
               tf_frame_id t = "odom"%string /\
               tf_child_frame_id t = Ackermann.base_frame_id_ c') /\
  (forall setWheelParams hw_pos hw_vel hw_pos' hw_vel' root_nh controller_nh
          (c c' : FourWheelSteering.FourWheelSteeringController O),
     FourWheelSteering.init setWheelParams hw_pos hw_vel root_nh controller_nh c =
       Ok (true, c', hw_pos', hw_vel') ->
     FourWheelSteering.base_frame_id_ c' =
       match getParam_string controller_nh "base_frame_id" with
       | Some frame => frame
       | None => FourWheelSteering.base_frame_id_ c
       end /\
     header_frame_id (FourWheelSteering.odom_pub_ c') = "odom"%string /\
     child_frame_id (FourWheelSteering.odom_pub_ c') = FourWheelSteering.base_frame_id_ c' /\
     exists t, transforms (FourWheelSteering.tf_odom_pub_ c') = [t] /\
               tf_frame_id t = "odom"%string /\
               tf_child_frame_id t = FourWheelSteering.base_frame_id_ c').
Proof.
  split.
  - intros sWP hw_vel hw_vel' root_nh nh c c' H. apply ackermann_init_returns in H.
    destruct H as (lw & rw & ls & rs & window & sep & rad & pubs & lwj & rwj & hw1 & lsj & rsj &
                   _ & _ & _ & _ & _ & _ & _ & _ & Hp & _ & _ & ->).
    apply setOdomPubFields_frames in Hp.
    cbn [Ackermann.base_frame_id_ Ackermann.odom_pub_ Ackermann.tf_odom_pub_].
    split; [reflexivity | exact Hp].
  - intros sWP hw_pos hw_vel hw_pos' hw_vel' root_nh nh c c' H.
    apply four_wheel_steering_init_returns in H.
    destruct H as (lw & rw & ls & rs & window & sep & rad & pubs & lwj & rwj & lsj & rsj &
                   _ & _ & _ & _ & _ & _ & _ & _ & _ & _ & Hp & _ & _ & Hc).
    cbv zeta in Hc. subst c'.
    apply setOdomPubFields_frames in Hp.
    cbn [FourWheelSteering.base_frame_id_ FourWheelSteering.odom_pub_
         FourWheelSteering.tf_odom_pub_].
    split; [reflexivity | exact Hp].
Qed.

End InitConfiguration.

(** The two examples have both parameters and no robot description: with a
    root node handle that holds one, [init] leaves the same controller on
    another [/tf] node. *)
Lemma init_with_geometry_parameters_witness :
  (exists c' hw',
     Ackermann.init Examples.setWheelParams2 Examples.hardware Examples.root_nh
                    Examples.ackermann_nh Examples.ackermann_constructed =
       Ok (true, c', hw') /\
     Ackermann.init Examples.setWheelParams2 Examples.hardware Examples.described_nh
                    Examples.ackermann_nh Examples.ackermann_constructed =
       Ok (true,
           c' <| Ackermann.tf_odom_pub_topic_ :=
                   Some (Examples.described_nh, "/tf"%string) |>,
           hw') /\
     Ackermann.tf_odom_pub_topic_ c' = Some (Examples.root_nh, "/tf"%string) /\
     Ackermann.wheel_separation_ c' = 0.5 /\
     Ackermann.wheel_radius_ c' = 0.1) /\
  (exists c' hw_pos' hw_vel',
     FourWheelSteering.init Examples.setWheelParams3 Examples.hardware Examples.hardware
       Examples.root_nh (Examples.four_wheel_steering_nh true false)
       Examples.four_wheel_steering_constructed = Ok (true, c', hw_pos', hw_vel') /\
     FourWheelSteering.init Examples.setWheelParams3 Examples.hardware Examples.hardware
       Examples.described_nh (Examples.four_wheel_steering_nh true false)
       Examples.four_wheel_steering_constructed =
       Ok (true,
           c' <| FourWheelSteering.tf_odom_pub_topic_ :=
                   Some (Examples.described_nh, "/tf"%string) |>,
           hw_pos', hw_vel') /\
     FourWheelSteering.tf_odom_pub_topic_ c' = Some (Examples.root_nh, "/tf"%string) /\
     FourWheelSteering.wheel_separation_ c' = 0.5 /\
     FourWheelSteering.wheel_radius_ c' = 0.1).
Proof.
  split.
  - assert (H : { r | Ackermann.init Examples.setWheelParams2 Examples.hardware
                        Examples.root_nh Examples.ackermann_nh
                        Examples.ackermann_constructed = Ok (true, fst r, snd r) }).
    { eexists (_, _). vm_compute. reflexivity. }
    destruct H as [[c' hw'] H]. cbn [fst snd] in H.
    destruct (proj1 (@init_with_geometry_parameters _ Examples.estimator Examples.env
                       Examples.ackermann_nh 0.5 0.1 eq_refl eq_refl)
                    Examples.setWheelParams2 Examples.hardware Examples.root_nh
                    Examples.described_nh Examples.ackermann_constructed) as [E G].
    rewrite H in E.
    exists c', hw'. split; [exact H | split; [exact E | exact (G c' hw' H)] ].
  - assert (H : { r | FourWheelSteering.init Examples.setWheelParams3 Examples.hardware
                        Examples.hardware Examples.root_nh
                        (Examples.four_wheel_steering_nh true false)
                        Examples.four_wheel_steering_constructed =
                      Ok (true, fst (fst r), snd (fst r), snd r) }).
    { eexists (_, _, _). vm_compute. reflexivity. }
    destruct H as [[[c' hw_pos'] hw_vel'] H]. cbn [fst snd] in H.
    destruct (proj2 (@init_with_geometry_parameters _ Examples.estimator Examples.env
                       (Examples.four_wheel_steering_nh true false) 0.5 0.1
                       eq_refl eq_refl)
                    Examples.setWheelParams3 Examples.hardware Examples.hardware
                    Examples.root_nh Examples.described_nh
                    Examples.four_wheel_steering_constructed) as [E G].
    rewrite H in E.
    exists c', hw_pos', hw_vel'.
    split; [exact H | split; [exact E | exact (G c' hw_pos' hw_vel' H)] ].
Defined.

(** The geometry handed to the example estimators: (0.5, 0.1) with
    multipliers 1, and (0.5, 0.1, 1.0). *)
Lemma init_sets_estimator_geometry_witness :
  (exists c' hw',
     Ackermann.init Examples.setWheelParams2 Examples.hardware Examples.root_nh
                    Examples.ackermann_nh Examples.ackermann_constructed =
       Ok (true, c', hw') /\
     exists o,
       Ackermann.odometry_ c' =
       Examples.setWheelParams2 o
         (Ackermann.wheel_separation_multiplier_ c' * Ackermann.wheel_separation_ c')
         (Ackermann.wheel_radius_multiplier_ c' * Ackermann.wheel_radius_ c')) /\
  (exists c' hw_pos' hw_vel',
     FourWheelSteering.init Examples.setWheelParams3 Examples.hardware Examples.hardware
       Examples.root_nh (Examples.four_wheel_steering_nh false false)
       Examples.four_wheel_steering_constructed = Ok (true, c', hw_pos', hw_vel') /\
     FourWheelSteering.wheel_base_ c' = 1.0).
Proof.
  split.
  - assert (H : { r | Ackermann.init Examples.setWheelParams2 Examples.hardware
                        Examples.root_nh Examples.ackermann_nh
                        Examples.ackermann_constructed = Ok (true, fst r, snd r) }).
    { eexists (_, _). vm_compute. reflexivity. }
    destruct H as [[c' hw'] H]. cbn [fst snd] in H.
    exists c', hw'. split; [exact H | ].
    exact (proj1 (@init_sets_estimator_geometry _ Examples.estimator Examples.env)
                 _ _ _ _ _ _ _ H).
  - assert (H : { r | FourWheelSteering.init Examples.setWheelParams3 Examples.hardware
                        Examples.hardware Examples.root_nh
                        (Examples.four_wheel_steering_nh false false)
                        Examples.four_wheel_steering_constructed =
                      Ok (true, fst (fst r), snd (fst r), snd r) }).
    { eexists (_, _, _). vm_compute. reflexivity. }
    destruct H as [[[c' hw_pos'] hw_vel'] H]. cbn [fst snd] in H.
    exists c', hw_pos', hw_vel'. split; [exact H | ].
    exact (proj2 (proj2 (@init_sets_estimator_geometry _ Examples.estimator Examples.env)
                        _ _ _ _ _ _ _ _ _ H)).
Defined.

(** The examples give no [base_frame_id]: the frame stays [base_link]. *)
Lemma init_sets_frames_witness :
  (exists c' hw',
     Ackermann.init Examples.setWheelParams2 Examples.hardware Examples.root_nh
                    Examples.ackermann_nh Examples.ackermann_constructed =
       Ok (true, c', hw') /\
     Ackermann.base_frame_id_ c' = "base_link"%string /\
     header_frame_id (Ackermann.odom_pub_ c') = "odom"%string) /\
  (exists c' hw_pos' hw_vel',
     FourWheelSteering.init Examples.setWheelParams3 Examples.hardware Examples.hardware
       Examples.root_nh (Examples.four_wheel_steering_nh false false)
       Examples.four_wheel_steering_constructed = Ok (true, c', hw_pos', hw_vel') /\
     FourWheelSteering.base_frame_id_ c' = "base_link"%string /\
     header_frame_id (FourWheelSteering.odom_pub_ c') = "odom"%string).
Proof.
  split.
  - assert (H : { r | Ackermann.init Examples.setWheelParams2 Examples.hardware
                        Examples.root_nh Examples.ackermann_nh
                        Examples.ackermann_constructed = Ok (true, fst r, snd r) }).
    { eexists (_, _). vm_compute. reflexivity. }
    destruct H as [[c' hw'] H]. cbn [fst snd] in H.
    exists c', hw'. split; [exact H | ].
    destruct (proj1 (@init_sets_frames _ Examples.estimator Examples.env)
                _ _ _ _ _ _ _ H) as (Hb & Hh & _).
    split; [exact Hb | exact Hh].
  - assert (H : { r | FourWheelSteering.init Examples.setWheelParams3 Examples.hardware
                        Examples.hardware Examples.root_nh
                        (Examples.four_wheel_steering_nh false false)
                        Examples.four_wheel_steering_constructed =
                      Ok (true, fst (fst r), snd (fst r), snd r) }).
    { eexists (_, _, _). vm_compute. reflexivity. }
    destruct H as [[[c' hw_pos'] hw_vel'] H]. cbn [fst snd] in H.
    exists c', hw_pos', hw_vel'. split; [exact H | ].
    destruct (proj2 (@init_sets_frames _ Examples.estimator Examples.env)
                _ _ _ _ _ _ _ _ _ H) as (Hb & Hh & _).
    split; [exact Hb | exact Hh].
Defined.

Section InitFrame.

Context {O : Type} {odometry : OdometryOps O} {env : Env}.

(** Case analysis on the calls of an evaluated [init], innermost first. *)
Ltac split_init H :=
  repeat (match type of H with
          | context [match ?x with _ => _ end] =>
              lazymatch x with
              | match _ with _ => _ end => fail
              | _ => destruct x
              end
          end; cbv beta iota in H).

(** X15. Whatever [init] returns, true or false, it has set the name of the
    controller from the namespace and has left alone the state of the
    controller, its command buffers, the two last commands kept for the
    limiters and the time of the last publication. *)
Theorem init_keeps_runtime_state :
  (forall setWheelParams hw_vel hw_vel' root_nh controller_nh returned
          (c c' : Ackermann.AckermannController O),
     Ackermann.init setWheelParams hw_vel root_nh controller_nh c =
       Ok (returned, c', hw_vel') ->
     Ackermann.name_ c' = after_last_slash (getNamespace controller_nh) /\
     Ackermann.state_ c' = Ackermann.state_ c /\
     Ackermann.command_ c' = Ackermann.command_ c /\
     Ackermann.command_struct_ c' = Ackermann.command_struct_ c /\
     Ackermann.last0_cmd_ c' = Ackermann.last0_cmd_ c /\
     Ackermann.last1_cmd_ c' = Ackermann.last1_cmd_ c /\
     Ackermann.last_state_publish_time_ c' = Ackermann.last_state_publish_time_ c) /\
  (forall setWheelParams hw_pos hw_vel hw_pos' hw_vel' root_nh controller_nh returned
          (c c' : FourWheelSteering.FourWheelSteeringController O),
     FourWheelSteering.init setWheelParams hw_pos hw_vel root_nh controller_nh c =
       Ok (returned, c', hw_pos', hw_vel') ->
     FourWheelSteering.name_ c' = after_last_slash (getNamespace controller_nh) /\
     FourWheelSteering.state_ c' = FourWheelSteering.state_ c /\
     FourWheelSteering.command_ c' = FourWheelSteering.command_ c /\
     FourWheelSteering.command_struct_ c' = FourWheelSteering.command_struct_ c /\
     FourWheelSteering.command_four_wheel_steering_ c' =
       FourWheelSteering.command_four_wheel_steering_ c /\
     FourWheelSteering.command_struct_four_wheel_steering_ c' =
       FourWheelSteering.command_struct_four_wheel_steering_ c /\
     FourWheelSteering.last0_cmd_ c' = FourWheelSteering.last0_cmd_ c /\
     FourWheelSteering.last1_cmd_ c' = FourWheelSteering.last1_cmd_ c /\
     FourWheelSteering.last_state_publish_time_ c' =
       FourWheelSteering.last_state_publish_time_ c).
Proof.
  split.
  - intros sWP hw_vel hw_vel' root_nh nh returned c c' H. destruct c.
    evaluate_init H.
    split_init H; try discriminate; injection H as <- <- <-; repeat split.
  - intros sWP hw_pos hw_vel hw_pos' hw_vel' root_nh nh returned c c' H. destruct c.
    evaluate_init H.
    split_init H; try discriminate; injection H as <- <- <- <-; repeat split.
Qed.

(** X16. After a successful [init] each limiter holds, for velocity,
    acceleration and jerk alike, the flag and the maximum of its parameter
    or, without parameter, the ones it had, and as minimum its parameter or,
    without parameter, the negated maximum it now holds: a minimum the
    limiter had before is never kept. *)
Theorem init_loads_limits :
  let loaded (controller_nh : NodeHandle) (axis : string) (l l' : SpeedLimiter) :=
    has_velocity_limits l' =
      param getParam_bool controller_nh (axis ++ "has_velocity_limits")
            (has_velocity_limits l) /\
    has_acceleration_limits l' =
      param getParam_bool controller_nh (axis ++ "has_acceleration_limits")
            (has_acceleration_limits l) /\
    has_jerk_limits l' =
      param getParam_bool controller_nh (axis ++ "has_jerk_limits") (has_jerk_limits l) /\
    max_velocity l' =
      param getParam_double controller_nh (axis ++ "max_velocity") (max_velocity l) /\
    min_velocity l' =
      param getParam_double controller_nh (axis ++ "min_velocity") (- max_velocity l') /\
    max_acceleration l' =
      param getParam_double controller_nh (axis ++ "max_acceleration")
            (max_acceleration l) /\
    min_acceleration l' =
      param getParam_double controller_nh (axis ++ "min_acceleration")
            (- max_acceleration l') /\
    max_jerk l' = param getParam_double controller_nh (axis ++ "max_jerk") (max_jerk l) /\
    min_jerk l' = param getParam_double controller_nh (axis ++ "min_jerk") (- max_jerk l') in
  (forall setWheelParams hw_vel hw_vel' root_nh controller_nh
          (c c' : Ackermann.AckermannController O),
     Ackermann.init setWheelParams hw_vel root_nh controller_nh c =
       Ok (true, c', hw_vel') ->
     loaded controller_nh "linear/x/"%string
            (Ackermann.limiter_lin_ c) (Ackermann.limiter_lin_ c') /\
     loaded controller_nh "angular/z/"%string
            (Ackermann.limiter_ang_ c) (Ackermann.limiter_ang_ c')) /\
  (forall setWheelParams hw_pos hw_vel hw_pos' hw_vel' root_nh controller_nh
          (c c' : FourWheelSteering.FourWheelSteeringController O),
     FourWheelSteering.init setWheelParams hw_pos hw_vel root_nh controller_nh c =
       Ok (true, c', hw_pos', hw_vel') ->
     loaded controller_nh "linear/x/"%string
            (FourWheelSteering.limiter_lin_ c) (FourWheelSteering.limiter_lin_ c') /\
     loaded controller_nh "angular/z/"%string
            (FourWheelSteering.limiter_ang_ c) (FourWheelSteering.limiter_ang_ c')).
Proof.
  intros loaded.
  assert (L : forall nh axis l, loaded nh axis l (load_limits nh axis l)).
  { intros nh axis l. repeat split. }
  split.
  - intros sWP hw_vel hw_vel' root_nh nh c c' H. apply ackermann_init_returns in H.
    destruct H as (lw & rw & ls & rs & window & sep & rad & pubs & lwj & rwj & hw1 & lsj & rsj &
                   _ & _ & _ & _ & _ & _ & _ & _ & _ & _ & _ & ->).
    split; apply L.
  - intros sWP hw_pos hw_vel hw_pos' hw_vel' root_nh nh c c' H.
    apply four_wheel_steering_init_returns in H.
    destruct H as (lw & rw & ls & rs & window & sep & rad & pubs & lwj & rwj & lsj & rsj &
                   _ & _ & _ & _ & _ & _ & _ & _ & _ & _ & _ & _ & _ & Hc).
    cbv zeta in Hc. subst c'. split; apply L.
Qed.

End InitFrame.

(** An [init] that fails on mismatched lists and one that succeeds: the name
    is set, the state is still [CONSTRUCTED]. *)
Lemma init_keeps_runtime_state_witness :
  (exists c',
     Ackermann.init Examples.setWheelParams2 Examples.hardware Examples.root_nh
                    Examples.mismatched_nh Examples.ackermann_constructed =
       Ok (false, c', Examples.hardware) /\
     Ackermann.name_ c' = "ackermann_controller"%string /\
     Ackermann.state_ c' = CONSTRUCTED) /\
  (exists c' hw_pos' hw_vel',
     FourWheelSteering.init Examples.setWheelParams3 Examples.hardware Examples.hardware
       Examples.root_nh (Examples.four_wheel_steering_nh false false)
       Examples.four_wheel_steering_constructed = Ok (true, c', hw_pos', hw_vel') /\
     FourWheelSteering.name_ c' = "four_wheel_steering_controller"%string /\
     FourWheelSteering.state_ c' = CONSTRUCTED).
Proof.
  split.
  - assert (H : { c' | Ackermann.init Examples.setWheelParams2 Examples.hardware
                         Examples.root_nh Examples.mismatched_nh
                         Examples.ackermann_constructed =
                       Ok (false, c', Examples.hardware) }).
    { eexists. vm_compute. reflexivity. }
    destruct H as [c' H]. exists c'. split; [exact H | ].
    destruct (proj1 (@init_keeps_runtime_state _ Examples.estimator Examples.env)
                _ _ _ _ _ _ _ _ H) as (Hn & Hs & _).
    split; [exact Hn | exact Hs].
  - assert (H : { r | FourWheelSteering.init Examples.setWheelParams3 Examples.hardware
                        Examples.hardware Examples.root_nh
                        (Examples.four_wheel_steering_nh false false)
                        Examples.four_wheel_steering_constructed =
                      Ok (true, fst (fst r), snd (fst r), snd r) }).
    { eexists (_, _, _). vm_compute. reflexivity. }
    destruct H as [[[c' hw_pos'] hw_vel'] H]. cbn [fst snd] in H.
    exists c', hw_pos', hw_vel'. split; [exact H | ].
    destruct (proj2 (@init_keeps_runtime_state _ Examples.estimator Examples.env)
                _ _ _ _ _ _ _ _ _ _ H) as (Hn & Hs & _).
    split; [exact Hn | exact Hs].
Defined.

(** The examples give no limit: the maxima stay 0 and the minima are their
    negation. *)
Lemma init_loads_limits_witness :
  exists c' hw',
    Ackermann.init Examples.setWheelParams2 Examples.hardware Examples.root_nh
                   Examples.ackermann_nh Examples.ackermann_constructed =
      Ok (true, c', hw') /\
    max_velocity (Ackermann.limiter_lin_ c') = 0 /\
    min_velocity (Ackermann.limiter_lin_ c') = - max_velocity (Ackermann.limiter_lin_ c').
Proof.
  assert (H : { r | Ackermann.init Examples.setWheelParams2 Examples.hardware
                      Examples.root_nh Examples.ackermann_nh
                      Examples.ackermann_constructed = Ok (true, fst r, snd r) }).
  { eexists (_, _). vm_compute. reflexivity. }
  destruct H as [[c' hw'] H]. cbn [fst snd] in H.
  exists c', hw'. split; [exact H | ].
  destruct (proj1 (@init_loads_limits _ Examples.estimator Examples.env)
              _ _ _ _ _ _ _ H) as ((_ & _ & _ & Hmax & Hmin & _) & _).
  split; [exact Hmax | exact Hmin].
Defined.

Section Geometry.

Context {O : Type} {odometry : OdometryOps O} {env : Env}.

(** X17. After a successful [init] the wheel separation of the controller is
    the [wheel_separation] parameter when there is one and otherwise the
    distance, in the model parsed from [robot_description], between the
    origins of the joints named first in [left_wheel] and in [right_wheel];
    the wheel radius is the [wheel_radius] parameter when there is one and
    otherwise the radius of the cylinder that is the collision geometry of
    the child link of the first left wheel joint. *)
Theorem init_geometry_provenance :
  let provenance (root_nh controller_nh : NodeHandle) (separation radius : float) :=
    exists lw rw,
      getWheelNames controller_nh "left_wheel" = Some lw /\
      getWheelNames controller_nh "right_wheel" = Some rw /\
      match getParam_double controller_nh "wheel_separation" with
      | Some ws => separation = ws
      | None =>
          exists robot_model_str model l r,
            getParam_string root_nh "robot_description" = Some robot_model_str /\
            parseURDF robot_model_str = Some model /\
            getJoint model (nth 0 lw EmptyString) = Some l /\
            getJoint model (nth 0 rw EmptyString) = Some r /\
            separation = euclideanOfVectors (parent_to_joint_origin_position l)
                                            (parent_to_joint_origin_position r)
      end /\
      match getParam_double controller_nh "wheel_radius" with
      | Some wr => radius = wr
      | None =>
          exists robot_model_str model l link c len,
            getParam_string root_nh "robot_description" = Some robot_model_str /\
            parseURDF robot_model_str = Some model /\
            getJoint model (nth 0 lw EmptyString) = Some l /\
            getLink model (child_link_name l) = Some link /\
            collision link = Some c /\
            geometry c = Some (CYLINDER radius len)
      end in
  (forall setWheelParams hw_vel hw_vel' root_nh controller_nh
          (c c' : Ackermann.AckermannController O),
     Ackermann.init setWheelParams hw_vel root_nh controller_nh c =
       Ok (true, c', hw_vel') ->
     provenance root_nh controller_nh
                (Ackermann.wheel_separation_ c') (Ackermann.wheel_radius_ c')) /\
  (forall setWheelParams hw_pos hw_vel hw_pos' hw_vel' root_nh controller_nh
          (c c' : FourWheelSteering.FourWheelSteeringController O),
     FourWheelSteering.init setWheelParams hw_pos hw_vel root_nh controller_nh c =
       Ok (true, c', hw_pos', hw_vel') ->
     provenance root_nh controller_nh
                (FourWheelSteering.wheel_separation_ c')
                (FourWheelSteering.wheel_radius_ c')).
Proof.
  intros provenance.
  assert (P : forall root_nh nh lw rw a b sep rad,
             getWheelNames nh "left_wheel" = Some lw ->
             getWheelNames nh "right_wheel" = Some rw ->
             setOdomParamsFromUrdf root_nh (nth 0 lw EmptyString) (nth 0 rw EmptyString)
               match getParam_double nh "wheel_separation" with
               | Some _ => false
               | None => true
               end
               match getParam_double nh "wheel_radius" with
               | Some _ => false
               | None => true
               end
               (param getParam_double nh "wheel_separation" a)
               (param getParam_double nh "wheel_radius" b) = Ok (true, sep, rad) ->
             provenance root_nh nh sep rad).
  { intros root_nh nh lw rw a b sep rad Hlw Hrw Hg.
    apply urdf_lookup_found in Hg. destruct Hg as (Hs & Hr & Hm).
    exists lw, rw. split; [exact Hlw | split; [exact Hrw | ] ].
    unfold param in *.
    destruct (getParam_double nh "wheel_separation") as [ws | ],
             (getParam_double nh "wheel_radius") as [wr | ]; cbn [orb] in Hm.
    - split; [exact (Hs eq_refl) | exact (Hr eq_refl)].
    - destruct (Hm eq_refl) as (str & model & H1 & H2 & _ & H4).
      split; [exact (Hs eq_refl) | ].
      destruct (H4 eq_refl) as (l & link & c0 & len & ?).
      exists str, model, l, link, c0, len. tauto.
    - destruct (Hm eq_refl) as (str & model & H1 & H2 & H3 & _).
      split; [ | exact (Hr eq_refl)].
      destruct (H3 eq_refl) as (l & r & ?).
      exists str, model, l, r. tauto.
    - destruct (Hm eq_refl) as (str & model & H1 & H2 & H3 & H4).
      split.
      + destruct (H3 eq_refl) as (l & r & ?). exists str, model, l, r. tauto.
      + destruct (H4 eq_refl) as (l & link & c0 & len & ?).
        exists str, model, l, link, c0, len. tauto. }
  split.
  - intros sWP hw_vel hw_vel' root_nh nh c c' H. apply ackermann_init_returns in H.
    destruct H as (lw & rw & ls & rs & window & sep & rad & pubs & lwj & rwj & hw1 & lsj & rsj &
                   Hlw & Hrw & _ & _ & _ & _ & _ & Hg & _ & _ & _ & ->).
    exact (P _ _ _ _ _ _ _ _ Hlw Hrw Hg).
  - intros sWP hw_pos hw_vel hw_pos' hw_vel' root_nh nh c c' H.
    apply four_wheel_steering_init_returns in H.
    destruct H as (lw & rw & ls & rs & window & sep & rad & pubs & lwj & rwj & lsj & rsj &
                   Hlw & Hrw & _ & _ & _ & _ & _ & _ & _ & Hg & _ & _ & _ & Hc).
    cbv zeta in Hc. subst c'.
    exact (P _ _ _ _ _ _ _ _ Hlw Hrw Hg).
Qed.

End Geometry.

(** The ackermann example without the two parameters, on the described
    robot: 0.5 between the rear wheel joints, cylinders of radius 0.1. *)
Lemma init_geometry_provenance_witness :
  exists c' hw',
    @Ackermann.init _ Examples.estimator Examples.env_with_model Examples.setWheelParams2
      Examples.hardware Examples.described_nh Examples.undimensioned_nh
      Examples.ackermann_constructed = Ok (true, c', hw') /\
    Ackermann.wheel_separation_ c' = 0.5 /\
    Ackermann.wheel_radius_ c' = 0.1 /\
    exists l link c len,
      getJoint Examples.robot_model "rl_wheel" = Some l /\
      getLink Examples.robot_model (child_link_name l) = Some link /\
      collision link = Some c /\
      geometry c = Some (CYLINDER (Ackermann.wheel_radius_ c') len).
Proof.
  assert (H : { r | @Ackermann.init _ Examples.estimator Examples.env_with_model
                      Examples.setWheelParams2 Examples.hardware Examples.described_nh
                      Examples.undimensioned_nh Examples.ackermann_constructed =
                    Ok (true, fst r, snd r) /\
                    Ackermann.wheel_separation_ (fst r) = 0.5 /\
                    Ackermann.wheel_radius_ (fst r) = 0.1 }).
  { eexists (_, _). vm_compute. repeat split. }
  destruct H as [[c' hw'] (H & Hs & Hr)]. cbn [fst snd] in H, Hs, Hr.
  exists c', hw'. split; [exact H | split; [exact Hs | split; [exact Hr | ] ] ].
  destruct (proj1 (@init_geometry_provenance _ Examples.estimator Examples.env_with_model)
              _ _ _ _ _ _ _ H) as (lw & rw & Hlw & _ & _ & Hrad).
  vm_compute in Hlw. injection Hlw as <-.
  change (getParam_double Examples.undimensioned_nh "wheel_radius") with (@None float)
    in Hrad.
  destruct Hrad as (str & model & l & link & c & len & Hd & Hp & Hj & Hl & Hc & Hg).
  assert (model = Examples.robot_model).
  { injection Hd as <-. injection Hp as <-. reflexivity. }
  subst model. exists l, link, c, len. repeat split; assumption.
Defined.

(** ** Aborted cycles *)

(** The sensor loop returns early only on a NaN reading of a wheel joint it
    reaches. *)
Lemma read_wheels_aborts (s : Sensors) (L R : list JointHandle) (idx : list nat)
  (acc : WheelSums) :
  read_wheels s L R idx acc = None ->
  exists i, In i idx /\
    (is_nan (getPosition s (nth i L null_handle)) ||
     is_nan (getPosition s (nth i R null_handle)) ||
     is_nan (getVelocity s (nth i L null_handle)) ||
     is_nan (getVelocity s (nth i R null_handle)))%bool = true.
Proof.
  revert acc. induction idx as [|j idx IH]; intros acc; [discriminate | ].
  cbn [read_wheels].
  destruct (is_nan (getPosition s (nth j L null_handle)) ||
            is_nan (getPosition s (nth j R null_handle)))%bool eqn:Ep.
  - intros _. exists j. split; [left; reflexivity | ]. rewrite Ep. reflexivity.
  - destruct (is_nan (getVelocity s (nth j L null_handle)) ||
              is_nan (getVelocity s (nth j R null_handle)))%bool eqn:Ev.
    + intros _. exists j. split; [left; reflexivity | ].
      rewrite <- orb_assoc, Ev. apply orb_true_r.
    + intros H. apply IH in H. destruct H as (i & Hi & Hn).
      exists i. split; [right; exact Hi | exact Hn].
Qed.

Section AbortedCycles.

Context {O : Type} {odometry : OdometryOps O} {env : Env}.

(** X18. [update] returns before doing anything exactly when the controller
    runs closed loop and a position or a velocity read from one of its wheel
    joints, left or right, is NaN; it is never aborted in open loop, nor by
    anything else.  An aborted [update] leaves the controller as it was and
    has no effect. *)
Theorem update_aborts_exactly_on_a_nan_wheel_reading :
  (forall (c : Ackermann.AckermannController O) s lk time period,
     (Ackermann.compute_odometry s time c = None <->
      Ackermann.open_loop_ c = false /\
      exists i, (i < Ackermann.wheel_joints_size_ c)%nat /\
        (is_nan (getPosition s (nth i (Ackermann.left_wheel_joints_ c) null_handle)) ||
         is_nan (getPosition s (nth i (Ackermann.right_wheel_joints_ c) null_handle)) ||
         is_nan (getVelocity s (nth i (Ackermann.left_wheel_joints_ c) null_handle)) ||
         is_nan (getVelocity s (nth i (Ackermann.right_wheel_joints_ c) null_handle)))%bool
        = true) /\
     (Ackermann.compute_odometry s time c = None ->
      Ackermann.update s lk time period c = (c, []))) /\
  (forall (c : FourWheelSteering.FourWheelSteeringController O) s lk time period,
     (FourWheelSteering.compute_odometry s time c = None <->
      FourWheelSteering.open_loop_ c = false /\
      exists i, (i < FourWheelSteering.wheel_joints_size_ c)%nat /\
        (is_nan (getPosition s
                   (nth i (FourWheelSteering.left_wheel_joints_ c) null_handle)) ||
         is_nan (getPosition s
                   (nth i (FourWheelSteering.right_wheel_joints_ c) null_handle)) ||
         is_nan (getVelocity s
                   (nth i (FourWheelSteering.left_wheel_joints_ c) null_handle)) ||
         is_nan (getVelocity s
                   (nth i (FourWheelSteering.right_wheel_joints_ c) null_handle)))%bool
        = true) /\
     (FourWheelSteering.compute_odometry s time c = None ->
      FourWheelSteering.update s lk time period c = (c, []))).
Proof.
  split; intros c s lk time period; (split; [split | ]).
  - unfold Ackermann.compute_odometry.
    destruct (Ackermann.open_loop_ c); [discriminate | ].
    destruct (read_wheels _ _ _ _ _) eqn:E; [discriminate | ].
    intros _. split; [reflexivity | ].
    apply read_wheels_aborts in E. destruct E as (i & Hi & Hn).
    apply in_seq in Hi. exists i. split; [lia | exact Hn].
  - intros (Hl & i & Hi & Hn). unfold Ackermann.compute_odometry. rewrite Hl.
    rewrite (read_wheels_nan s _ _ _ zero_sums i); [reflexivity | | exact Hn].
    apply in_seq. lia.
  - apply ackermann_update_aborted.
  - unfold FourWheelSteering.compute_odometry.
    destruct (FourWheelSteering.open_loop_ c); [discriminate | ].
    destruct (read_wheels _ _ _ _ _) eqn:E.
    + destruct (FourWheelSteering.left_steering_joints_ c),
               (FourWheelSteering.right_steering_joints_ c); discriminate.
    + intros _. split; [reflexivity | ].
      apply read_wheels_aborts in E. destruct E as (i & Hi & Hn).
      apply in_seq in Hi. exists i. split; [lia | exact Hn].
  - intros (Hl & i & Hi & Hn). unfold FourWheelSteering.compute_odometry. rewrite Hl.
    rewrite (read_wheels_nan s _ _ _ zero_sums i); [reflexivity | | exact Hn].
    apply in_seq. lia.
  - apply four_wheel_steering_update_aborted.
Qed.

Lemma ackermann_run_app (before after : list Cycle) (c : Ackermann.AckermannController O) :
  Ackermann.run (before ++ after) c =
  (fst (Ackermann.run after (fst (Ackermann.run before c))),
   snd (Ackermann.run before c) ++ snd (Ackermann.run after (fst (Ackermann.run before c)))).
Proof.
  revert c. induction before as [|k before IH]; intros c.
  - cbn [app Ackermann.run fst snd]. destruct (Ackermann.run after c); reflexivity.
  - cbn [app Ackermann.run fst snd]. rewrite IH. reflexivity.
Qed.

Lemma four_wheel_steering_run_app (before after : list Cycle)
  (c : FourWheelSteering.FourWheelSteeringController O) :
  FourWheelSteering.run (before ++ after) c =
  (fst (FourWheelSteering.run after (fst (FourWheelSteering.run before c))),
   snd (FourWheelSteering.run before c) ++
   snd (FourWheelSteering.run after (fst (FourWheelSteering.run before c)))).
Proof.
  revert c. induction before as [|k before IH]; intros c.
  - cbn [app FourWheelSteering.run fst snd].
    destruct (FourWheelSteering.run after c); reflexivity.
  - cbn [app FourWheelSteering.run fst snd]. rewrite IH. reflexivity.
Qed.

(** X19. A cycle aborted in the middle of a run counts for nothing: the
    controller at the end of the run and the effects of every other cycle
    are those of the run without that cycle, and the aborted cycle itself
    has no effect. *)
Theorem aborted_cycle_is_skipped :
  (forall (c : Ackermann.AckermannController O) before k after,
     Ackermann.compute_odometry (cycle_sensors k) (cycle_time k)
                                (fst (Ackermann.run before c)) = None ->
     fst (Ackermann.run (before ++ k :: after) c) =
       fst (Ackermann.run (before ++ after) c) /\
     snd (Ackermann.run (before ++ k :: after) c) =
       snd (Ackermann.run before c) ++
       [] :: snd (Ackermann.run after (fst (Ackermann.run before c))) /\
     snd (Ackermann.run (before ++ after) c) =
       snd (Ackermann.run before c) ++
       snd (Ackermann.run after (fst (Ackermann.run before c)))) /\
  (forall (c : FourWheelSteering.FourWheelSteeringController O) before k after,
     FourWheelSteering.compute_odometry (cycle_sensors k) (cycle_time k)
                                        (fst (FourWheelSteering.run before c)) = None ->
     fst (FourWheelSteering.run (before ++ k :: after) c) =
       fst (FourWheelSteering.run (before ++ after) c) /\
     snd (FourWheelSteering.run (before ++ k :: after) c) =
       snd (FourWheelSteering.run before c) ++
       [] :: snd (FourWheelSteering.run after (fst (FourWheelSteering.run before c))) /\
     snd (FourWheelSteering.run (before ++ after) c) =
       snd (FourWheelSteering.run before c) ++
       snd (FourWheelSteering.run after (fst (FourWheelSteering.run before c)))).
Proof.
  split; intros c before k after H.
  - rewrite !ackermann_run_app. cbn [Ackermann.run fst snd].
    rewrite (ackermann_update_aborted _ (cycle_locks k) _ (cycle_period k) _ H).
    cbn [fst snd]. repeat split.
  - rewrite !four_wheel_steering_run_app. cbn [FourWheelSteering.run fst snd].
    rewrite (four_wheel_steering_update_aborted _ (cycle_locks k) _ (cycle_period k) _ H).
    cbn [fst snd]. repeat split.
Qed.

End AbortedCycles.

(** The ackermann example with a NaN position on its left wheel is aborted,
    with a NaN position on a steering joint it is not; open loop nothing
    aborts the twist-mode example. *)
Lemma update_aborts_exactly_on_a_nan_wheel_reading_witness :
  Ackermann.update (Examples.nan_position_at "rl_wheel" 0.2) Examples.locks_free
                   1300000000%Z 10000000%Z Examples.ackermann =
    (Examples.ackermann, []) /\
  Ackermann.compute_odometry (Examples.nan_position_at "fl_steer" 0.2) 1300000000%Z
                             Examples.ackermann <> None /\
  FourWheelSteering.compute_odometry (Examples.nan_position_at "rl_wheel" 0.2)
                                     1300000000%Z Examples.twist_mode_open_loop <> None.
Proof.
  destruct (@update_aborts_exactly_on_a_nan_wheel_reading _ Examples.estimator
              Examples.env) as [HA HF].
  split; [ | split].
  - destruct (HA Examples.ackermann (Examples.nan_position_at "rl_wheel" 0.2)
                 Examples.locks_free 1300000000%Z 10000000%Z) as [Hiff Habort].
    apply Habort. apply Hiff. split; [reflexivity | ].
    exists 0%nat. split; [vm_compute; lia | reflexivity].
  - destruct (HA Examples.ackermann (Examples.nan_position_at "fl_steer" 0.2)
                 Examples.locks_free 1300000000%Z 10000000%Z) as [Hiff _].
    intros Hnone. apply Hiff in Hnone. destruct Hnone as (_ & i & Hi & Hn).
    vm_compute in Hi. assert (i = 0%nat) by lia. subst i.
    vm_compute in Hn. discriminate.
  - destruct (HF Examples.twist_mode_open_loop (Examples.nan_position_at "rl_wheel" 0.2)
                 Examples.locks_free 1300000000%Z 10000000%Z) as [Hiff _].
    intros Hnone. apply Hiff in Hnone. destruct Hnone as (Hl & _).
    vm_compute in Hl. discriminate.
Defined.

(** Three cycles of the ackermann example, the second with a NaN wheel
    position: the run ends as the run of the other two. *)
Lemma aborted_cycle_is_skipped_witness :
  let c := Examples.ackermann_commanded 1.0 0.5 in
  let k1 := Examples.cycle_at 1300000000%Z Examples.locks_free in
  let k2 := Examples.nan_cycle_at "rl_wheel" 1310000000%Z Examples.locks_free in
  let k3 := Examples.cycle_at 1320000000%Z Examples.locks_free in
  fst (Ackermann.run [k1; k2; k3] c) = fst (Ackermann.run [k1; k3] c) /\
  nth 1 (snd (Ackermann.run [k1; k2; k3] c)) [] = [].
Proof.
  cbv zeta.
  destruct (proj1 (@aborted_cycle_is_skipped _ Examples.estimator Examples.env)
              (Examples.ackermann_commanded 1.0 0.5)
              [Examples.cycle_at 1300000000%Z Examples.locks_free]
              (Examples.nan_cycle_at "rl_wheel" 1310000000%Z Examples.locks_free)
              [Examples.cycle_at 1320000000%Z Examples.locks_free])
    as (Hfst & Hsnd & _).
  - vm_compute. reflexivity.
  - split; [exact Hfst | ].
    change (snd (Ackermann.run
                   ([Examples.cycle_at 1300000000%Z Examples.locks_free] ++
                    Examples.nan_cycle_at "rl_wheel" 1310000000%Z Examples.locks_free ::
                    [Examples.cycle_at 1320000000%Z Examples.locks_free])
                   (Examples.ackermann_commanded 1.0 0.5)))
      with (snd (Ackermann.run
                   [Examples.cycle_at 1300000000%Z Examples.locks_free;
                    Examples.nan_cycle_at "rl_wheel" 1310000000%Z Examples.locks_free;
                    Examples.cycle_at 1320000000%Z Examples.locks_free]
                   (Examples.ackermann_commanded 1.0 0.5))) in Hsnd.
    rewrite Hsnd. reflexivity.
Defined.

(** ** Open loop *)

Section OpenLoop.

Context {O : Type} {odometry : OdometryOps O} {env : Env}.

(** X20. In open loop the joint sensors are never read: a whole run is what
    it would be with any other readings, NaN included, and none of its
    cycles is aborted. *)
Theorem open_loop_ignores_the_sensors (s0 : Sensors) :
  let with_sensors (k : Cycle) :=
    {| cycle_sensors := s0; cycle_locks := cycle_locks k;
       cycle_time := cycle_time k; cycle_period := cycle_period k |} in
  (forall cycles (c : Ackermann.AckermannController O),
     Ackermann.open_loop_ c = true ->
     Ackermann.run cycles c = Ackermann.run (map with_sensors cycles) c /\
     Ackermann.completes cycles c) /\
  (forall cycles (c : FourWheelSteering.FourWheelSteeringController O),
     FourWheelSteering.open_loop_ c = true ->
     FourWheelSteering.run cycles c = FourWheelSteering.run (map with_sensors cycles) c /\
     FourWheelSteering.completes cycles c).
Proof.
  intros with_sensors. split.
  - induction cycles as [|k cycles IH]; intros c H; [split; [reflexivity | exact I] | ].
    assert (E : forall s, Ackermann.update s (cycle_locks k) (cycle_time k)
                            (cycle_period k) c =
                          Ackermann.update s0 (cycle_locks k) (cycle_time k)
                            (cycle_period k) c).
    { intros s. unfold Ackermann.update, Ackermann.compute_odometry. rewrite H.
      reflexivity. }
    destruct (proj1 update_keeps_configuration c (cycle_sensors k) (cycle_locks k)
                (cycle_time k) (cycle_period k)) as (_ & _ & _ & _ & _ & Hl).
    rewrite H in Hl. destruct (IH _ Hl) as [IH1 IH2].
    cbn [Ackermann.run Ackermann.completes map with_sensors cycle_sensors cycle_locks
         cycle_time cycle_period].
    split; [ | split; [ | exact IH2] ].
    + rewrite <- (E (cycle_sensors k)), IH1. reflexivity.
    + unfold Ackermann.compute_odometry. rewrite H. discriminate.
  - induction cycles as [|k cycles IH]; intros c H; [split; [reflexivity | exact I] | ].
    assert (E : forall s, FourWheelSteering.update s (cycle_locks k) (cycle_time k)
                            (cycle_period k) c =
                          FourWheelSteering.update s0 (cycle_locks k) (cycle_time k)
                            (cycle_period k) c).
    { intros s. unfold FourWheelSteering.update, FourWheelSteering.compute_odometry.
      rewrite H. reflexivity. }
    destruct (proj2 update_keeps_configuration c (cycle_sensors k) (cycle_locks k)
                (cycle_time k) (cycle_period k)) as (_ & _ & _ & _ & _ & Hl).
    rewrite H in Hl. destruct (IH _ Hl) as [IH1 IH2].
    cbn [FourWheelSteering.run FourWheelSteering.completes map with_sensors cycle_sensors
         cycle_locks cycle_time cycle_period].
    split; [ | split; [ | exact IH2] ].
    + rewrite <- (E (cycle_sensors k)), IH1. reflexivity.
    + unfold FourWheelSteering.compute_odometry. rewrite H. discriminate.
Qed.

End OpenLoop.

(** The open-loop example over a cycle whose wheel position reads NaN: the
    run is the one with steady readings. *)
Lemma open_loop_ignores_the_sensors_witness :
  FourWheelSteering.run
    [Examples.nan_cycle_at "rl_wheel" 1300000000%Z Examples.locks_free]
    Examples.twist_mode_open_loop =
  FourWheelSteering.run [Examples.cycle_at 1300000000%Z Examples.locks_free]
                        Examples.twist_mode_open_loop.
Proof.
  exact (proj1 (proj2 (@open_loop_ignores_the_sensors _ Examples.estimator Examples.env
                         (Examples.steady 0.2))
                      [Examples.nan_cycle_at "rl_wheel" 1300000000%Z Examples.locks_free]
                      Examples.twist_mode_open_loop eq_refl)).
Defined.

(** ** What a run never changes *)

Lemma fill_tf_frames (m : tfMessage) (time : Time) (x y : float) (q : Quaternion) :
  map (fun t => (tf_frame_id t, tf_child_frame_id t, translation_z t))
      (transforms (fill_tf m time x y q)) =
  map (fun t => (tf_frame_id t, tf_child_frame_id t, translation_z t)) (transforms m).
Proof.
  unfold fill_tf. destruct (transforms m) eqn:E; [rewrite E | ]; reflexivity.
Qed.

Section Configuration.

Context {O : Type} {odometry : OdometryOps O} {env : Env}.

(** X21. Over any run of [update], aborted cycles or not, the controller
    keeps its state, its name, its mode, its joint handles and their
    numbers, its command buffer and subscription, the node and the topic of
    its publishers, its geometry, its timeout, its limiters, its frames and
    its publication period; in the messages it publishes only the stamp, the
    pose and the velocities ever change, not the frames, the covariances or
    the fields set to zero by [init]. *)
Theorem run_keeps_the_configuration :
  let same_odom (m m' : OdometryMsg) :=
    header_frame_id m' = header_frame_id m /\
    child_frame_id m' = child_frame_id m /\
    position_z m' = position_z m /\
    pose_covariance m' = pose_covariance m /\
    linear_y m' = linear_y m /\
    linear_z m' = linear_z m /\
    angular_x m' = angular_x m /\
    angular_y m' = angular_y m /\
    twist_covariance m' = twist_covariance m in
  let frames (m : tfMessage) :=
    map (fun t => (tf_frame_id t, tf_child_frame_id t, translation_z t)) (transforms m) in
  (forall cycles (c : Ackermann.AckermannController O),
     let c' := fst (Ackermann.run cycles c) in
     Ackermann.state_ c' = Ackermann.state_ c /\
     Ackermann.name_ c' = Ackermann.name_ c /\
     Ackermann.open_loop_ c' = Ackermann.open_loop_ c /\
     Ackermann.left_wheel_joints_ c' = Ackermann.left_wheel_joints_ c /\
     Ackermann.right_wheel_joints_ c' = Ackermann.right_wheel_joints_ c /\
     Ackermann.left_steering_joints_ c' = Ackermann.left_steering_joints_ c /\
     Ackermann.right_steering_joints_ c' = Ackermann.right_steering_joints_ c /\
     Ackermann.wheel_joints_size_ c' = Ackermann.wheel_joints_size_ c /\
     Ackermann.steering_joints_size_ c' = Ackermann.steering_joints_size_ c /\
     Ackermann.command_ c' = Ackermann.command_ c /\
     Ackermann.command_struct_ c' = Ackermann.command_struct_ c /\
     Ackermann.sub_command_ c' = Ackermann.sub_command_ c /\
     Ackermann.odom_pub_topic_ c' = Ackermann.odom_pub_topic_ c /\
     Ackermann.tf_odom_pub_topic_ c' = Ackermann.tf_odom_pub_topic_ c /\
     Ackermann.wheel_separation_ c' = Ackermann.wheel_separation_ c /\
     Ackermann.wheel_radius_ c' = Ackermann.wheel_radius_ c /\
     Ackermann.wheel_separation_multiplier_ c' = Ackermann.wheel_separation_multiplier_ c /\
     Ackermann.wheel_radius_multiplier_ c' = Ackermann.wheel_radius_multiplier_ c /\
     Ackermann.cmd_vel_timeout_ c' = Ackermann.cmd_vel_timeout_ c /\
     Ackermann.base_frame_id_ c' = Ackermann.base_frame_id_ c /\
     Ackermann.enable_odom_tf_ c' = Ackermann.enable_odom_tf_ c /\
     Ackermann.limiter_lin_ c' = Ackermann.limiter_lin_ c /\
     Ackermann.limiter_ang_ c' = Ackermann.limiter_ang_ c /\
     Ackermann.publish_period_ c' = Ackermann.publish_period_ c /\
     same_odom (Ackermann.odom_pub_ c) (Ackermann.odom_pub_ c') /\
     frames (Ackermann.tf_odom_pub_ c') = frames (Ackermann.tf_odom_pub_ c)) /\
  (forall cycles (c : FourWheelSteering.FourWheelSteeringController O),
     let c' := fst (FourWheelSteering.run cycles c) in
     FourWheelSteering.state_ c' = FourWheelSteering.state_ c /\
     FourWheelSteering.name_ c' = FourWheelSteering.name_ c /\
     FourWheelSteering.open_loop_ c' = FourWheelSteering.open_loop_ c /\
     FourWheelSteering.left_wheel_joints_ c' = FourWheelSteering.left_wheel_joints_ c /\
     FourWheelSteering.right_wheel_joints_ c' = FourWheelSteering.right_wheel_joints_ c /\
     FourWheelSteering.left_steering_joints_ c' =
       FourWheelSteering.left_steering_joints_ c /\
     FourWheelSteering.right_steering_joints_ c' =
       FourWheelSteering.right_steering_joints_ c /\
     FourWheelSteering.wheel_joints_size_ c' = FourWheelSteering.wheel_joints_size_ c /\
     FourWheelSteering.steering_joints_size_ c' =
       FourWheelSteering.steering_joints_size_ c /\
     FourWheelSteering.command_ c' = FourWheelSteering.command_ c /\
     FourWheelSteering.command_struct_ c' = FourWheelSteering.command_struct_ c /\
     FourWheelSteering.command_four_wheel_steering_ c' =
       FourWheelSteering.command_four_wheel_steering_ c /\
     FourWheelSteering.command_struct_four_wheel_steering_ c' =
       FourWheelSteering.command_struct_four_wheel_steering_ c /\
     FourWheelSteering.sub_command_ c' = FourWheelSteering.sub_command_ c /\
     FourWheelSteering.sub_command_four_wheel_steering_ c' =
       FourWheelSteering.sub_command_four_wheel_steering_ c /\
     FourWheelSteering.odom_pub_topic_ c' = FourWheelSteering.odom_pub_topic_ c /\
     FourWheelSteering.tf_odom_pub_topic_ c' = FourWheelSteering.tf_odom_pub_topic_ c /\
     FourWheelSteering.wheel_separation_ c' = FourWheelSteering.wheel_separation_ c /\
     FourWheelSteering.wheel_radius_ c' = FourWheelSteering.wheel_radius_ c /\
     FourWheelSteering.wheel_base_ c' = FourWheelSteering.wheel_base_ c /\
     FourWheelSteering.cmd_vel_timeout_ c' = FourWheelSteering.cmd_vel_timeout_ c /\
     FourWheelSteering.base_frame_id_ c' = FourWheelSteering.base_frame_id_ c /\
     FourWheelSteering.enable_odom_tf_ c' = FourWheelSteering.enable_odom_tf_ c /\
     FourWheelSteering.enable_twist_cmd_ c' = FourWheelSteering.enable_twist_cmd_ c /\
     FourWheelSteering.limiter_lin_ c' = FourWheelSteering.limiter_lin_ c /\
     FourWheelSteering.limiter_ang_ c' = FourWheelSteering.limiter_ang_ c /\
     FourWheelSteering.publish_period_ c' = FourWheelSteering.publish_period_ c /\
     same_odom (FourWheelSteering.odom_pub_ c) (FourWheelSteering.odom_pub_ c') /\
     frames (FourWheelSteering.tf_odom_pub_ c') =
       frames (FourWheelSteering.tf_odom_pub_ c)).
Proof.
  intros same_odom frames. split.
  - match goal with
    | |- forall cycles c, let c' := fst (Ackermann.run cycles c) in @?P c c' =>
        pose (same := P)
    end.
    assert (Step : forall c s lk time period,
               same c (fst (Ackermann.update s lk time period c))).
    { intros c s lk time period. unfold same, same_odom, frames.
      destruct (Ackermann.compute_odometry s time c) as [o | ] eqn:Ho.
      - rewrite (ackermann_update_completed s lk time period c o Ho). cbv zeta.
        unfold Ackermann.publish_odometry. cbn -[fill_tf fill_odom].
        split_ifs; repeat split; apply fill_tf_frames.
      - rewrite (ackermann_update_aborted s lk time period c Ho). repeat split. }
    assert (Trans : forall a b c, same a b -> same b c -> same a c).
    { unfold same, same_odom. intros a b c Hab Hbc.
      decompose [and] Hab. decompose [and] Hbc. repeat split; congruence. }
    induction cycles as [|k cycles IH]; intros c.
    + cbn [Ackermann.run fst]. cbv zeta. repeat split.
    + cbn [Ackermann.run fst]. cbv zeta.
      apply (Trans c _ _ (Step c (cycle_sensors k) (cycle_locks k) (cycle_time k)
                                (cycle_period k))).
      apply IH.
  - match goal with
    | |- forall cycles c, let c' := fst (FourWheelSteering.run cycles c) in @?P c c' =>
        pose (same := P)
    end.
    assert (Step : forall c s lk time period,
               same c (fst (FourWheelSteering.update s lk time period c))).
    { intros c s lk time period. unfold same, same_odom, frames.
      destruct (FourWheelSteering.compute_odometry s time c) as [o | ] eqn:Ho.
      - rewrite (four_wheel_steering_update_completed s lk time period c o Ho). cbv zeta.
        unfold FourWheelSteering.publish_odometry. cbn -[fill_tf fill_odom].
        split_ifs; repeat split; apply fill_tf_frames.
      - rewrite (four_wheel_steering_update_aborted s lk time period c Ho).
        repeat split. }
    assert (Trans : forall a b c, same a b -> same b c -> same a c).
    { unfold same, same_odom. intros a b c Hab Hbc.
      decompose [and] Hab. decompose [and] Hbc. repeat split; congruence. }
    induction cycles as [|k cycles IH]; intros c.
    + cbn [FourWheelSteering.run fst]. cbv zeta. repeat split.
    + cbn [FourWheelSteering.run fst]. cbv zeta.
      apply (Trans c _ _ (Step c (cycle_sensors k) (cycle_locks k) (cycle_time k)
                                (cycle_period k))).
      apply IH.
Qed.

End Configuration.

(** ** The messages published *)

Section Publications.

Context {O : Type} {odometry : OdometryOps O} {env : Env}.

Lemma ackermann_wheels_no_tf (c : Ackermann.AckermannController O) (vl vr : float) :
  filter is_PublishTf (Ackermann.set_wheels_velocities c vl vr) = [].
Proof.
  unfold Ackermann.set_wheels_velocities.
  induction (seq 0 (Ackermann.wheel_joints_size_ c)) as [|i l IH]; [reflexivity | exact IH].
Qed.

Lemma four_wheel_steering_commands_publish_nothing
  (c : FourWheelSteering.FourWheelSteeringController O) (a b d e front rear : float) :
  filter is_PublishOdom
    (FourWheelSteering.set_wheels_velocities c a b d e ++
     FourWheelSteering.set_steering_angles c front rear) = [] /\
  filter is_PublishTf
    (FourWheelSteering.set_wheels_velocities c a b d e ++
     FourWheelSteering.set_steering_angles c front rear) = [].
Proof.
  unfold FourWheelSteering.set_wheels_velocities, FourWheelSteering.set_steering_angles.
  split_tests; split; reflexivity.
Qed.

(** X22. When a cycle publishes the odometry (it is not aborted, the
    publication is due and the lock of the publisher is obtained) it
    publishes one message, which the publisher keeps: its stamp is the time
    of the cycle and its pose, heading and velocities are those of the
    estimator as this very cycle has updated it, before the command of the
    cycle is applied. *)
Theorem published_odometry_message :
  (forall (c : Ackermann.AckermannController O) s lk time period o,
     Ackermann.compute_odometry s time c = Some o ->
     (Ackermann.last_state_publish_time_ c + Ackermann.publish_period_ c <? time)%Z = true ->
     odom_trylock lk = true ->
     let u := Ackermann.update s lk time period c in
     Ackermann.odometry_ (fst u) = o /\
     exists m,
       filter is_PublishOdom (snd u) = [PublishOdom m] /\
       Ackermann.odom_pub_ (fst u) = m /\
       header_stamp m = time /\
       position_x m = getX o /\
       position_y m = getY o /\
       orientation m = createQuaternionMsgFromYaw (getHeading o) /\
       linear_x m = getLinear o /\
       angular_z m = getAngular o) /\
  (forall (c : FourWheelSteering.FourWheelSteeringController O) s lk time period o,
     FourWheelSteering.compute_odometry s time c = Some o ->
     (FourWheelSteering.last_state_publish_time_ c + FourWheelSteering.publish_period_ c
        <? time)%Z = true ->
     odom_trylock lk = true ->
     let u := FourWheelSteering.update s lk time period c in
     FourWheelSteering.odometry_ (fst u) = o /\
     exists m,
       filter is_PublishOdom (snd u) = [PublishOdom m] /\
       FourWheelSteering.odom_pub_ (fst u) = m /\
       header_stamp m = time /\
       position_x m = getX o /\
       position_y m = getY o /\
       orientation m = createQuaternionMsgFromYaw (getHeading o) /\
       linear_x m = getLinear o /\
       angular_z m = getAngular o).
Proof.
  split; intros c s lk time period o Ho Hdue Hlock u; subst u.
  - rewrite (ackermann_update_completed s lk time period c o Ho). cbv zeta.
    unfold Ackermann.publish_odometry.
    change (Ackermann.last_state_publish_time_ (c <| Ackermann.odometry_ := o |>))
      with (Ackermann.last_state_publish_time_ c).
    change (Ackermann.publish_period_ (c <| Ackermann.odometry_ := o |>))
      with (Ackermann.publish_period_ c).
    rewrite Hdue, Hlock. cbv beta iota zeta.
    destruct (_ && tf_trylock lk)%bool.
    + split; [reflexivity | ].
      exists (fill_odom (Ackermann.odom_pub_ c) time (getX o) (getY o)
                        (createQuaternionMsgFromYaw (getHeading o))
                        (getLinear o) (getAngular o)).
      split; [ | split; [reflexivity | repeat split] ].
      cbn [fst snd app filter is_PublishOdom].
      rewrite ackermann_wheels_no_publication. reflexivity.
    + split; [reflexivity | ].
      exists (fill_odom (Ackermann.odom_pub_ c) time (getX o) (getY o)
                        (createQuaternionMsgFromYaw (getHeading o))
                        (getLinear o) (getAngular o)).
      split; [ | split; [reflexivity | repeat split] ].
      cbn [fst snd app filter is_PublishOdom].
      rewrite ackermann_wheels_no_publication. reflexivity.
  - rewrite (four_wheel_steering_update_completed s lk time period c o Ho). cbv zeta.
    unfold FourWheelSteering.publish_odometry.
    change (FourWheelSteering.last_state_publish_time_
              (c <| FourWheelSteering.odometry_ := o |>))
      with (FourWheelSteering.last_state_publish_time_ c).
    change (FourWheelSteering.publish_period_ (c <| FourWheelSteering.odometry_ := o |>))
      with (FourWheelSteering.publish_period_ c).
    rewrite Hdue, Hlock. cbv beta iota zeta.
    destruct (_ && tf_trylock lk)%bool.
    + split; [reflexivity | ].
      exists (fill_odom (FourWheelSteering.odom_pub_ c) time (getX o) (getY o)
                        (createQuaternionMsgFromYaw (getHeading o))
                        (getLinear o) (getAngular o)).
      split; [ | split; [reflexivity | repeat split] ].
      cbn [fst snd app filter is_PublishOdom].
      rewrite (proj1 (four_wheel_steering_commands_publish_nothing _ _ _ _ _ _ _)).
      reflexivity.
    + split; [reflexivity | ].
      exists (fill_odom (FourWheelSteering.odom_pub_ c) time (getX o) (getY o)
                        (createQuaternionMsgFromYaw (getHeading o))
                        (getLinear o) (getAngular o)).
      split; [ | split; [reflexivity | repeat split] ].
      cbn [fst snd app filter is_PublishOdom].
      rewrite (proj1 (four_wheel_steering_commands_publish_nothing _ _ _ _ _ _ _)).
      reflexivity.
Qed.

End Publications.

(** The ackermann example, started at 1 s with a period of 20 ms, in a cycle
    at 1.3 s with both locks free. *)
Lemma published_odometry_message_witness :
  exists m,
    filter is_PublishOdom
      (snd (Ackermann.update (Examples.steady 0.2) Examples.locks_free
                             1300000000%Z 10000000%Z Examples.ackermann)) =
      [PublishOdom m] /\
    header_stamp m = 1300000000%Z /\
    linear_x m = 0.2.
Proof.
  assert (Ho : { o | Ackermann.compute_odometry (Examples.steady 0.2) 1300000000%Z
                       Examples.ackermann = Some o }).
  { eexists. vm_compute. reflexivity. }
  destruct Ho as [o Ho].
  destruct (proj1 (@published_odometry_message _ Examples.estimator Examples.env)
              Examples.ackermann (Examples.steady 0.2) Examples.locks_free
              1300000000%Z 10000000%Z o Ho eq_refl eq_refl)
    as (_ & m & Hm & _ & Hs & _ & _ & _ & Hl & _).
  exists m. split; [exact Hm | split; [exact Hs | ] ].
  rewrite Hl. vm_compute in Ho. injection Ho as <-. reflexivity.
Defined.

Section Transforms.

Context {O : Type} {odometry : OdometryOps O} {env : Env}.

Lemma published_tf_app (es1 es2 : list Effect) :
  published_tf (es1 ++ es2) = (published_tf es1 + published_tf es2)%nat.
Proof. unfold published_tf. rewrite filter_app, length_app. reflexivity. Qed.

(** X23. A cycle publishes a transform exactly when it is not aborted, the
    publication is due, [enable_odom_tf_] is set and the lock of the tf
    publisher is obtained, whatever happens to the lock of the odometry
    publisher; it never publishes more than one.  With the one transform
    that [init] prepares, the message published holds that transform with
    the time of the cycle as stamp, the position and heading of the
    estimator as this cycle has updated it, and its frames unchanged. *)
Theorem published_transform :
  (forall (c : Ackermann.AckermannController O) s lk time period,
     let u := Ackermann.update s lk time period c in
     let due :=
       (Ackermann.last_state_publish_time_ c + Ackermann.publish_period_ c <? time)%Z in
     published_tf (snd u) =
       match Ackermann.compute_odometry s time c with
       | None => 0%nat
       | Some _ =>
           if (due && Ackermann.enable_odom_tf_ c && tf_trylock lk)%bool then 1%nat
           else 0%nat
       end /\
     forall o t,
       Ackermann.compute_odometry s time c = Some o ->
       (due && Ackermann.enable_odom_tf_ c && tf_trylock lk)%bool = true ->
       transforms (Ackermann.tf_odom_pub_ c) = [t] ->
       exists t',
         filter is_PublishTf (snd u) = [PublishTf {| transforms := [t'] |}] /\
         Ackermann.tf_odom_pub_ (fst u) = {| transforms := [t'] |} /\
         tf_stamp t' = time /\
         translation_x t' = getX o /\
         translation_y t' = getY o /\
         rotation t' = createQuaternionMsgFromYaw (getHeading o) /\
         tf_frame_id t' = tf_frame_id t /\
         tf_child_frame_id t' = tf_child_frame_id t /\
         translation_z t' = translation_z t) /\
  (forall (c : FourWheelSteering.FourWheelSteeringController O) s lk time period,
     let u := FourWheelSteering.update s lk time period c in
     let due :=
       (FourWheelSteering.last_state_publish_time_ c + FourWheelSteering.publish_period_ c
          <? time)%Z in
     published_tf (snd u) =
       match FourWheelSteering.compute_odometry s time c with
       | None => 0%nat
       | Some _ =>
           if (due && FourWheelSteering.enable_odom_tf_ c && tf_trylock lk)%bool then 1%nat
           else 0%nat
       end /\
     forall o t,
       FourWheelSteering.compute_odometry s time c = Some o ->
       (due && FourWheelSteering.enable_odom_tf_ c && tf_trylock lk)%bool = true ->
       transforms (FourWheelSteering.tf_odom_pub_ c) = [t] ->
       exists t',
         filter is_PublishTf (snd u) = [PublishTf {| transforms := [t'] |}] /\
         FourWheelSteering.tf_odom_pub_ (fst u) = {| transforms := [t'] |} /\
         tf_stamp t' = time /\
         translation_x t' = getX o /\
         translation_y t' = getY o /\
         rotation t' = createQuaternionMsgFromYaw (getHeading o) /\
         tf_frame_id t' = tf_frame_id t /\
         tf_child_frame_id t' = tf_child_frame_id t /\
         translation_z t' = translation_z t).
Proof.
  split; intros c s lk time period u due; subst u due.
  - destruct (Ackermann.compute_odometry s time c) as [o | ] eqn:Ho.
    + rewrite (ackermann_update_completed s lk time period c o Ho). cbv zeta.
      unfold Ackermann.publish_odometry.
      change (Ackermann.last_state_publish_time_ (c <| Ackermann.odometry_ := o |>))
        with (Ackermann.last_state_publish_time_ c).
      change (Ackermann.publish_period_ (c <| Ackermann.odometry_ := o |>))
        with (Ackermann.publish_period_ c).
      destruct (_ <? time)%Z; cbn [andb].
      * destruct (odom_trylock lk); cbv beta iota zeta;
          change (Ackermann.enable_odom_tf_ _) with (Ackermann.enable_odom_tf_ c);
          destruct (Ackermann.enable_odom_tf_ c && tf_trylock lk)%bool eqn:E;
          cbn [fst snd]; (split;
            [ rewrite published_tf_app; unfold published_tf at 2;
              rewrite ackermann_wheels_no_tf; reflexivity
            | intros o' t [= <-] Hd Ht; try discriminate ]).
        -- unfold fill_tf.
           change (transforms (Ackermann.tf_odom_pub_ _))
             with (transforms (Ackermann.tf_odom_pub_ c)).
           rewrite Ht. eexists. split; [ | split; [reflexivity | repeat split] ].
           cbn [app filter is_PublishTf is_PublishOdom].
           rewrite ackermann_wheels_no_tf. reflexivity.
        -- unfold fill_tf.
           change (transforms (Ackermann.tf_odom_pub_ _))
             with (transforms (Ackermann.tf_odom_pub_ c)).
           rewrite Ht. eexists. split; [ | split; [reflexivity | repeat split] ].
           cbn [app filter is_PublishTf is_PublishOdom].
           rewrite ackermann_wheels_no_tf. reflexivity.
      * cbn [fst snd app]. split.
        -- unfold published_tf. rewrite ackermann_wheels_no_tf. reflexivity.
        -- intros o' t _ Hd. discriminate.
    + rewrite (ackermann_update_aborted s lk time period c Ho).
      split; [reflexivity | discriminate].
  - destruct (FourWheelSteering.compute_odometry s time c) as [o | ] eqn:Ho.
    + rewrite (four_wheel_steering_update_completed s lk time period c o Ho). cbv zeta.
      unfold FourWheelSteering.publish_odometry.
      change (FourWheelSteering.last_state_publish_time_
                (c <| FourWheelSteering.odometry_ := o |>))
        with (FourWheelSteering.last_state_publish_time_ c).
      change (FourWheelSteering.publish_period_ (c <| FourWheelSteering.odometry_ := o |>))
        with (FourWheelSteering.publish_period_ c).
      destruct (_ <? time)%Z; cbn [andb].
      * destruct (odom_trylock lk); cbv beta iota zeta;
          change (FourWheelSteering.enable_odom_tf_ _)
            with (FourWheelSteering.enable_odom_tf_ c);
          destruct (FourWheelSteering.enable_odom_tf_ c && tf_trylock lk)%bool eqn:E;
          cbn [fst snd]; (split;
            [ rewrite published_tf_app; unfold published_tf at 2;
              rewrite (proj2 (four_wheel_steering_commands_publish_nothing _ _ _ _ _ _ _));
              reflexivity
            | intros o' t [= <-] Hd Ht; try discriminate ]).
        -- unfold fill_tf.
           change (transforms (FourWheelSteering.tf_odom_pub_ _))
             with (transforms (FourWheelSteering.tf_odom_pub_ c)).
           rewrite Ht. eexists. split; [ | split; [reflexivity | repeat split] ].
           cbn [app filter is_PublishTf is_PublishOdom].
           rewrite (proj2 (four_wheel_steering_commands_publish_nothing _ _ _ _ _ _ _)).
           reflexivity.
        -- unfold fill_tf.
           change (transforms (FourWheelSteering.tf_odom_pub_ _))
             with (transforms (FourWheelSteering.tf_odom_pub_ c)).
           rewrite Ht. eexists. split; [ | split; [reflexivity | repeat split] ].
           cbn [app filter is_PublishTf is_PublishOdom].
           rewrite (proj2 (four_wheel_steering_commands_publish_nothing _ _ _ _ _ _ _)).
           reflexivity.
      * cbn [fst snd app]. split.
        -- unfold published_tf.
           rewrite (proj2 (four_wheel_steering_commands_publish_nothing _ _ _ _ _ _ _)).
           reflexivity.
        -- intros o' t _ Hd. discriminate.
    + rewrite (four_wheel_steering_update_aborted s lk time period c Ho).
      split; [reflexivity | discriminate].
Qed.

End Transforms.

(** The ackermann example in a cycle at 1.3 s publishes one transform with
    the locks free and none with the locks busy; the transform of the
    four-wheel-steering example carries the time of the cycle and the base
    frame. *)
Lemma published_transform_witness :
  published_tf
    (snd (Ackermann.update (Examples.steady 0.2) Examples.locks_free
                           1300000000%Z 10000000%Z Examples.ackermann)) = 1%nat /\
  published_tf
    (snd (Ackermann.update (Examples.steady 0.2) Examples.locks_busy
                           1300000000%Z 10000000%Z Examples.ackermann)) = 0%nat /\
  exists t',
    filter is_PublishTf
      (snd (FourWheelSteering.update (Examples.steady 0.2) Examples.locks_free
                                     1300000000%Z 10000000%Z Examples.direct_axle)) =
      [PublishTf {| transforms := [t'] |}] /\
    tf_stamp t' = 1300000000%Z /\
    tf_child_frame_id t' = "base_link"%string.
Proof.
  destruct (@published_transform _ Examples.estimator Examples.env) as [HA HF].
  split; [ | split].
  - exact (proj1 (HA Examples.ackermann (Examples.steady 0.2) Examples.locks_free
                     1300000000%Z 10000000%Z)).
  - exact (proj1 (HA Examples.ackermann (Examples.steady 0.2) Examples.locks_busy
                     1300000000%Z 10000000%Z)).
  - assert (Ho : { o | FourWheelSteering.compute_odometry (Examples.steady 0.2)
                         1300000000%Z Examples.direct_axle = Some o }).
    { eexists. vm_compute. reflexivity. }
    destruct Ho as [o Ho].
    assert (Ht : { t | transforms (FourWheelSteering.tf_odom_pub_ Examples.direct_axle) =
                       [t] }).
    { eexists. vm_compute. reflexivity. }
    destruct Ht as [t Ht].
    destruct (proj2 (HF Examples.direct_axle (Examples.steady 0.2) Examples.locks_free
                        1300000000%Z 10000000%Z) o t Ho eq_refl Ht)
      as (t' & Hp & _ & Hs & _ & _ & _ & _ & Hc & _).
    exists t'. split; [exact Hp | split; [exact Hs | ] ].
    rewrite Hc. vm_compute in Ht. injection Ht as <-. reflexivity.
Defined.

(** ** [brake], [starting], [stopping] *)

Lemma brake_effects_zero (n m : nat) (L R SL SR : list JointHandle) (e : Effect) :
  List.length L = n -> List.length R = n ->
  List.length SL = m -> List.length SR = m ->
  In e (brake_effects n m L R SL SR) <->
  exists h, e = SetCommand h 0 /\ In h (L ++ R ++ SL ++ SR).
Proof.
  intros HL HR HSL HSR. unfold brake_effects.
  rewrite in_app_iff, !in_flat_map. split.
  - intros [(i & Hi & He) | (i & Hi & He)]; apply in_seq in Hi;
      destruct He as [<- | [<- | [] ] ]; eexists; (split; [reflexivity | ]);
      rewrite !in_app_iff.
    + left. apply nth_In. lia.
    + right. left. apply nth_In. lia.
    + right. right. left. apply nth_In. lia.
    + right. right. right. apply nth_In. lia.
  - intros (h & -> & Hh). rewrite !in_app_iff in Hh.
    destruct Hh as [Hh | [Hh | [Hh | Hh] ] ];
      apply (In_nth _ _ null_handle) in Hh; destruct Hh as (i & Hi & <-).
    + left. exists i. split; [apply in_seq; lia | left; reflexivity].
    + left. exists i. split; [apply in_seq; lia | right; left; reflexivity].
    + right. exists i. split; [apply in_seq; lia | left; reflexivity].
    + right. exists i. split; [apply in_seq; lia | right; left; reflexivity].
Qed.

Section Braking.

Context {O : Type} {odometry : OdometryOps O}.

(** X24. With the joint vectors as long as the two joint counts say, as
    [init] leaves them, [brake] commands zero, and only zero, on every wheel
    and steering handle of the controller and on nothing else.  [stopping]
    does this and leaves the controller as it is; [starting] does this, takes
    its time as the time of the last publication, initialises the estimator
    with it, and keeps the command buffer and the last commands. *)
Theorem brake_zeroes_every_joint :
  (forall (c : Ackermann.AckermannController O) time,
     List.length (Ackermann.left_wheel_joints_ c) = Ackermann.wheel_joints_size_ c ->
     List.length (Ackermann.right_wheel_joints_ c) = Ackermann.wheel_joints_size_ c ->
     List.length (Ackermann.left_steering_joints_ c) = Ackermann.steering_joints_size_ c ->
     List.length (Ackermann.right_steering_joints_ c) = Ackermann.steering_joints_size_ c ->
     (forall e, In e (Ackermann.brake c) <->
                exists h, e = SetCommand h 0 /\
                          In h (Ackermann.left_wheel_joints_ c ++
                                Ackermann.right_wheel_joints_ c ++
                                Ackermann.left_steering_joints_ c ++
                                Ackermann.right_steering_joints_ c)) /\
     Ackermann.stopping time c = (c, Ackermann.brake c) /\
     snd (Ackermann.starting time c) = Ackermann.brake c /\
     Ackermann.last_state_publish_time_ (fst (Ackermann.starting time c)) = time /\
     Ackermann.odometry_ (fst (Ackermann.starting time c)) =
       odometry_init (Ackermann.odometry_ c) time /\
     Ackermann.command_ (fst (Ackermann.starting time c)) = Ackermann.command_ c /\
     Ackermann.last0_cmd_ (fst (Ackermann.starting time c)) = Ackermann.last0_cmd_ c /\
     Ackermann.last1_cmd_ (fst (Ackermann.starting time c)) = Ackermann.last1_cmd_ c) /\
  (forall (c : FourWheelSteering.FourWheelSteeringController O) time,
     List.length (FourWheelSteering.left_wheel_joints_ c) =
       FourWheelSteering.wheel_joints_size_ c ->
     List.length (FourWheelSteering.right_wheel_joints_ c) =
       FourWheelSteering.wheel_joints_size_ c ->
     List.length (FourWheelSteering.left_steering_joints_ c) =
       FourWheelSteering.steering_joints_size_ c ->
     List.length (FourWheelSteering.right_steering_joints_ c) =
       FourWheelSteering.steering_joints_size_ c ->
     (forall e, In e (FourWheelSteering.brake c) <->
                exists h, e = SetCommand h 0 /\
                          In h (FourWheelSteering.left_wheel_joints_ c ++
                                FourWheelSteering.right_wheel_joints_ c ++
                                FourWheelSteering.left_steering_joints_ c ++
                                FourWheelSteering.right_steering_joints_ c)) /\
     FourWheelSteering.stopping time c = (c, FourWheelSteering.brake c) /\
     snd (FourWheelSteering.starting time c) = FourWheelSteering.brake c /\
     FourWheelSteering.last_state_publish_time_ (fst (FourWheelSteering.starting time c)) =
       time /\
     FourWheelSteering.odometry_ (fst (FourWheelSteering.starting time c)) =
       odometry_init (FourWheelSteering.odometry_ c) time /\
     FourWheelSteering.read_command (fst (FourWheelSteering.starting time c)) =
       FourWheelSteering.read_command c /\
     FourWheelSteering.last0_cmd_ (fst (FourWheelSteering.starting time c)) =
       FourWheelSteering.last0_cmd_ c /\
     FourWheelSteering.last1_cmd_ (fst (FourWheelSteering.starting time c)) =
       FourWheelSteering.last1_cmd_ c).
Proof.
  split; intros c time H1 H2 H3 H4.
  - split; [ | repeat split].
    intros e. unfold Ackermann.brake. apply brake_effects_zero; assumption.
  - split; [ | repeat split].
    intros e. unfold FourWheelSteering.brake. apply brake_effects_zero; assumption.
Qed.

End Braking.

(** The two examples: four and eight joints are commanded zero. *)
Lemma brake_zeroes_every_joint_witness :
  (forall e, In e (Ackermann.brake Examples.ackermann) <->
             exists h, e = SetCommand h 0 /\
                       In h [ {| iface := VelocityJointInterface; joint_name := "rl_wheel" |};
                              {| iface := VelocityJointInterface; joint_name := "rr_wheel" |};
                              {| iface := VelocityJointInterface; joint_name := "fl_steer" |};
                              {| iface := VelocityJointInterface; joint_name := "fr_steer" |} ]) /\
  List.length (FourWheelSteering.brake Examples.direct_axle) = 8%nat /\
  In (SetCommand {| iface := PositionJointInterface; joint_name := "rr_steer" |} 0)
     (FourWheelSteering.brake Examples.direct_axle).
Proof.
  destruct (@brake_zeroes_every_joint _ Examples.estimator) as [HA HF].
  split; [ | split].
  - exact (proj1 (HA Examples.ackermann 0%Z eq_refl eq_refl eq_refl eq_refl)).
  - reflexivity.
  - apply (proj1 (HF Examples.direct_axle 0%Z eq_refl eq_refl eq_refl eq_refl)).
    eexists. split; [reflexivity | ]. vm_compute. tauto.
Defined.

(** ** The timeout of a command *)

Lemma nan_ltb_l (a b : float) : is_nan a = true -> (a <? b) = false.
Proof.
  intros H. apply is_nan_inv in H. subst a.
  rewrite ltb_spec. unfold SFltb.
  replace (Prim2SF nan) with S754_nan by reflexivity.
  destruct (Prim2SF b); reflexivity.
Qed.

(** X25. The timeout test is strict and false on NaN: a command whose age,
    [time - stamp] in seconds, is at most [cmd_vel_timeout_] (equal
    included) is used as it is, and so is every command when the timeout is
    NaN. *)
Theorem command_within_timeout_is_kept :
  (forall time timeout (cmd : Ackermann.Commands),
     (toSec (time - Ackermann.stamp cmd)%Z <=? timeout) = true \/ is_nan timeout = true ->
     Ackermann.brake_if_timeout time timeout cmd = cmd) /\
  (forall time timeout (cmd : FourWheelSteering.Commands),
     (toSec (time - FourWheelSteering.stamp cmd)%Z <=? timeout) = true \/
     is_nan timeout = true ->
     FourWheelSteering.brake_if_timeout time timeout cmd = cmd).
Proof.
  split; intros time timeout cmd H.
  - unfold Ackermann.brake_if_timeout. cbv zeta.
    destruct H as [H | H]; [rewrite (leb_not_ltb _ _ H) | rewrite (nan_ltb_l _ _ H)];
      reflexivity.
  - unfold FourWheelSteering.brake_if_timeout. cbv zeta.
    destruct H as [H | H]; [rewrite (leb_not_ltb _ _ H) | rewrite (nan_ltb_l _ _ H)];
      reflexivity.
Qed.

(** A command stamped 1 s, at 1.5 s, with a timeout of 0.5 s: the age is the
    timeout and the command is kept. *)
Lemma command_within_timeout_is_kept_witness :
  Ackermann.brake_if_timeout 1500000000%Z 0.5
    {| Ackermann.lin := 1.0; Ackermann.ang := 0.5; Ackermann.stamp := 1000000000%Z |} =
    {| Ackermann.lin := 1.0; Ackermann.ang := 0.5; Ackermann.stamp := 1000000000%Z |} /\
  FourWheelSteering.brake_if_timeout 9000000000%Z nan
    {| FourWheelSteering.lin := 1.0; FourWheelSteering.ang := 0;
       FourWheelSteering.front_steering := 0.3; FourWheelSteering.rear_steering := 0;
       FourWheelSteering.stamp := 0%Z |} =
    {| FourWheelSteering.lin := 1.0; FourWheelSteering.ang := 0;
       FourWheelSteering.front_steering := 0.3; FourWheelSteering.rear_steering := 0;
       FourWheelSteering.stamp := 0%Z |}.
Proof.
  split.
  - apply (proj1 command_within_timeout_is_kept). left. reflexivity.
  - apply (proj2 command_within_timeout_is_kept). right. reflexivity.
Defined.

(** ** From a message to the joints *)

Section Commands.

Context {O : Type} {odometry : OdometryOps O} {env : Env}.

(** X26. A twist received while the ackermann controller runs drives the
    wheels in the next cycle: when that cycle is not aborted, the twist is
    not older than the timeout and the two limiters let their value through,
    every left wheel is commanded [(v - w * ws / 2) / wr] and every right
    wheel [(v + w * ws / 2) / wr], with [v] the [linear.x] and [w] the
    [angular.z] of the message, [ws] and [wr] the separation and the radius
    times their multipliers. *)
Theorem twist_reaches_the_wheels
  (c : Ackermann.AckermannController O) (now : Time) (command : Ackermann.Twist)
  (s : Sensors) (lk : Locks) (time : Time) (period : Duration) (o : O) :
  let received := fst (Ackermann.cmdVelCallback now command c) in
  let v := vx (Ackermann.linear command) in
  let w := vz (Ackermann.angular command) in
  let ws := Ackermann.wheel_separation_multiplier_ c * Ackermann.wheel_separation_ c in
  let wr := Ackermann.wheel_radius_multiplier_ c * Ackermann.wheel_radius_ c in
  Ackermann.state_ c = RUNNING ->
  Ackermann.compute_odometry s time received = Some o ->
  (Ackermann.cmd_vel_timeout_ c <? toSec (time - now)%Z) = false ->
  (forall x x0 x1 dt, limit (Ackermann.limiter_lin_ c) x x0 x1 dt = x) ->
  (forall x x0 x1 dt, limit (Ackermann.limiter_ang_ c) x x0 x1 dt = x) ->
  filter is_SetCommand (snd (Ackermann.update s lk time period received)) =
  flat_map (fun i =>
              [ SetCommand (nth i (Ackermann.left_wheel_joints_ c) null_handle)
                           ((v - w * ws / 2.0) / wr);
                SetCommand (nth i (Ackermann.right_wheel_joints_ c) null_handle)
                           ((v + w * ws / 2.0) / wr) ])
           (seq 0 (Ackermann.wheel_joints_size_ c)).
Proof.
  intros received v w ws wr Hrun Ho Hfresh Hlin Hang.
  assert (Hc : Ackermann.command_ received =
               {| Ackermann.lin := v; Ackermann.ang := w; Ackermann.stamp := now |}).
  { subst received. unfold Ackermann.cmdVelCallback, Ackermann.isRunning.
    rewrite Hrun. reflexivity. }
  assert (Hsame : received =
                  c <| Ackermann.command_struct_ := Ackermann.command_ received |>
                    <| Ackermann.command_ := Ackermann.command_ received |>).
  { subst received. unfold Ackermann.cmdVelCallback, Ackermann.isRunning.
    rewrite Hrun. destruct c. reflexivity. }
  destruct (ackermann_update_fields s lk time period received o Ho)
    as (_ & _ & _ & _ & Hsnd).
  rewrite Hsnd.
  rewrite filter_app_nil by apply ackermann_publish_no_command.
  rewrite ackermann_wheels_all_commands.
  unfold Ackermann.limited_command, Ackermann.brake_if_timeout. cbv zeta.
  rewrite Hc. cbn [Ackermann.stamp].
  replace (Ackermann.cmd_vel_timeout_ received) with (Ackermann.cmd_vel_timeout_ c)
    by (rewrite Hsame; reflexivity).
  rewrite Hfresh.
  unfold Ackermann.limit_command. cbv zeta.
  replace (Ackermann.limiter_lin_ received) with (Ackermann.limiter_lin_ c)
    by (rewrite Hsame; reflexivity).
  replace (Ackermann.limiter_ang_ received) with (Ackermann.limiter_ang_ c)
    by (rewrite Hsame; reflexivity).
  unfold Ackermann.set_wheels_velocities, Ackermann.vel_left, Ackermann.vel_right.
  cbn [Ackermann.lin Ackermann.ang RecordSetters.apply_update]. rewrite Hlin, Hang.
  rewrite Hsame. reflexivity.
Qed.

(** The effects of the publishing block depend on the controller only
    through the estimator, the two messages, the date of the last publication,
    the period and [enable_odom_tf_]. *)
Lemma four_wheel_steering_publish_effects
  (c c1 : FourWheelSteering.FourWheelSteeringController O) (lk : Locks) (time : Time) :
  FourWheelSteering.last_state_publish_time_ c1 =
    FourWheelSteering.last_state_publish_time_ c ->
  FourWheelSteering.publish_period_ c1 = FourWheelSteering.publish_period_ c ->
  FourWheelSteering.enable_odom_tf_ c1 = FourWheelSteering.enable_odom_tf_ c ->
  FourWheelSteering.odometry_ c1 = FourWheelSteering.odometry_ c ->
  FourWheelSteering.odom_pub_ c1 = FourWheelSteering.odom_pub_ c ->
  FourWheelSteering.tf_odom_pub_ c1 = FourWheelSteering.tf_odom_pub_ c ->
  snd (FourWheelSteering.publish_odometry lk time c1) =
  snd (FourWheelSteering.publish_odometry lk time c).
Proof.
  intros H1 H2 H3 H4 H5 H6. destruct c, c1.
  cbn [FourWheelSteering.last_state_publish_time_ FourWheelSteering.publish_period_
       FourWheelSteering.enable_odom_tf_ FourWheelSteering.odometry_
       FourWheelSteering.odom_pub_ FourWheelSteering.tf_odom_pub_] in *.
  subst. unfold FourWheelSteering.publish_odometry. cbn.
  split_ifs; reflexivity.
Qed.

(** X27. The four-wheel-steering controller obeys one kind of message only.
    With [enable_twist_cmd_] off a twist given to [cmdVelCallback] changes
    nothing of what the following [update] does, and with it on neither does
    a message given to [cmdFourWheelSteeringCallback]: the cycle has the
    effects it would have had without the message. *)
Theorem message_of_the_other_mode_is_ignored
  (c : FourWheelSteering.FourWheelSteeringController O) (now : Time)
  (s : Sensors) (lk : Locks) (time : Time) (period : Duration) :
  (forall command,
     FourWheelSteering.enable_twist_cmd_ c = false ->
     snd (FourWheelSteering.update s lk time period
            (fst (FourWheelSteering.cmdVelCallback now command c))) =
     snd (FourWheelSteering.update s lk time period c)) /\
  (forall command,
     FourWheelSteering.enable_twist_cmd_ c = true ->
     snd (FourWheelSteering.update s lk time period
            (fst (FourWheelSteering.cmdFourWheelSteeringCallback now command c))) =
     snd (FourWheelSteering.update s lk time period c)).
Proof.
  split; intros command Hmode.
  - unfold FourWheelSteering.cmdVelCallback, FourWheelSteering.isRunning.
    destruct (FourWheelSteering.state_ c); try reflexivity.
    cbv zeta. cbn [fst].
    match goal with |- snd (FourWheelSteering.update _ _ _ _ ?x) = _ => set (c1 := x) end.
    destruct (FourWheelSteering.compute_odometry s time c) as [o | ] eqn:Ho.
    + assert (Ho1 : FourWheelSteering.compute_odometry s time c1 = Some o) by exact Ho.
      rewrite (four_wheel_steering_update_completed s lk time period c o Ho).
      rewrite (four_wheel_steering_update_completed s lk time period c1 o Ho1).
      cbv zeta. unfold FourWheelSteering.limited_command, FourWheelSteering.read_command.
      change (FourWheelSteering.enable_twist_cmd_ c1)
        with (FourWheelSteering.enable_twist_cmd_ c).
      rewrite Hmode. cbn [snd negb]. f_equal.
      apply four_wheel_steering_publish_effects; reflexivity.
    + assert (Ho1 : FourWheelSteering.compute_odometry s time c1 = None) by exact Ho.
      rewrite (four_wheel_steering_update_aborted s lk time period c Ho).
      rewrite (four_wheel_steering_update_aborted s lk time period c1 Ho1).
      reflexivity.
  - unfold FourWheelSteering.cmdFourWheelSteeringCallback, FourWheelSteering.isRunning.
    destruct (FourWheelSteering.state_ c); try reflexivity.
    cbv zeta. cbn [fst].
    match goal with |- snd (FourWheelSteering.update _ _ _ _ ?x) = _ => set (c1 := x) end.
    destruct (FourWheelSteering.compute_odometry s time c) as [o | ] eqn:Ho.
    + assert (Ho1 : FourWheelSteering.compute_odometry s time c1 = Some o) by exact Ho.
      rewrite (four_wheel_steering_update_completed s lk time period c o Ho).
      rewrite (four_wheel_steering_update_completed s lk time period c1 o Ho1).
      cbv zeta. unfold FourWheelSteering.limited_command, FourWheelSteering.read_command.
      change (FourWheelSteering.enable_twist_cmd_ c1)
        with (FourWheelSteering.enable_twist_cmd_ c).
      rewrite Hmode. cbn [snd negb]. f_equal.
      apply four_wheel_steering_publish_effects; reflexivity.
    + assert (Ho1 : FourWheelSteering.compute_odometry s time c1 = None) by exact Ho.
      rewrite (four_wheel_steering_update_aborted s lk time period c Ho).
      rewrite (four_wheel_steering_update_aborted s lk time period c1 Ho1).
      reflexivity.
Qed.

End Commands.

(** A twist (1.0, 2.0) received at 1.2 s by the ackermann example, separation
    0.5 and radius 0.1 without limits: the cycle at 1.3 s commands 5 and 15. *)
Lemma twist_reaches_the_wheels_witness :
  filter is_SetCommand
    (snd (Ackermann.update (Examples.steady 0.2) Examples.locks_free
            1300000000%Z 10000000%Z
            (fst (Ackermann.cmdVelCallback 1200000000%Z (Examples.twist 1.0 2.0)
                                           Examples.ackermann)))) =
  [ SetCommand {| iface := VelocityJointInterface; joint_name := "rl_wheel" |} 5;
    SetCommand {| iface := VelocityJointInterface; joint_name := "rr_wheel" |} 15 ].
Proof.
  assert (Ho : { o | Ackermann.compute_odometry (Examples.steady 0.2) 1300000000%Z
                       (fst (Ackermann.cmdVelCallback 1200000000%Z
                               (Examples.twist 1.0 2.0) Examples.ackermann)) = Some o }).
  { eexists. vm_compute. reflexivity. }
  destruct Ho as [o Ho].
  rewrite (@twist_reaches_the_wheels _ Examples.estimator Examples.env
             Examples.ackermann 1200000000%Z (Examples.twist 1.0 2.0)
             (Examples.steady 0.2) Examples.locks_free 1300000000%Z 10000000%Z o
             eq_refl Ho eq_refl (fun _ _ _ _ => eq_refl) (fun _ _ _ _ => eq_refl)).
  vm_compute. reflexivity.
Defined.

(** The direct-axle example is deaf to a twist, the twist-mode example to a
    drive message. *)
Lemma message_of_the_other_mode_is_ignored_witness :
  snd (FourWheelSteering.update (Examples.steady 0.2) Examples.locks_free
         1300000000%Z 10000000%Z
         (fst (FourWheelSteering.cmdVelCallback 1200000000%Z (Examples.twist4 1.0 2.0)
                 Examples.direct_axle))) =
  snd (FourWheelSteering.update (Examples.steady 0.2) Examples.locks_free
         1300000000%Z 10000000%Z Examples.direct_axle) /\
  snd (FourWheelSteering.update (Examples.steady 0.2) Examples.locks_free
         1300000000%Z 10000000%Z
         (fst (FourWheelSteering.cmdFourWheelSteeringCallback 1200000000%Z
                 (Examples.drive 1.0 0.3 (-0.2)) Examples.twist_mode))) =
  snd (FourWheelSteering.update (Examples.steady 0.2) Examples.locks_free
         1300000000%Z 10000000%Z Examples.twist_mode).
Proof.
  split.
  - exact (proj1 (@message_of_the_other_mode_is_ignored _ Examples.estimator Examples.env
                    Examples.direct_axle 1200000000%Z (Examples.steady 0.2)
                    Examples.locks_free 1300000000%Z 10000000%Z)
                 (Examples.twist4 1.0 2.0) eq_refl).
  - exact (proj2 (@message_of_the_other_mode_is_ignored _ Examples.estimator Examples.env
                    Examples.twist_mode 1200000000%Z (Examples.steady 0.2)
                    Examples.locks_free 1300000000%Z 10000000%Z)
                 (Examples.drive 1.0 0.3 (-0.2)) eq_refl).
Defined.
